(** * Booking listing handler (viewer.bookings.get)

    A shallow embedding of the [getHandler] / [getBookings] /
    [getUniqueBookings] functions of the booking listing handler, together
    with the semantics of the store queries they issue, and the properties
    of the listing established on that embedding. *)

From Stdlib Require Import ZArith.
From Stdlib Require OrderedTypeEx.
From stdpp Require Import base option list sorting gmap strings.

Local Open Scope Z_scope.

(** ** Results of fallible computations

    A rejected promise or a thrown exception is an [Err]; the handler has no
    [try]/[catch], so every failure propagates to the caller. *)

Inductive Failure :=
  | StoreQueryError (msg : string)
  | ValidationError (msg : string)
  | TypeError (msg : string).

Inductive Result (A : Type) :=
  | Ok (a : A)
  | Err (e : Failure).
Arguments Ok {A} a.
Arguments Err {A} e.

#[global] Instance result_ret : MRet Result := fun A a => Ok a.
#[global] Instance result_bind : MBind Result := fun A B f m =>
  match m with
  | Ok a => f a
  | Err e => Err e
  end.
#[global] Instance result_fmap : FMap Result := fun A B f m =>
  match m with
  | Ok a => Ok (f a)
  | Err e => Err e
  end.

Definition isOk {A} (r : Result A) : bool :=
  match r with Ok _ => true | Err _ => false end.

Definition rejection {A} (r : Result A) : option Failure :=
  match r with Ok _ => None | Err e => Some e end.

(** [arr.map(f)] where [f] may throw: the first throwing element aborts. *)
Fixpoint mapM {A B} (f : A -> Result B) (l : list A) : Result (list B) :=
  match l with
  | [] => Ok []
  | x :: l => y ← f x; ys ← mapM f l; Ok (y :: ys)
  end.

(** ** JSON values and JavaScript truthiness *)

Unset Elimination Schemes.
Inductive Json :=
  | JNull
  | JBool (b : bool)
  | JNum (n : Z)
  | JStr (s : string)
  | JArr (items : list Json)
  | JObj (fields : list (string * Json)).
Set Elimination Schemes.

Definition truthy (j : Json) : bool :=
  match j with
  | JNull => false
  | JBool b => b
  | JNum n => negb (n =? 0)
  | JStr s => negb (String.eqb s "")
  | JArr _ | JObj _ => true
  end.

(** ** Data model

    Modelled from the spec: the schema of the store is not among the
    sources.  The records below hold, for each entity of the data model, the
    columns and relations that the handler's queries and projection name. *)

Inductive BookingStatus := ACCEPTED | CANCELLED | REJECTED | PENDING | AWAITING_HOST.

#[global] Instance BookingStatus_eq_dec : EqDecision BookingStatus.
Proof. solve_decision. Defined.

Definition allStatuses : list BookingStatus :=
  [ACCEPTED; CANCELLED; REJECTED; PENDING; AWAITING_HOST].

Definition statusCode (s : BookingStatus) : nat :=
  match s with
  | ACCEPTED => 0 | CANCELLED => 1 | REJECTED => 2 | PENDING => 3 | AWAITING_HOST => 4
  end%nat.

#[global] Instance BookingStatus_countable : Countable BookingStatus.
Proof.
  refine (inj_countable' statusCode
            (fun n => match n with
                      | 0 => ACCEPTED | 1 => CANCELLED | 2 => REJECTED
                      | 3 => PENDING | _ => AWAITING_HOST
                      end%nat) _).
  by intros [].
Defined.

Definition statusEqb (a b : BookingStatus) : bool := bool_decide (a = b).

Inductive MembershipRole := MEMBER | ADMIN | OWNER.

Inductive SortOrder := asc | desc.

Module Membership.
Record t := { userId : Z; role : MembershipRole }.
End Membership.

(** A team's parent organisation, as far as the queries traverse it. *)
Module Organization.
Record t := { id : Z; members : list Membership.t }.
End Organization.

Module Team.
Record t := {
  id : Z;
  name : string;
  parent : option Organization.t;
  members : list Membership.t }.
(** The foreign key of the [parent] relation. *)
Definition parentId (x : t) : option Z := Organization.id <$> parent x.
End Team.

(** The parent event type of a managed event type. *)
Module ParentEventType.
Record t := { id : Z; team : option Team.t }.
End ParentEventType.

Module EventType.
Record t := {
  id : Z;
  slug : string;
  eventName : option string;
  price : Z;
  recurringEvent : Json;
  currency : string;
  metadata : Json;
  seatsShowAttendees : option bool;
  seatsShowAvailabilityCount : option bool;
  team : option Team.t;
  parent : option ParentEventType.t;
  hosts : list Z;
  users : list Z }.
Definition teamId (x : t) : option Z := Team.id <$> team x.
Definition parentId (x : t) : option Z := ParentEventType.id <$> parent x.
End EventType.

Module User.
Record t := {
  id : Z;
  name : option string;
  email : string;
  teams : list Team.t }.
End User.

Module Attendee.
Record t := { email : string; name : string; timeZone : string }.
End Attendee.

Module BookingSeat.
Record t := { referenceUid : string; attendee : Attendee.t }.
End BookingSeat.

Module Payment.
Record t := {
  paymentOption : option string;
  amount : Z;
  currency : string;
  success : bool }.
End Payment.

Module BookingReference.
Record t := { type : string; uid : string }.
End BookingReference.

Module Booking.
(** Modelled from the spec: a booking row with the relations the queries
    reach from it.  Times are milliseconds since the epoch. *)
Record t := {
  id : Z;
  uid : string;
  title : string;
  description : option string;
  startTime : Z;
  endTime : Z;
  attendees : list Attendee.t;
  recurringEventId : option string;
  location : option string;
  eventType : option EventType.t;
  status : BookingStatus;
  paid : bool;
  payment : list Payment.t;
  user : option User.t;
  rescheduled : option bool;
  references : list BookingReference.t;
  isRecorded : bool;
  seatsReferences : list BookingSeat.t }.
Definition userId (b : t) : option Z := User.id <$> user b.
Definition eventTypeId (b : t) : option Z := EventType.id <$> eventType b.
End Booking.

(** The session user: [{ id: number; email: string }]. *)
Module Viewer.
Record t := { id : Z; email : string }.
End Viewer.

(** ** [getUniqueBookings] and its module-level [set] *)

Class HasUid (T : Type) := uidOf : T -> string.

#[global] Instance Booking_HasUid : HasUid Booking.t := Booking.uid.

(** [const set = new Set()] *)
Definition set_init : gset string := ∅.

Section Dedup.
Context {T : Type} `{HasUid T}.

(** [arr.filter(cb)]: the callback runs on the elements from left to right
    and threads the shared [set] through. *)
Fixpoint filterUnique (arr : list T) (set : gset string) : list T * gset string :=
  match arr with
  | [] => ([], set)
  | booking :: rest =>
      let duplicate := bool_decide (uidOf booking ∈ set) in
      let set := {[uidOf booking]} ∪ set in
      let '(unique, set) := filterUnique rest set in
      (if negb duplicate then booking :: unique else unique, set)
  end.

Definition getUniqueBookings (arr : list T) (set : gset string) : list T * gset string :=
  let '(unique, set) := filterUnique arr set in
  let set : gset string := ∅ in (* set.clear() *)
  (unique, set).

(** A run of calls, one after the other, on the shared set: the outputs,
    the contents of the set at each entry, and the final set. *)
Fixpoint runCalls (calls : list (list T)) (set : gset string)
  : list (list T) * list (gset string) * gset string :=
  match calls with
  | [] => ([], [], set)
  | arr :: calls =>
      let '(out, set') := getUniqueBookings arr set in
      let '(outs, entries, final) := runCalls calls set' in
      (out :: outs, set :: entries, final)
  end.

(** The entries whose uid has not occurred earlier in the list, [pre]
    being the part of the list already passed. *)
Fixpoint keepUnseen (pre arr : list T) : list T :=
  match arr with
  | [] => []
  | b :: rest =>
      (if bool_decide (uidOf b ∈ uidOf <$> pre) then [] else [b])
        ++ keepUnseen (pre ++ [b]) rest
  end.
End Dedup.

(** ** Request input *)

Inductive StatusTag := upcoming | recurring | past | cancelled | unconfirmed.

Module Filters.
(** Modelled from the spec: the [filters] of the input schema
    ([TGetInputSchema], not among the sources): a status tag and three
    optional lists of ids. *)
Record t := {
  status : StatusTag;
  teamIds : option (list Z);
  userIds : option (list Z);
  eventTypeIds : option (list Z) }.
End Filters.

Module Input.
(** Modelled from the spec: the input schema: the filters, and an optional
    limit and cursor. *)
Record t := {
  filters : Filters.t;
  limit : option Z;
  cursor : option Z }.
End Input.

(** ** Store query conditions

    A [where] object is a predicate on booking rows.  The combinators below
    are the operators of the query language the handler uses; a condition on
    a column that is NULL does not hold, and an object with several keys is
    the conjunction of its keys. *)

Definition WhereInput := Booking.t -> bool.

Definition AND (ws : list WhereInput) : WhereInput :=
  fun b => forallb (fun w => w b) ws.
Definition OR (ws : list WhereInput) : WhereInput :=
  fun b => existsb (fun w => w b) ws.
Definition NOT (w : WhereInput) : WhereInput :=
  fun b => negb (w b).

(** [{ gte: d }] and [{ lte: d }] on a date column holding [v]. *)
Definition gte (d v : Z) : bool := d <=? v.
Definition lte (d v : Z) : bool := v <=? d.
(** [{ gt: n }] on a nullable integer column. *)
Definition gtOpt (n : Z) (v : option Z) : bool :=
  match v with Some x => n <? x | None => false end.
(** [{ equals: null }] and [{ not: null }]. *)
Definition equalsNull {A} (v : option A) : bool :=
  match v with None => true | Some _ => false end.
Definition notNull {A} (v : option A) : bool := negb (equalsNull v).
(** [{ equals: s }] and [{ notIn: l }] on the status column. *)
Definition statusEquals (s : BookingStatus) (v : BookingStatus) : bool := statusEqb v s.
Definition statusNotIn (l : list BookingStatus) (v : BookingStatus) : bool :=
  negb (existsb (statusEqb v) l).
(** [col: n] and [{ in: l }] on integer columns, nullable or not. *)
Definition equalsZ (n : Z) (v : option Z) : bool :=
  match v with Some x => x =? n | None => false end.
Definition inZ (l : list Z) (v : Z) : bool := existsb (Z.eqb v) l.
Definition inZOpt (l : list Z) (v : option Z) : bool :=
  match v with Some x => inZ l x | None => false end.
(** A condition on a to-one relation holds when the related row exists and
    satisfies it; [{ some: c }] on a to-many relation is [existsb]. *)
Definition rel {A} (c : A -> bool) (v : option A) : bool :=
  match v with Some x => c x | None => false end.
Definition some {A} (c : A -> bool) (l : list A) : bool := existsb c l.

(** ** Filter resolver: [bookingListingFilters] and [bookingListingOrderby]

    [now] is the reading of [new Date()] taken when the entry of the selected
    status tag is built. *)

Definition bookingListingFilters (now : Z) (bookingListingByStatus : StatusTag)
  : WhereInput :=
  match bookingListingByStatus with
  | upcoming => fun b =>
      gte now (Booking.endTime b)
      && OR [ (fun b => notNull (Booking.recurringEventId b)
                        && statusEquals ACCEPTED (Booking.status b));
              (fun b => equalsNull (Booking.recurringEventId b)
                        && statusNotIn [CANCELLED; REJECTED] (Booking.status b)) ] b
  | recurring => fun b =>
      gte now (Booking.endTime b)
      && AND [ NOT (fun b => equalsNull (Booking.recurringEventId b));
               (fun b => statusNotIn [CANCELLED; REJECTED] (Booking.status b)) ] b
  | past => fun b =>
      lte now (Booking.endTime b)
      && AND [ NOT (fun b => statusEquals CANCELLED (Booking.status b));
               NOT (fun b => statusEquals REJECTED (Booking.status b)) ] b
  | cancelled =>
      OR [ (fun b => statusEquals CANCELLED (Booking.status b));
           (fun b => statusEquals REJECTED (Booking.status b)) ]
  | unconfirmed => fun b =>
      gte now (Booking.endTime b)
      && statusEquals PENDING (Booking.status b)
  end.

Definition bookingListingOrderby (bookingListingByStatus : StatusTag) : SortOrder :=
  match bookingListingByStatus with
  | upcoming => asc
  | recurring => asc
  | past => desc
  | cancelled => desc
  | unconfirmed => asc
  end.

(** The table of the filter resolver, in the words of the specification. *)
Definition statusIn (l : list BookingStatus) (s : BookingStatus) : Prop := s ∈ l.

Definition tablePredicate (now : Z) (tag : StatusTag) (b : Booking.t) : Prop :=
  match tag with
  | upcoming =>
      now <= Booking.endTime b
      ∧ ((is_Some (Booking.recurringEventId b) ∧ Booking.status b = ACCEPTED)
         ∨ (Booking.recurringEventId b = None
            ∧ ¬ statusIn [CANCELLED; REJECTED] (Booking.status b)))
  | recurring =>
      now <= Booking.endTime b
      ∧ is_Some (Booking.recurringEventId b)
      ∧ ¬ statusIn [CANCELLED; REJECTED] (Booking.status b)
  | past =>
      Booking.endTime b <= now
      ∧ ¬ statusIn [CANCELLED; REJECTED] (Booking.status b)
  | cancelled => statusIn [CANCELLED; REJECTED] (Booking.status b)
  | unconfirmed =>
      now <= Booking.endTime b ∧ Booking.status b = PENDING
  end.

Definition tableOrder (tag : StatusTag) : SortOrder :=
  match tag with
  | upcoming | recurring | unconfirmed => asc
  | past | cancelled => desc
  end.

(** ** Scoping filters: [bookingWhereInputFilters] and [filtersCombined] *)

Definition whereTeamIds (teamIds : list Z) : WhereInput :=
  AND [ fun b => rel (fun et => rel (fun t => inZ teamIds (Team.id t)) (EventType.team et))
                     (Booking.eventType b) ].

Definition whereUserIds (userIds : list Z) : WhereInput :=
  AND [ OR [ (fun b => rel (fun et => some (inZ userIds) (EventType.hosts et))
                           (Booking.eventType b));
             (fun b => inZOpt userIds (Booking.userId b));
             (fun b => rel (fun et => some (inZ userIds) (EventType.users et))
                           (Booking.eventType b)) ] ].

Definition whereEventTypeIds (eventTypeIds : list Z) : WhereInput :=
  AND [ fun b => inZOpt eventTypeIds (Booking.eventTypeId b) ].

(** [Object.keys(filters).map(key => bookingWhereInputFilters[key]).filter(Boolean)]:
    one condition per scoping key that is present; the [status] key has no
    entry and is dropped.  The conditions are only ever used under [AND]. *)
Definition filtersCombined (filters : Filters.t) : list WhereInput :=
  omap id [ whereTeamIds <$> Filters.teamIds filters;
            whereUserIds <$> Filters.userIds filters;
            whereEventTypeIds <$> Filters.eventTypeIds filters ].

(** ** The five visibility conditions *)

Definition adminOrOwner (user : Viewer.t) (m : Membership.t) : bool :=
  (Membership.userId m =? Viewer.id user)
  && match Membership.role m with ADMIN | OWNER => true | MEMBER => false end.

Definition whereQueryUserId (user : Viewer.t) (passed : WhereInput)
    (combined : list WhereInput) : WhereInput :=
  fun b =>
    OR [ fun b => equalsZ (Viewer.id user) (Booking.userId b) ] b
    && AND (passed :: combined) b.

Definition whereQueryAttendees (user : Viewer.t) (passed : WhereInput)
    (combined : list WhereInput) : WhereInput :=
  fun b =>
    OR [ fun b => some (fun a => String.eqb (Attendee.email a) (Viewer.email user))
                       (Booking.attendees b) ] b
    && AND (passed :: combined) b.

Definition whereQueryTeamEvents (user : Viewer.t) (passed : WhereInput)
    (combined : list WhereInput) : WhereInput :=
  fun b =>
    OR [ (fun b => rel (fun et => rel (fun t => rel (fun p =>
                     some (adminOrOwner user) (Organization.members p))
                     (Team.parent t)) (EventType.team et)) (Booking.eventType b));
         (fun b => rel (fun et => rel (fun t =>
                     some (adminOrOwner user) (Team.members t))
                     (EventType.team et)) (Booking.eventType b));
         (fun b => rel (fun et => rel (fun pe => rel (fun t =>
                     some (adminOrOwner user) (Team.members t))
                     (ParentEventType.team pe)) (EventType.parent et))
                     (Booking.eventType b));
         (fun b => rel (fun et => rel (fun pe => rel (fun t => rel (fun p =>
                     some (adminOrOwner user) (Organization.members p))
                     (Team.parent t)) (ParentEventType.team pe)) (EventType.parent et))
                     (Booking.eventType b)) ] b
    && AND (passed :: combined) b.

Definition whereQueryTeamUsersPersonalEvents (user : Viewer.t) (passed : WhereInput)
    (combined : list WhereInput) : WhereInput :=
  AND ([ (fun b => rel (fun u => some (fun t => gtOpt 0 (Team.parentId t)) (User.teams u))
                       (Booking.user b));
         OR [ (fun b => rel (fun u => some (fun t => rel (fun p =>
                          some (adminOrOwner user) (Organization.members p))
                          (Team.parent t)) (User.teams u)) (Booking.user b));
              (fun b => rel (fun u => some (fun t =>
                          some (adminOrOwner user) (Team.members t))
                          (User.teams u)) (Booking.user b)) ];
         (fun b => rel (fun et => equalsNull (EventType.teamId et)) (Booking.eventType b));
         (fun b => rel (fun et => equalsNull (EventType.parentId et)) (Booking.eventType b));
         passed ] ++ combined).

Definition whereQuerySeatReference (user : Viewer.t) (passed : WhereInput)
    (combined : list WhereInput) : WhereInput :=
  fun b =>
    OR [ fun b => some (fun s => String.eqb (Attendee.email (BookingSeat.attendee s))
                                            (Viewer.email user))
                       (Booking.seatsReferences b) ] b
    && AND (passed :: combined) b.

(** The condition of the two aggregate queries. *)
Definition whereRecurringInfo (user : Viewer.t) : WhereInput :=
  fun b => notNull (Booking.recurringEventId b)
           && equalsZ (Viewer.id user) (Booking.userId b).

(** ** The store client

    The client answers queries from one snapshot [rows] of the booking table.
    Each query the handler issues is named; [fault] says which of them the
    store fails (with which message) and [settledAt] when each one settles,
    which decides whose rejection [Promise.all] reports. *)

Inductive Query :=
  | QUserId
  | QAttendees
  | QTeamEvents
  | QTeamUsersPersonalEvents
  | QSeatReference
  | QRecurringInfoBasic
  | QRecurringInfoExtended
  | QEnrich.

#[global] Instance Query_eq_dec : EqDecision Query.
Proof. solve_decision. Defined.

Module PrismaClient.
Record t := {
  rows : list Booking.t;
  fault : Query -> option string;
  settledAt : Query -> nat }.
End PrismaClient.

Definition startTimeOrder (o : SortOrder) (a b : Booking.t) : Prop :=
  match o with
  | asc => Booking.startTime a <= Booking.startTime b
  | desc => Booking.startTime b <= Booking.startTime a
  end.

#[global] Instance startTimeOrder_dec o : RelDecision (startTimeOrder o).
Proof. intros a b. destruct o; simpl; apply Z_le_dec. Defined.

(** [orderBy: { startTime: o }].  The order among rows of equal start time is
    left to the store; here it is the one the merge sort produces. *)
Definition sortByStartTime (o : SortOrder) (l : list Booking.t) : list Booking.t :=
  merge_sort (startTimeOrder o) l.

(** [take] and [skip]: a non-negative [take] keeps that many rows after the
    skipped ones; a negative one counts from the end of the ordered list. *)
Definition page (take : Z) (skip : nat) (l : list Booking.t) : list Booking.t :=
  if 0 <=? take then firstn (Z.to_nat take) (skipn skip l)
  else reverse (firstn (Z.to_nat (- take)) (skipn skip (reverse l))).

Definition findMany (prisma : PrismaClient.t) (q : Query) (where_ : WhereInput)
    (orderBy : SortOrder) (take : option Z) (skip : option Z)
  : Result (list Booking.t) :=
  match PrismaClient.fault prisma q with
  | Some msg => Err (StoreQueryError msg)
  | None =>
      if default 0 skip <? 0 then Err (StoreQueryError "skip")
      else
        let found := sortByStartTime orderBy
                       (filter (fun b => where_ b) (PrismaClient.rows prisma)) in
        Ok (match take with
            | Some n => page n (Z.to_nat (default 0 skip)) found
            | None => skipn (Z.to_nat (default 0 skip)) found
            end)
  end.

(** The distinct keys of a list. *)
Fixpoint distinctKeys {K} `{EqDecision K} (ks : list K) : list K :=
  match ks with
  | [] => []
  | k :: ks => k :: filter (fun k' => k' ≠ k) (distinctKeys ks)
  end.

(** A [groupBy] without [orderBy]: the store returns the groups in the order
    of their keys, the columns of [by] compared one after the other,
    whatever the order of the rows in the table.  Series ids compare as
    strings, [null] last, and start times as dates.  Statuses compare by
    their position in the enumeration; the order among statuses does not
    reach the response, as the aggregator files every row under its own
    status. *)
Definition seriesOrder (a b : option string) : Prop :=
  match a, b with
  | Some x, Some y => String.leb x y = true
  | None, Some _ => False
  | _, None => True
  end.

#[global] Instance seriesOrder_dec : RelDecision seriesOrder.
Proof. intros [x|] [y|]; simpl; apply _. Defined.

Definition statusRank (s : BookingStatus) : nat :=
  match s with
  | ACCEPTED => 0
  | CANCELLED => 1
  | REJECTED => 2
  | PENDING => 3
  | AWAITING_HOST => 4
  end.

Definition extendedKeyOrder (a b : option string * BookingStatus * Z) : Prop :=
  if decide (a.1.1 = b.1.1) then
    if decide (a.1.2 = b.1.2) then a.2 <= b.2
    else (statusRank a.1.2 < statusRank b.1.2)%nat
  else seriesOrder a.1.1 b.1.1.

#[global] Instance extendedKeyOrder_dec : RelDecision extendedKeyOrder.
Proof.
  intros a b. unfold extendedKeyOrder.
  destruct (decide (a.1.1 = b.1.1)); [destruct (decide (a.1.2 = b.1.2))|]; apply _.
Defined.

Definition groupKeys {K} `{EqDecision K} (R : relation K) `{!RelDecision R}
    (ks : list K) : list K :=
  merge_sort R (distinctKeys ks).

(** [_min] over a group: [null] only for an empty one. *)
Definition minDate (l : list Z) : option Z :=
  match l with
  | [] => None
  | x :: l => Some (foldr Z.min x l)
  end.

Module RecurringInfoBasic.
Record t := {
  recurringEventId : option string;
  count_recurringEventId : Z;
  min_startTime : option Z }.
End RecurringInfoBasic.

Module RecurringInfoExtended.
Record t := {
  recurringEventId : option string;
  status : BookingStatus;
  startTime : Z;
  min_startTime : option Z }.
End RecurringInfoExtended.

(** [groupBy({ by: [recurringEventId], _min: startTime, _count: recurringEventId })]:
    the count is that of the non-null values of the column in the group. *)
Definition groupByBasic (prisma : PrismaClient.t) (q : Query) (where_ : WhereInput)
  : Result (list RecurringInfoBasic.t) :=
  match PrismaClient.fault prisma q with
  | Some msg => Err (StoreQueryError msg)
  | None =>
      let found := filter (fun b => where_ b) (PrismaClient.rows prisma) in
      Ok ((fun k =>
             let group := filter (fun b => Booking.recurringEventId b = k) found in
             {| RecurringInfoBasic.recurringEventId := k;
                RecurringInfoBasic.count_recurringEventId :=
                  Z.of_nat (length (filter (fun b => is_Some (Booking.recurringEventId b))
                                           group));
                RecurringInfoBasic.min_startTime := minDate (Booking.startTime <$> group) |})
            <$> groupKeys seriesOrder (Booking.recurringEventId <$> found))
  end.

(** [groupBy({ by: [recurringEventId, status, startTime], _min: startTime })] *)
Definition groupByExtended (prisma : PrismaClient.t) (q : Query) (where_ : WhereInput)
  : Result (list RecurringInfoExtended.t) :=
  match PrismaClient.fault prisma q with
  | Some msg => Err (StoreQueryError msg)
  | None =>
      let found := filter (fun b => where_ b) (PrismaClient.rows prisma) in
      let key b := (Booking.recurringEventId b, Booking.status b, Booking.startTime b) in
      Ok ((fun k : option string * BookingStatus * Z =>
             let group := filter (fun b => key b = k) found in
             {| RecurringInfoExtended.recurringEventId := k.1.1;
                RecurringInfoExtended.status := k.1.2;
                RecurringInfoExtended.startTime := k.2;
                RecurringInfoExtended.min_startTime := minDate (Booking.startTime <$> group) |})
            <$> groupKeys extendedKeyOrder (key <$> found))
  end.

(** [Promise.all]: the rejection reported is that of the promise that rejects
    first; of two that settle together the one earlier in the array. *)
Fixpoint firstRejection (settledAt : Query -> nat) (ps : list (Query * option Failure))
  : option (nat * Failure) :=
  match ps with
  | [] => None
  | (q, r) :: ps =>
      let later := firstRejection settledAt ps in
      match r with
      | None => later
      | Some e =>
          match later with
          | Some (t, e') =>
              if (t <? settledAt q)%nat then Some (t, e') else Some (settledAt q, e)
          | None => Some (settledAt q, e)
          end
      end
  end.

(** ** Projection of the enrichment query ([bookingSelect]) *)

Module SeatSelect.
Record t := { referenceUid : string; attendee_email : string }.
End SeatSelect.

Module TeamSelect.
Record t := { id : Z; name : string }.
End TeamSelect.

Module UserSelect.
Record t := { id : Z; name : option string; email : string }.
End UserSelect.

Module EventTypeSelect.
Record t := {
  slug : string;
  id : Z;
  eventName : option string;
  price : Z;
  recurringEvent : Json;
  currency : string;
  metadata : Json;
  seatsShowAttendees : option bool;
  seatsShowAvailabilityCount : option bool;
  team : option TeamSelect.t }.
End EventTypeSelect.

Module MinimalSelect.
Record t := {
  id : Z;
  title : string;
  description : option string;
  startTime : Z;
  endTime : Z;
  attendees : list Attendee.t }.
End MinimalSelect.

Module Selected.
Record t := {
  id : Z;
  title : string;
  description : option string;
  startTime : Z;
  endTime : Z;
  attendees : list Attendee.t;
  uid : string;
  recurringEventId : option string;
  location : option string;
  eventType : option EventTypeSelect.t;
  status : BookingStatus;
  paid : bool;
  payment : list Payment.t;
  user : option UserSelect.t;
  rescheduled : option bool;
  references : list BookingReference.t;
  isRecorded : bool;
  seatsReferences : list SeatSelect.t }.
End Selected.

Definition selectTeam (x : Team.t) : TeamSelect.t :=
  {| TeamSelect.id := Team.id x; TeamSelect.name := Team.name x |}.

Definition selectEventType (et : EventType.t) : EventTypeSelect.t :=
  {| EventTypeSelect.slug := EventType.slug et;
     EventTypeSelect.id := EventType.id et;
     EventTypeSelect.eventName := EventType.eventName et;
     EventTypeSelect.price := EventType.price et;
     EventTypeSelect.recurringEvent := EventType.recurringEvent et;
     EventTypeSelect.currency := EventType.currency et;
     EventTypeSelect.metadata := EventType.metadata et;
     EventTypeSelect.seatsShowAttendees := EventType.seatsShowAttendees et;
     EventTypeSelect.seatsShowAvailabilityCount := EventType.seatsShowAvailabilityCount et;
     EventTypeSelect.team := selectTeam <$> EventType.team et |}.

Definition selectUser (u : User.t) : UserSelect.t :=
  {| UserSelect.id := User.id u;
     UserSelect.name := User.name u;
     UserSelect.email := User.email u |}.

Definition selectSeat (s : BookingSeat.t) : SeatSelect.t :=
  {| SeatSelect.referenceUid := BookingSeat.referenceUid s;
     SeatSelect.attendee_email := Attendee.email (BookingSeat.attendee s) |}.

(** Modelled from the spec: [bookingMinimalSelect], which is imported and not
    among the sources.  Of the minimal projection the handler reads
    [attendees], [startTime] and [endTime]; [id], [title] and [description]
    identify the booking. *)
Definition bookingMinimalSelect (b : Booking.t) : MinimalSelect.t :=
  {| MinimalSelect.id := Booking.id b;
     MinimalSelect.title := Booking.title b;
     MinimalSelect.description := Booking.description b;
     MinimalSelect.startTime := Booking.startTime b;
     MinimalSelect.endTime := Booking.endTime b;
     MinimalSelect.attendees := Booking.attendees b |}.

(** [{ ...bookingMinimalSelect, uid: true, ... }]; [seatsReferences] is
    selected under [where: { attendee: { email: user.email } }]. *)
Definition bookingSelect (user : Viewer.t) (b : Booking.t) : Selected.t :=
  let minimal := bookingMinimalSelect b in
  {| Selected.id := MinimalSelect.id minimal;
     Selected.title := MinimalSelect.title minimal;
     Selected.description := MinimalSelect.description minimal;
     Selected.startTime := MinimalSelect.startTime minimal;
     Selected.endTime := MinimalSelect.endTime minimal;
     Selected.attendees := MinimalSelect.attendees minimal;
     Selected.uid := Booking.uid b;
     Selected.recurringEventId := Booking.recurringEventId b;
     Selected.location := Booking.location b;
     Selected.eventType := selectEventType <$> Booking.eventType b;
     Selected.status := Booking.status b;
     Selected.paid := Booking.paid b;
     Selected.payment := Booking.payment b;
     Selected.user := selectUser <$> Booking.user b;
     Selected.rescheduled := Booking.rescheduled b;
     Selected.references := Booking.references b;
     Selected.isRecorded := Booking.isRecorded b;
     Selected.seatsReferences :=
       selectSeat <$>
         filter (fun s => String.eqb (Attendee.email (BookingSeat.attendee s))
                                     (Viewer.email user) = true)
                (Booking.seatsReferences b) |}.

(** ** Response *)

Module EventTypeOut.
(** [{ ...booking.eventType, recurringEvent, price, currency, metadata }]:
    [spread] holds the selected fields, absent when the booking has no
    event type. *)
Record t {RE MD : Type} := {
  spread : option EventTypeSelect.t;
  recurringEvent : option RE;
  price : Z;
  currency : string;
  metadata : MD }.
Arguments t : clear implicits.
End EventTypeOut.

Module BookingOut.
Record t {RE MD : Type} := {
  id : Z;
  title : string;
  description : option string;
  startTime : string;
  endTime : string;
  attendees : list Attendee.t;
  uid : string;
  recurringEventId : option string;
  location : option string;
  eventType : EventTypeOut.t RE MD;
  status : BookingStatus;
  paid : bool;
  payment : list Payment.t;
  user : option UserSelect.t;
  rescheduled : option bool;
  references : list BookingReference.t;
  isRecorded : bool;
  seatsReferences : list SeatSelect.t }.
Arguments t : clear implicits.
End BookingOut.

Module RecurringSeriesSummary.
Record t := {
  recurringEventId : option string;
  count : Z;
  firstDate : option Z;
  bookings : gmap BookingStatus (list Z) }.
End RecurringSeriesSummary.

Module Bookings.
Record t {RE MD : Type} := {
  bookings : list (BookingOut.t RE MD);
  recurringInfo : list RecurringSeriesSummary.t }.
Arguments t : clear implicits.
End Bookings.

Module Response.
Record t {RE MD : Type} := {
  bookings : list (BookingOut.t RE MD);
  recurringInfo : list RecurringSeriesSummary.t;
  nextCursor : option Z }.
Arguments t : clear implicits.
End Response.

(** ** Recurring aggregator *)

(** [{ ACCEPTED: [], CANCELLED: [], REJECTED: [], PENDING: [], AWAITING_HOST: [] }] *)
Definition emptyBuckets : gmap BookingStatus (list Z) :=
  <[ACCEPTED := []]> (<[CANCELLED := []]> (<[REJECTED := []]>
    (<[PENDING := []]> (<[AWAITING_HOST := []]> ∅)))).

(** [prev[status].push(startTime)]: a missing key makes [push] a call on
    [undefined]. *)
Definition pushBucket (prev : gmap BookingStatus (list Z)) (status : BookingStatus)
    (startTime : Z) : Result (gmap BookingStatus (list Z)) :=
  match prev !! status with
  | Some dates => Ok (<[status := dates ++ [startTime]]> prev)
  | None => Err (TypeError "push")
  end.

(** [arr.reduce(f, init)] with a callback that may throw. *)
Fixpoint reduceM {A B} (f : A -> B -> Result A) (l : list B) (init : A) : Result A :=
  match l with
  | [] => Ok init
  | x :: l => a ← f init x; reduceM f l a
  end.

Definition recurringInfoOf (recurringInfoExtended : list RecurringInfoExtended.t)
    (info : RecurringInfoBasic.t) : Result RecurringSeriesSummary.t :=
  bookings ← reduceM
      (fun prev curr =>
         if bool_decide (RecurringInfoExtended.recurringEventId curr
                         = RecurringInfoBasic.recurringEventId info)
         then pushBucket prev (RecurringInfoExtended.status curr)
                         (RecurringInfoExtended.startTime curr)
         else Ok prev)
      recurringInfoExtended emptyBuckets;
  Ok {| RecurringSeriesSummary.recurringEventId := RecurringInfoBasic.recurringEventId info;
        RecurringSeriesSummary.count := RecurringInfoBasic.count_recurringEventId info;
        RecurringSeriesSummary.firstDate := RecurringInfoBasic.min_startTime info;
        RecurringSeriesSummary.bookings := bookings |}.

Definition recurringInfo (recurringInfoBasic : list RecurringInfoBasic.t)
    (recurringInfoExtended : list RecurringInfoExtended.t)
  : Result (list RecurringSeriesSummary.t) :=
  mapM (recurringInfoOf recurringInfoExtended) recurringInfoBasic.

(** The bucket of a status in the words of the specification: the start
    times of the extended rows of that series and that status. *)
Definition bucketOf (recurringInfoExtended : list RecurringInfoExtended.t)
    (series : option string) (s : BookingStatus) : list Z :=
  RecurringInfoExtended.startTime <$>
    filter (fun r => RecurringInfoExtended.recurringEventId r = series
                     ∧ RecurringInfoExtended.status r = s)
           recurringInfoExtended.

(** ** [Promise.all] over the seven queries *)

Definition promiseAll7 {A1 A2 A3 A4 A5 A6 A7 : Type} (settledAt : Query -> nat)
    (p1 : Query * Result A1) (p2 : Query * Result A2) (p3 : Query * Result A3)
    (p4 : Query * Result A4) (p5 : Query * Result A5) (p6 : Query * Result A6)
    (p7 : Query * Result A7)
  : Result (A1 * A2 * A3 * A4 * A5 * A6 * A7) :=
  match firstRejection settledAt
          [ (p1.1, rejection p1.2); (p2.1, rejection p2.2); (p3.1, rejection p3.2);
            (p4.1, rejection p4.2); (p5.1, rejection p5.2); (p6.1, rejection p6.2);
            (p7.1, rejection p7.2) ] with
  | Some (_, e) => Err e
  | None =>
      a1 ← p1.2; a2 ← p2.2; a3 ← p3.2; a4 ← p4.2; a5 ← p5.2; a6 ← p6.2; a7 ← p7.2;
      Ok (a1, a2, a3, a4, a5, a6, a7)
  end.

(** ** The queries of [getBookings] *)

Section Queries.
Variable prisma : PrismaClient.t.
Variable user : Viewer.t.
Variable passedBookingsStatusFilter : WhereInput.
Variable filters : Filters.t.
Variable orderBy : SortOrder.
Variables take skip : Z.

Definition bookingsQueryUserId : Result (list Booking.t) :=
  findMany prisma QUserId
    (whereQueryUserId user passedBookingsStatusFilter (filtersCombined filters))
    orderBy (Some (take + 1)) (Some skip).

Definition bookingsQueryAttendees : Result (list Booking.t) :=
  findMany prisma QAttendees
    (whereQueryAttendees user passedBookingsStatusFilter (filtersCombined filters))
    orderBy (Some (take + 1)) (Some skip).

Definition bookingsQueryTeamEvents : Result (list Booking.t) :=
  findMany prisma QTeamEvents
    (whereQueryTeamEvents user passedBookingsStatusFilter (filtersCombined filters))
    orderBy (Some (take + 1)) (Some skip).

Definition bookingsQueryTeamUsersPersonalEvents : Result (list Booking.t) :=
  findMany prisma QTeamUsersPersonalEvents
    (whereQueryTeamUsersPersonalEvents user passedBookingsStatusFilter
       (filtersCombined filters))
    orderBy (Some (take + 1)) (Some skip).

Definition bookingsQuerySeatReference : Result (list Booking.t) :=
  findMany prisma QSeatReference
    (whereQuerySeatReference user passedBookingsStatusFilter (filtersCombined filters))
    orderBy (Some (take + 1)) (Some skip).

Definition recurringInfoBasic : Result (list RecurringInfoBasic.t) :=
  groupByBasic prisma QRecurringInfoBasic (whereRecurringInfo user).

Definition recurringInfoExtended : Result (list RecurringInfoExtended.t) :=
  groupByExtended prisma QRecurringInfoExtended (whereRecurringInfo user).

(** The seven queries as issued under [Promise.all]. *)
Definition fanOut :=
  promiseAll7 (PrismaClient.settledAt prisma)
    (QUserId, bookingsQueryUserId)
    (QAttendees, bookingsQueryAttendees)
    (QTeamEvents, bookingsQueryTeamEvents)
    (QTeamUsersPersonalEvents, bookingsQueryTeamUsersPersonalEvents)
    (QSeatReference, bookingsQuerySeatReference)
    (QRecurringInfoBasic, recurringInfoBasic)
    (QRecurringInfoExtended, recurringInfoExtended).

(** The enrichment query: [where: { id: { in: ids } }], no [take]/[skip]. *)
Definition enrichQuery (plainBookings : list Booking.t) : Result (list Selected.t) :=
  found ← findMany prisma QEnrich
             (fun b => inZ (Booking.id <$> plainBookings) (Booking.id b))
             orderBy None None;
  Ok (bookingSelect user <$> (found : list Booking.t)).
End Queries.

(** ** Attendee redaction, normalisation, [getBookings] and [getHandler]

    [parseRecurringEvent] (which returns [null] on a value it rejects),
    [EventTypeMetaDataSchema.parse] (which throws) and [Date.toISOString] are
    taken as given. *)

Definition setAttendees (attendees : list Attendee.t) (booking : Selected.t) : Selected.t :=
  {| Selected.id := Selected.id booking;
     Selected.title := Selected.title booking;
     Selected.description := Selected.description booking;
     Selected.startTime := Selected.startTime booking;
     Selected.endTime := Selected.endTime booking;
     Selected.attendees := attendees;
     Selected.uid := Selected.uid booking;
     Selected.recurringEventId := Selected.recurringEventId booking;
     Selected.location := Selected.location booking;
     Selected.eventType := Selected.eventType booking;
     Selected.status := Selected.status booking;
     Selected.paid := Selected.paid booking;
     Selected.payment := Selected.payment booking;
     Selected.user := Selected.user booking;
     Selected.rescheduled := Selected.rescheduled booking;
     Selected.references := Selected.references booking;
     Selected.isRecorded := Selected.isRecorded booking;
     Selected.seatsReferences := Selected.seatsReferences booking |}.

(** [booking.seatsReferences.length && !booking.eventType?.seatsShowAttendees] *)
Definition redactionApplies (booking : Selected.t) : bool :=
  negb (length (Selected.seatsReferences booking) =? 0)%nat
  && negb (default false (Selected.eventType booking ≫= EventTypeSelect.seatsShowAttendees)).

Definition redact (user : Viewer.t) (booking : Selected.t) : Selected.t :=
  if redactionApplies booking then
    setAttendees
      (filter (fun attendee => String.eqb (Attendee.email attendee) (Viewer.email user) = true)
              (Selected.attendees booking))
      booking
  else booking.

Section Handler.
Context {RecurringEvent EventTypeMetaData : Type}.
Variable parseRecurringEvent : option Json -> option RecurringEvent.
Variable EventTypeMetaDataSchema_parse : Json -> Result EventTypeMetaData.
Variable toISOString : Z -> string.

Definition normalize (booking : Selected.t)
  : Result (BookingOut.t RecurringEvent EventTypeMetaData) :=
  let eventType := Selected.eventType booking in
  let recurringEvent :=
    parseRecurringEvent (EventTypeSelect.recurringEvent <$> eventType) in
  let price :=
    match EventTypeSelect.price <$> eventType with
    | Some p => if p =? 0 then 0 else p
    | None => 0
    end in
  let currency :=
    match EventTypeSelect.currency <$> eventType with
    | Some c => if String.eqb c "" then "usd"%string else c
    | None => "usd"%string
    end in
  metadata ← EventTypeMetaDataSchema_parse
               (match EventTypeSelect.metadata <$> eventType with
                | Some m => if truthy m then m else JObj []
                | None => JObj []
                end);
  Ok {| BookingOut.id := Selected.id booking;
        BookingOut.title := Selected.title booking;
        BookingOut.description := Selected.description booking;
        BookingOut.startTime := toISOString (Selected.startTime booking);
        BookingOut.endTime := toISOString (Selected.endTime booking);
        BookingOut.attendees := Selected.attendees booking;
        BookingOut.uid := Selected.uid booking;
        BookingOut.recurringEventId := Selected.recurringEventId booking;
        BookingOut.location := Selected.location booking;
        BookingOut.eventType :=
          {| EventTypeOut.spread := eventType;
             EventTypeOut.recurringEvent := recurringEvent;
             EventTypeOut.price := price;
             EventTypeOut.currency := currency;
             EventTypeOut.metadata := metadata |};
        BookingOut.status := Selected.status booking;
        BookingOut.paid := Selected.paid booking;
        BookingOut.payment := Selected.payment booking;
        BookingOut.user := Selected.user booking;
        BookingOut.rescheduled := Selected.rescheduled booking;
        BookingOut.references := Selected.references booking;
        BookingOut.isRecorded := Selected.isRecorded booking;
        BookingOut.seatsReferences := Selected.seatsReferences booking |}.

(** What follows the deduplication: the enrichment query and the map over
    its rows. *)
Definition enrich (prisma : PrismaClient.t) (user : Viewer.t) (orderBy : SortOrder)
    (plainBookings : list Booking.t)
  : Result (list (BookingOut.t RecurringEvent EventTypeMetaData)) :=
  found ← enrichQuery prisma user orderBy plainBookings;
  mapM (fun booking => normalize (redact user booking)) found.

(** [getBookings], run with the module-level [set] holding [set]; the
    result comes with the contents of the set afterwards. *)
Definition getBookings (prisma : PrismaClient.t) (user : Viewer.t)
    (passedBookingsStatusFilter : WhereInput) (filters : Filters.t)
    (orderBy : SortOrder) (take skip : Z) (set : gset string)
  : Result (Bookings.t RecurringEvent EventTypeMetaData) * gset string :=
  match fanOut prisma user passedBookingsStatusFilter filters orderBy take skip with
  | Err e => (Err e, set)
  | Ok (bookingsQueryUserId, bookingsQueryAttendees, bookingsQueryTeamEvents,
        bookingsQueryTeamUsersPersonalEvents, bookingsQuerySeatReference,
        recurringInfoBasic, recurringInfoExtended) =>
      match recurringInfo recurringInfoBasic recurringInfoExtended with
      | Err e => (Err e, set)
      | Ok recurringInfo =>
          let '(plainBookings, set) :=
            getUniqueBookings
              (bookingsQueryUserId ++ bookingsQueryAttendees ++ bookingsQueryTeamEvents
                 ++ bookingsQueryTeamUsersPersonalEvents ++ bookingsQuerySeatReference)
              set in
          (bookings ← enrich prisma user orderBy plainBookings;
           Ok {| Bookings.bookings := bookings;
                 Bookings.recurringInfo := recurringInfo |},
           set)
      end
  end.

Definition getHandler (prisma : PrismaClient.t) (user : Viewer.t) (now : Z)
    (input : Input.t) (set : gset string)
  : Result (Response.t RecurringEvent EventTypeMetaData) * gset string :=
  let take := default 10 (Input.limit input) in
  let skip := default 0 (Input.cursor input) in
  let bookingListingByStatus := Filters.status (Input.filters input) in
  let passedBookingsStatusFilter := bookingListingFilters now bookingListingByStatus in
  let orderBy := bookingListingOrderby bookingListingByStatus in
  let '(result, set) :=
    getBookings prisma user passedBookingsStatusFilter (Input.filters input)
                orderBy take skip set in
  (r ← result;
   let bookings := Bookings.bookings r in
   let bookingsFetched := Z.of_nat (length bookings) in
   let nextCursor :=
     if take <? bookingsFetched then Some (skip + bookingsFetched) else None in
   Ok {| Response.bookings := bookings;
         Response.recurringInfo := Bookings.recurringInfo r;
         Response.nextCursor := nextCursor |},
   set).
End Handler.

(** The five visibility queries in the order of their concatenation, and
    the seven queries of the fan-out with their rejections. *)
Definition visibilityQueries (prisma : PrismaClient.t) (user : Viewer.t)
    (passedBookingsStatusFilter : WhereInput) (filters : Filters.t)
    (orderBy : SortOrder) (take skip : Z) : list (Result (list Booking.t)) :=
  [ bookingsQueryUserId prisma user passedBookingsStatusFilter filters orderBy take skip;
    bookingsQueryAttendees prisma user passedBookingsStatusFilter filters orderBy take skip;
    bookingsQueryTeamEvents prisma user passedBookingsStatusFilter filters orderBy take skip;
    bookingsQueryTeamUsersPersonalEvents prisma user passedBookingsStatusFilter filters
      orderBy take skip;
    bookingsQuerySeatReference prisma user passedBookingsStatusFilter filters orderBy
      take skip ].

Definition queryRejections (prisma : PrismaClient.t) (user : Viewer.t)
    (passedBookingsStatusFilter : WhereInput) (filters : Filters.t)
    (orderBy : SortOrder) (take skip : Z) : list (Query * option Failure) :=
  [ (QUserId, rejection (bookingsQueryUserId prisma user passedBookingsStatusFilter
                           filters orderBy take skip));
    (QAttendees, rejection (bookingsQueryAttendees prisma user passedBookingsStatusFilter
                              filters orderBy take skip));
    (QTeamEvents, rejection (bookingsQueryTeamEvents prisma user passedBookingsStatusFilter
                               filters orderBy take skip));
    (QTeamUsersPersonalEvents,
      rejection (bookingsQueryTeamUsersPersonalEvents prisma user
                   passedBookingsStatusFilter filters orderBy take skip));
    (QSeatReference, rejection (bookingsQuerySeatReference prisma user
                                  passedBookingsStatusFilter filters orderBy take skip));
    (QRecurringInfoBasic, rejection (recurringInfoBasic prisma user));
    (QRecurringInfoExtended, rejection (recurringInfoExtended prisma user)) ].

(** ** The redaction property, as first stated

    Every booking of the response that has a seat reference and whose event
    type hides attendees carries at most one attendee, the viewer. *)
Definition attendeeRedactionAsStated {RE MD : Type} (user : Viewer.t)
    (resp : Response.t RE MD) : Prop :=
  forall out, out ∈ Response.bookings resp ->
    (1 <= length (BookingOut.seatsReferences out))%nat ->
    EventTypeOut.spread (BookingOut.eventType out) ≫= EventTypeSelect.seatsShowAttendees
    = Some false ->
    (length (BookingOut.attendees out) <= 1)%nat
    ∧ (forall a, BookingOut.attendees out = [a] -> Attendee.email a = Viewer.email user).

(** ** Sample data *)

Module Sample.
Definition viewer : Viewer.t :=
  {| Viewer.id := 1; Viewer.email := "viewer@example.com" |}.

Definition owner (id : Z) (email : string) : User.t :=
  {| User.id := id; User.name := None; User.email := email; User.teams := [] |}.

Definition attendee (email name : string) : Attendee.t :=
  {| Attendee.email := email; Attendee.name := name; Attendee.timeZone := "UTC" |}.

Definition seat (ref : string) (a : Attendee.t) : BookingSeat.t :=
  {| BookingSeat.referenceUid := ref; BookingSeat.attendee := a |}.

Definition eventType (seatsShowAttendees : option bool) : EventType.t :=
  {| EventType.id := 7;
     EventType.slug := "intro";
     EventType.eventName := None;
     EventType.price := 0;
     EventType.recurringEvent := JNull;
     EventType.currency := "usd";
     EventType.metadata := JNull;
     EventType.seatsShowAttendees := seatsShowAttendees;
     EventType.seatsShowAvailabilityCount := None;
     EventType.team := None;
     EventType.parent := None;
     EventType.hosts := [];
     EventType.users := [] |}.

Definition booking (id : Z) (uid : string) (startTime endTime : Z)
    (user : option User.t) (attendees : list Attendee.t)
    (recurringEventId : option string) (status : BookingStatus)
    (eventType : option EventType.t) (seats : list BookingSeat.t) : Booking.t :=
  {| Booking.id := id;
     Booking.uid := uid;
     Booking.title := "Meeting";
     Booking.description := None;
     Booking.startTime := startTime;
     Booking.endTime := endTime;
     Booking.attendees := attendees;
     Booking.recurringEventId := recurringEventId;
     Booking.location := None;
     Booking.eventType := eventType;
     Booking.status := status;
     Booking.paid := false;
     Booking.payment := [];
     Booking.user := user;
     Booking.rescheduled := None;
     Booking.references := [];
     Booking.isRecorded := false;
     Booking.seatsReferences := seats |}.

(** A store none of whose queries fails. *)
Definition store (rows : list Booking.t) : PrismaClient.t :=
  {| PrismaClient.rows := rows;
     PrismaClient.fault := fun _ => None;
     PrismaClient.settledAt := fun _ => 0%nat |}.

(** A store that fails the listed queries. *)
Definition faulty (rows : list Booking.t) (faults : list (Query * string * nat))
  : PrismaClient.t :=
  let entry q :=
    list_find (fun f : Query * string * nat => f.1.1 = q) faults in
  {| PrismaClient.rows := rows;
     PrismaClient.fault := fun q => (fun f => f.2.1.2) <$> entry q;
     PrismaClient.settledAt := fun q => from_option (fun f => f.2.2) 0%nat (entry q) |}.

Definition input (status : StatusTag) (limit cursor : option Z) : Input.t :=
  {| Input.filters := {| Filters.status := status;
                         Filters.teamIds := None;
                         Filters.userIds := None;
                         Filters.eventTypeIds := None |};
     Input.limit := limit;
     Input.cursor := cursor |}.

(** Validators that accept everything, and a constant date printer. *)
Definition parseRecurringEvent (_ : option Json) : option unit := Some ().
Definition parseMetadata (_ : Json) : Result unit := Ok ().
Definition toISOString (_ : Z) : string := "1970-01-01T00:00:00.000Z".

Definition handle (prisma : PrismaClient.t) (now : Z) (input : Input.t) :=
  getHandler parseRecurringEvent parseMetadata toISOString prisma viewer now input set_init.

(** A seated booking of the viewer with two attendee rows carrying the
    viewer's email, on an event type that hides attendees. *)
Definition seatedTwice : list Booking.t :=
  [ booking 1 "uid-1" 1000 2000 (Some (owner 1 "viewer@example.com"))
      [ attendee "viewer@example.com" "Viewer";
        attendee "viewer@example.com" "Viewer (guest)";
        attendee "other@example.com" "Other" ]
      None ACCEPTED (Some (eventType (Some false)))
      [ seat "seat-1" (attendee "viewer@example.com" "Viewer");
        seat "seat-2" (attendee "other@example.com" "Other") ] ].

(** Three upcoming bookings: [shared] is the viewer's own and also lists the
    viewer as attendee and as seat holder, [attended] is another host's with
    the viewer as attendee, [owned] is the viewer's own. *)
Definition shared : Booking.t :=
  booking 1 "uid-1" 1000 2000 (Some (owner 1 "viewer@example.com"))
    [ attendee "viewer@example.com" "Viewer" ] None ACCEPTED
    (Some (eventType (Some true)))
    [ seat "seat-1" (attendee "viewer@example.com" "Viewer") ].

Definition attended : Booking.t :=
  booking 2 "uid-2" 900 2000 (Some (owner 2 "host@example.com"))
    [ attendee "viewer@example.com" "Viewer" ] None PENDING None [].

Definition owned : Booking.t :=
  booking 3 "uid-3" 950 2000 (Some (owner 1 "viewer@example.com"))
    [] (Some "series-1") ACCEPTED None [].

Definition threeUpcoming : list Booking.t := [shared; attended; owned].

(** A series of three occurrences owned by the viewer, and an occurrence of
    another host's series that the viewer attends. *)
Definition occurrence1 : Booking.t :=
  booking 11 "uid-11" 1000 1500 (Some (owner 1 "viewer@example.com"))
    [] (Some "series-a") ACCEPTED None [].

Definition occurrence2 : Booking.t :=
  booking 12 "uid-12" 2000 2500 (Some (owner 1 "viewer@example.com"))
    [] (Some "series-a") ACCEPTED None [].

Definition occurrence3 : Booking.t :=
  booking 13 "uid-13" 3000 3500 (Some (owner 1 "viewer@example.com"))
    [] (Some "series-a") CANCELLED None [].

Definition attendedOccurrence : Booking.t :=
  booking 14 "uid-14" 1200 1700 (Some (owner 2 "host@example.com"))
    [ attendee "viewer@example.com" "Viewer" ] (Some "series-b") ACCEPTED None [].

Definition seriesRows : list Booking.t :=
  [occurrence1; attendedOccurrence; occurrence2; occurrence3].
(** Three bookings of the viewer and two of another host that the viewer
    attends, all upcoming. *)
Definition mine (id : Z) (uid : string) (startTime : Z) : Booking.t :=
  booking id uid startTime 2000 (Some (owner 1 "viewer@example.com")) [] None ACCEPTED
    None [].

Definition theirs (id : Z) (uid : string) (startTime : Z) : Booking.t :=
  booking id uid startTime 2000 (Some (owner 2 "host@example.com"))
    [ attendee "viewer@example.com" "Viewer" ] None ACCEPTED None [].

Definition twoPaths : list Booking.t :=
  [ mine 1 "uid-1" 100; mine 2 "uid-2" 200; mine 3 "uid-3" 300;
    theirs 4 "uid-4" 150; theirs 5 "uid-5" 250 ].
End Sample.

(** ** The scope of the recurring aggregates, in the words of the
    specification: the bookings owned by the viewer that belong to a series. *)
Definition ownedInSeries (user : Viewer.t) (b : Booking.t) : Prop :=
  Booking.userId b = Some (Viewer.id user) ∧ is_Some (Booking.recurringEventId b).

#[global] Instance ownedInSeries_dec user b : Decision (ownedInSeries user b).
Proof. unfold ownedInSeries. apply _. Defined.

(** The same client reading another snapshot of the table. *)
Definition withRows (rows : list Booking.t) (prisma : PrismaClient.t) : PrismaClient.t :=
  {| PrismaClient.rows := rows;
     PrismaClient.fault := PrismaClient.fault prisma;
     PrismaClient.settledAt := PrismaClient.settledAt prisma |}.

(** ** The all-or-nothing contract, as first stated

    If any one of the seven queries fails the operation fails with that
    error, and if all seven succeed a response is produced. *)
Definition allOrNothingAsStated {RE MD : Type} (rejections : list (Query * option Failure))
    (result : Result (Response.t RE MD)) : Prop :=
  (forall q e, (q, Some e) ∈ rejections -> result = Err e)
  ∧ (Forall (fun p => p.2 = None) rejections -> exists resp, result = Ok resp).

(** A booking matches a request when one of the five visibility conditions
    holds of it. *)
Definition matches (user : Viewer.t) (passed : WhereInput) (filters : Filters.t)
  : WhereInput :=
  OR [ whereQueryUserId user passed (filtersCombined filters);
       whereQueryAttendees user passed (filtersCombined filters);
       whereQueryTeamEvents user passed (filtersCombined filters);
       whereQueryTeamUsersPersonalEvents user passed (filtersCombined filters);
       whereQuerySeatReference user passed (filtersCombined filters) ].

(** The request of a page: [limit] and [cursor] over given filters. *)
Definition pageRequest (filters : Filters.t) (limit cursor : Z) : Input.t :=
  {| Input.filters := filters; Input.limit := Some limit; Input.cursor := Some cursor |}.

(** ** Auxiliary notions for the further properties *)

(** The filters with their scoping keys dropped. *)
Definition withoutScoping (filters : Filters.t) : Filters.t :=
  {| Filters.status := Filters.status filters;
     Filters.teamIds := None;
     Filters.userIds := None;
     Filters.eventTypeIds := None |}.

(** The five visibility conditions in the order of the queries, and the
    complete ordered listing of the rows that satisfy a condition, of which
    a query returns one page. *)
Definition visibilityWheres (user : Viewer.t) (passed : WhereInput)
    (filters : Filters.t) : list WhereInput :=
  [ whereQueryUserId user passed (filtersCombined filters);
    whereQueryAttendees user passed (filtersCombined filters);
    whereQueryTeamEvents user passed (filtersCombined filters);
    whereQueryTeamUsersPersonalEvents user passed (filtersCombined filters);
    whereQuerySeatReference user passed (filtersCombined filters) ].

Definition listing (prisma : PrismaClient.t) (orderBy : SortOrder) (w : WhereInput)
  : list Booking.t :=
  sortByStartTime orderBy (filter (fun b => w b) (PrismaClient.rows prisma)).

(** The memberships that the two team conditions inspect for a booking:
    those of the team of its event type and of that team's organisation,
    those of the team of the parent of its event type and of that team's
    organisation, and those of the teams of its owner and of their
    organisations. *)
Definition teamMembers (x : Team.t) : list Membership.t :=
  Team.members x ++ from_option Organization.members [] (Team.parent x).

Definition inspectedMemberships (b : Booking.t) : list Membership.t :=
  from_option
    (fun et =>
       from_option teamMembers [] (EventType.team et)
       ++ from_option (fun pe => from_option teamMembers [] (ParentEventType.team pe)) []
            (EventType.parent et))
    [] (Booking.eventType b)
  ++ from_option (fun u => mjoin (teamMembers <$> User.teams u)) [] (Booking.user b).

(** ** Sample team data

    The viewer administers [adminTeam], a team of [organization], and is a
    plain member of [memberTeam].  [teamBooking] is another host's booking of an event type
    of [adminTeam]; [colleagueBooking] is the booking, on a personal event
    type, of a user of [adminTeam]; [memberBooking] is another host's
    booking of an event type of [memberTeam]. *)
Module SampleTeams.
Definition membership (userId : Z) (role : MembershipRole) : Membership.t :=
  {| Membership.userId := userId; Membership.role := role |}.

Definition team (id : Z) (parent : option Organization.t) (members : list Membership.t)
  : Team.t :=
  {| Team.id := id; Team.name := "Team"; Team.parent := parent; Team.members := members |}.

Definition organization : Organization.t :=
  {| Organization.id := 100; Organization.members := [membership 2 OWNER] |}.

Definition adminTeam : Team.t :=
  team 8 (Some organization) [membership 1 ADMIN; membership 3 MEMBER].
Definition memberTeam : Team.t := team 9 None [membership 1 MEMBER; membership 2 OWNER].

Definition eventTypeOf (metadata : Json) (team : option Team.t) : EventType.t :=
  {| EventType.id := 7;
     EventType.slug := "intro";
     EventType.eventName := None;
     EventType.price := 0;
     EventType.recurringEvent := JNull;
     EventType.currency := "usd";
     EventType.metadata := metadata;
     EventType.seatsShowAttendees := None;
     EventType.seatsShowAvailabilityCount := None;
     EventType.team := team;
     EventType.parent := None;
     EventType.hosts := [];
     EventType.users := [] |}.

Definition colleague : User.t :=
  {| User.id := 3; User.name := None; User.email := "colleague@example.com";
     User.teams := [adminTeam] |}.

Definition teamBooking : Booking.t :=
  Sample.booking 21 "uid-21" 1000 2000 (Some (Sample.owner 2 "host@example.com")) []
    None ACCEPTED (Some (eventTypeOf JNull (Some adminTeam))) [].

Definition colleagueBooking : Booking.t :=
  Sample.booking 22 "uid-22" 1100 2000 (Some colleague) [] None ACCEPTED
    (Some (eventTypeOf JNull None)) [].

Definition memberBooking : Booking.t :=
  Sample.booking 23 "uid-23" 1200 2000 (Some (Sample.owner 2 "host@example.com")) []
    None ACCEPTED (Some (eventTypeOf JNull (Some memberTeam))) [].

Definition rows : list Booking.t := [teamBooking; colleagueBooking; memberBooking].

(** A metadata schema that accepts objects only, and a booking of the
    viewer whose event type stores a string as metadata. *)
Definition objectsOnly (j : Json) : Result unit :=
  match j with
  | JObj _ => Ok ()
  | _ => Err (ValidationError "Expected object")
  end.

Definition malformed : Booking.t :=
  Sample.booking 31 "uid-31" 1000 2000 (Some (Sample.owner 1 "viewer@example.com")) []
    None ACCEPTED (Some (eventTypeOf (JStr "oops") None)) [].

(** Another host's booking that the viewer has no path to, with a string
    as event-type metadata, and the three upcoming bookings beside it. *)
Definition hiddenMalformed : Booking.t :=
  Sample.booking 32 "uid-32" 1000 2000 (Some (Sample.owner 2 "host@example.com")) []
    None ACCEPTED (Some (eventTypeOf (JStr "oops") None)) [].

Definition withHidden : list Booking.t := Sample.threeUpcoming ++ [hiddenMalformed].

(** A request scoped to an empty list of teams. *)
Definition noTeams (status : StatusTag) : Input.t :=
  {| Input.filters := {| Filters.status := status;
                         Filters.teamIds := Some [];
                         Filters.userIds := None;
                         Filters.eventTypeIds := None |};
     Input.limit := None;
     Input.cursor := None |}.
End SampleTeams.

(** The rows that the enrichment query reads when the five visibility
    queries have returned [queried] and the deduplication set holds [set]:
    the rows of the store whose id is that of a deduplicated result. *)
Definition enrichedRows (prisma : PrismaClient.t) (queried : list Booking.t)
    (set : gset string) : list Booking.t :=
  filter (fun b => inZ (Booking.id <$> (getUniqueBookings queried set).1) (Booking.id b))
         (PrismaClient.rows prisma).

(** * Properties *)

(** ** Deduplication *)

Section DedupFacts.
Context {T : Type} `{HasUid T}.
Implicit Types (arr pre : list T) (set : gset string).

Lemma filterUnique_keepUnseen arr : forall pre set,
  (forall u, u ∈ set <-> u ∈ uidOf <$> pre) ->
  (filterUnique arr set).1 = keepUnseen pre arr.
Proof.
  induction arr as [|b rest IH]; intros pre set Hset; [done|].
  cbn [filterUnique keepUnseen].
  specialize (IH (pre ++ [b]) ({[uidOf b]} ∪ set)).
  destruct (filterUnique rest ({[uidOf b]} ∪ set)) as [unique set'] eqn:E.
  cbn [fst] in *. rewrite <- IH.
  - rewrite (bool_decide_ext _ _ (Hset (uidOf b))).
    by destruct (bool_decide (uidOf b ∈ uidOf <$> pre)).
  - intros u. rewrite fmap_app, elem_of_app, elem_of_union, elem_of_singleton, Hset.
    cbn. rewrite list_elem_of_singleton. tauto.
Qed.

Lemma getUniqueBookings_fst arr set :
  (getUniqueBookings arr set).1 = (filterUnique arr set).1.
Proof. unfold getUniqueBookings. by destruct (filterUnique arr set). Qed.

Lemma getUniqueBookings_snd arr set : (getUniqueBookings arr set).2 = ∅.
Proof. unfold getUniqueBookings. by destruct (filterUnique arr set). Qed.

Lemma getUniqueBookings_empty arr :
  getUniqueBookings arr ∅ = (keepUnseen [] arr, ∅).
Proof.
  apply injective_projections; cbn [fst snd].
  - rewrite getUniqueBookings_fst. apply filterUnique_keepUnseen.
    intros u. cbn. rewrite elem_of_nil. set_solver.
  - apply getUniqueBookings_snd.
Qed.

Lemma keepUnseen_sublist arr : forall pre, keepUnseen pre arr `sublist_of` arr.
Proof.
  induction arr as [|b rest IH]; intros pre; cbn [keepUnseen]; [constructor|].
  case_bool_decide; cbn.
  - by apply sublist_cons.
  - by apply sublist_skip.
Qed.

Lemma elem_of_keepUnseen arr : forall pre b,
  b ∈ keepUnseen pre arr <->
  exists i, arr !! i = Some b ∧ uidOf b ∉ uidOf <$> (pre ++ take i arr).
Proof.
  induction arr as [|x rest IH]; intros pre b; cbn [keepUnseen].
  - split; [by intros ?%elem_of_nil|]. by intros (i & ? & _).
  - rewrite elem_of_app, IH. split.
    + intros [Hb|(i & Hi & Hn)].
      * case_bool_decide; [by apply elem_of_nil in Hb|].
        apply list_elem_of_singleton in Hb as ->.
        exists 0%nat. by rewrite take_0, app_nil_r.
      * exists (S i). split; [done|].
        by rewrite <- app_assoc in Hn.
    + intros ([|i] & Hi & Hn); cbn in Hi.
      * injection Hi as ->. left. rewrite take_0, app_nil_r in Hn.
        rewrite bool_decide_eq_false_2 by done. by apply list_elem_of_singleton.
      * right. exists i. split; [done|]. by rewrite <- app_assoc.
Qed.

Lemma keepUnseen_fresh arr : forall pre b,
  b ∈ keepUnseen pre arr -> uidOf b ∉ uidOf <$> pre.
Proof.
  intros pre b (i & _ & Hn)%elem_of_keepUnseen.
  rewrite fmap_app, elem_of_app in Hn. tauto.
Qed.

Lemma keepUnseen_NoDup arr : forall pre, NoDup (uidOf <$> keepUnseen pre arr).
Proof.
  induction arr as [|x rest IH]; intros pre; cbn [keepUnseen]; [constructor|].
  case_bool_decide; cbn; [apply IH|].
  constructor; [|apply IH].
  intros (b & Hu & Hb)%list_elem_of_fmap.
  apply keepUnseen_fresh in Hb. apply Hb.
  rewrite fmap_app, elem_of_app. right. rewrite <- Hu. cbn. by left.
Qed.

(** No uid is lost: every uid of the input is carried by a kept entry,
    unless it was seen before the input. *)
Lemma keepUnseen_covers arr : forall pre u,
  u ∈ uidOf <$> arr -> u ∈ uidOf <$> pre ∨ u ∈ uidOf <$> keepUnseen pre arr.
Proof.
  induction arr as [|x rest IH]; intros pre u Hu; cbn [keepUnseen] in *.
  - by apply elem_of_nil in Hu.
  - rewrite fmap_cons in Hu. apply elem_of_cons in Hu as [->|Hu].
    + case_bool_decide; [by left|]. right. cbn. by left.
    + destruct (IH (pre ++ [x]) u Hu) as [Hp|Hk].
      * rewrite fmap_app, elem_of_app in Hp. destruct Hp as [Hp|Hp]; [by left|].
        cbn in Hp. apply list_elem_of_singleton in Hp as ->.
        case_bool_decide; [by left|]. right. cbn. by left.
      * right. rewrite fmap_app, elem_of_app. by right.
Qed.

Lemma keepUnseen_id arr : forall pre,
  NoDup (uidOf <$> arr) ->
  (forall u, u ∈ uidOf <$> arr -> u ∉ uidOf <$> pre) ->
  keepUnseen pre arr = arr.
Proof.
  induction arr as [|x rest IH]; intros pre Hnd Hfresh; cbn [keepUnseen]; [done|].
  rewrite fmap_cons in Hnd. apply NoDup_cons in Hnd as [Hx Hnd].
  rewrite bool_decide_eq_false_2.
  2:{ apply Hfresh. rewrite fmap_cons. by left. }
  cbn. f_equal. apply IH; [done|].
  intros u Hu. rewrite fmap_app, elem_of_app. intros [Hp|Hp].
  - eapply Hfresh; [|done]. rewrite fmap_cons. by right.
  - cbn in Hp. apply list_elem_of_singleton in Hp as ->. done.
Qed.

Lemma keepUnseen_idempotent arr :
  keepUnseen [] (keepUnseen [] arr) = keepUnseen [] arr.
Proof.
  apply keepUnseen_id; [apply keepUnseen_NoDup|].
  intros u _. cbn. apply not_elem_of_nil.
Qed.

Lemma runCalls_from_empty (calls : list (list T)) :
  runCalls calls ∅
  = ((fun arr => keepUnseen [] arr) <$> calls, (fun _ => ∅) <$> calls, ∅).
Proof.
  induction calls as [|arr calls IH]; [done|].
  cbn [runCalls]. rewrite getUniqueBookings_empty, IH. done.
Qed.

(** C4. The deduplication step returns the entries whose uid has not
    occurred earlier in the list, as a subsequence of the input (first
    occurrence wins); the key is the uid alone, so two entries of one uid
    collapse to the first whatever else they hold; and the step is
    idempotent: applied to its own output it returns it unchanged. *)
Theorem getUniqueBookings_first_occurrence_idempotent :
  (forall arr,
      let unique := (getUniqueBookings arr set_init).1 in
      unique = keepUnseen [] arr
      ∧ unique `sublist_of` arr
      ∧ (forall b, b ∈ unique <->
                   exists i, arr !! i = Some b ∧ uidOf b ∉ uidOf <$> take i arr)
      ∧ NoDup (uidOf <$> unique)
      ∧ (forall u, u ∈ uidOf <$> arr <-> u ∈ uidOf <$> unique)
      ∧ (getUniqueBookings unique set_init).1 = unique)
  ∧ (forall b1 b2 : T,
        (getUniqueBookings [b1; b2] set_init).1
        = if bool_decide (uidOf b1 = uidOf b2) then [b1] else [b1; b2]).
Proof.
  unfold set_init. split.
  - intros arr. cbn zeta. rewrite !getUniqueBookings_empty. cbn [fst].
    split_and!.
    + done.
    + apply keepUnseen_sublist.
    + intros b. by rewrite elem_of_keepUnseen.
    + apply keepUnseen_NoDup.
    + intros u. split.
      * intros Hu. destruct (keepUnseen_covers arr [] u Hu) as [Hp|Hk]; [|done].
        by apply elem_of_nil in Hp.
      * intros (b & -> & Hb)%list_elem_of_fmap. apply list_elem_of_fmap_2.
        eapply elem_of_sublist; [done|apply keepUnseen_sublist].
    + apply keepUnseen_idempotent.
  - intros b1 b2. rewrite getUniqueBookings_empty. cbn.
    rewrite bool_decide_eq_false_2 by apply not_elem_of_nil.
    cbn. f_equal. rewrite (bool_decide_ext (uidOf b2 ∈ [uidOf b1]) (uidOf b1 = uidOf b2)).
    + by case_bool_decide.
    + rewrite list_elem_of_singleton. split; congruence.
Qed.

(** C10. The module-level set is cleared before every return, so in any
    run of calls made one after the other from the initial state the set
    is empty at each entry and at each exit, each output is a function of
    that call's input alone, and two calls in a row on one input return
    the same output. *)
Theorem getUniqueBookings_shared_set_deterministic :
  (forall (arr : list T) (set : gset string), (getUniqueBookings arr set).2 = ∅)
  ∧ (forall calls : list (list T),
        let '(outs, entries, final) := runCalls calls set_init in
        Forall (fun set => set = ∅) entries
        ∧ length entries = length calls
        ∧ final = ∅
        ∧ outs = (fun arr => (getUniqueBookings arr ∅).1) <$> calls)
  ∧ (forall arr : list T,
        let '(first, set1) := getUniqueBookings arr set_init in
        let '(second, set2) := getUniqueBookings arr set1 in
        first = second ∧ set1 = ∅ ∧ set2 = ∅).
Proof.
  unfold set_init. split_and!.
  - apply getUniqueBookings_snd.
  - intros calls. rewrite runCalls_from_empty. split_and!.
    + apply Forall_fmap. by apply Forall_true.
    + by rewrite length_fmap.
    + done.
    + apply list_fmap_ext. intros _ arr _. by rewrite getUniqueBookings_empty.
  - intros arr. rewrite !getUniqueBookings_empty. done.
Qed.
End DedupFacts.


(** ** Filter resolver *)

Lemma statusIn_cancelled_rejected (s : BookingStatus) :
  statusIn [CANCELLED; REJECTED] s <-> s = CANCELLED ∨ s = REJECTED.
Proof.
  unfold statusIn. rewrite !elem_of_cons, elem_of_nil. tauto.
Qed.

Lemma gte_true (d v : Z) : gte d v = true <-> d <= v.
Proof. unfold gte. apply Z.leb_le. Qed.

Lemma lte_true (d v : Z) : lte d v = true <-> v <= d.
Proof. unfold lte. apply Z.leb_le. Qed.

Lemma notNull_true {A} (v : option A) : notNull v = true <-> is_Some v.
Proof. destruct v; cbn; split; first [done|by eauto|by intros [? ?]]. Qed.

Lemma equalsNull_true {A} (v : option A) : equalsNull v = true <-> v = None.
Proof. by destruct v. Qed.

(** C1. For each of the five status tags the resolved condition holds of a
    booking exactly when the row of the table for that tag does, and the
    resolved ordering direction is the one of the table. *)
Theorem bookingListingFilters_table (now : Z) (tag : StatusTag) (b : Booking.t) :
  (bookingListingFilters now tag b = true <-> tablePredicate now tag b)
  ∧ bookingListingOrderby tag = tableOrder tag.
Proof.
  split; [|by destruct tag].
  destruct tag;
    cbv [bookingListingFilters tablePredicate AND OR NOT forallb existsb
         statusNotIn statusEquals statusEqb];
    rewrite ?statusIn_cancelled_rejected;
    destruct (Booking.recurringEventId b) as [series|], (Booking.status b);
    cbn; rewrite ?andb_true_iff, ?orb_true_iff, ?gte_true, ?lte_true, ?is_Some_alt;
    intuition (try discriminate; eauto).
Qed.


(** ** Fallible maps and [Promise.all] *)

Lemma bind_Ok {A B} (a : A) (f : A -> Result B) : Ok a ≫= f = f a.
Proof. done. Qed.

Lemma mapM_Ok {A B} (f : A -> Result B) (l : list A) (ys : list B) :
  mapM f l = Ok ys -> Forall2 (fun x y => f x = Ok y) l ys.
Proof.
  revert ys. induction l as [|x l IH]; intros ys Hm; cbn in Hm.
  - injection Hm as <-. constructor.
  - destruct (f x) as [y|e] eqn:Hx; cbn in Hm; [|done].
    destruct (mapM f l) as [ys'|e]; cbn in Hm; [|done].
    injection Hm as <-. constructor; auto.
Qed.

Lemma mapM_total {A B} (f : A -> Result B) (l : list A) :
  Forall (fun x => isOk (f x) = true) l -> exists ys, mapM f l = Ok ys.
Proof.
  induction 1 as [|x l Hx _ [ys IH]]; cbn; [by eexists|].
  destruct (f x) as [y|e]; [|done]. rewrite IH. cbn. by eexists.
Qed.

Lemma firstRejection_None settledAt ps :
  firstRejection settledAt ps = None <-> Forall (fun p => p.2 = None) ps.
Proof.
  induction ps as [|[q [e|]] ps IH]; cbn.
  - split; [constructor|done].
  - split.
    + destruct (firstRejection settledAt ps) as [[t e']|]; [|done].
      by case_match.
    + by inversion 1.
  - rewrite IH. split; [by constructor|by inversion 1].
Qed.

(** The rejection reported is that of a rejected promise, and none of the
    rejected promises settles before it. *)
Lemma firstRejection_Some settledAt ps t e :
  firstRejection settledAt ps = Some (t, e) ->
  (exists q, (q, Some e) ∈ ps ∧ t = settledAt q)
  ∧ (forall q' e', (q', Some e') ∈ ps -> (t <= settledAt q')%nat).
Proof.
  revert t e. induction ps as [|[q [e0|]] ps IH]; intros t e; cbn [firstRejection];
    [done| |].
  - destruct (firstRejection settledAt ps) as [[t' e']|] eqn:Hl.
    + destruct (IH t' e' eq_refl) as [(q1 & Hq1 & ->) Hmin].
      destruct (Nat.ltb_spec (settledAt q1) (settledAt q)); intros ?; simplify_eq.
      * split; [exists q1; split; [by right|done]|].
        intros q' e'' [?|Hin]%elem_of_cons; [simplify_eq; lia|eauto].
      * split; [exists q; split; [by left|done]|].
        intros q' e'' [?|Hin]%elem_of_cons; [simplify_eq; lia|].
        specialize (Hmin _ _ Hin). lia.
    + intros ?; simplify_eq. split; [exists q; split; [by left|done]|].
      intros q' e'' [?|Hin]%elem_of_cons; [simplify_eq; lia|].
      apply firstRejection_None in Hl.
      rewrite Forall_forall in Hl. by specialize (Hl _ Hin).
  - intros Hf. destruct (IH t e Hf) as [(q1 & Hq1 & ->) Hmin].
    split; [exists q1; split; [by right|done]|].
    intros q' e'' [?|Hin]%elem_of_cons; [simplify_eq|eauto].
Qed.

Lemma rejection_None {A} (r : Result A) : rejection r = None <-> exists a, r = Ok a.
Proof. destruct r; cbn; split; first [done|by eauto|by intros [? ?]]. Qed.

Section PromiseAll.
Context {A1 A2 A3 A4 A5 A6 A7 : Type}.
Variable settledAt : Query -> nat.
Variables (q1 q2 q3 q4 q5 q6 q7 : Query).
Variables (r1 : Result A1) (r2 : Result A2) (r3 : Result A3) (r4 : Result A4)
          (r5 : Result A5) (r6 : Result A6) (r7 : Result A7).

Local Abbreviation rejections :=
  [ (q1, rejection r1); (q2, rejection r2); (q3, rejection r3); (q4, rejection r4);
    (q5, rejection r5); (q6, rejection r6); (q7, rejection r7) ].

Lemma promiseAll7_Ok a :
  promiseAll7 settledAt (q1, r1) (q2, r2) (q3, r3) (q4, r4) (q5, r5) (q6, r6) (q7, r7)
  = Ok a ->
  r1 = Ok a.1.1.1.1.1.1 ∧ r2 = Ok a.1.1.1.1.1.2 ∧ r3 = Ok a.1.1.1.1.2
  ∧ r4 = Ok a.1.1.1.2 ∧ r5 = Ok a.1.1.2 ∧ r6 = Ok a.1.2 ∧ r7 = Ok a.2.
Proof.
  unfold promiseAll7. cbn [fst snd].
  destruct (firstRejection _ _) as [[t e]|]; [done|].
  destruct r1, r2, r3, r4, r5, r6, r7; cbn; try done.
  by intros [= <-].
Qed.

Lemma promiseAll7_all_Ok a1 a2 a3 a4 a5 a6 a7 :
  r1 = Ok a1 -> r2 = Ok a2 -> r3 = Ok a3 -> r4 = Ok a4 -> r5 = Ok a5 ->
  r6 = Ok a6 -> r7 = Ok a7 ->
  promiseAll7 settledAt (q1, r1) (q2, r2) (q3, r3) (q4, r4) (q5, r5) (q6, r6) (q7, r7)
  = Ok (a1, a2, a3, a4, a5, a6, a7).
Proof. intros -> -> -> -> -> -> ->. done. Qed.

Lemma promiseAll7_rejected q e :
  (q, Some e) ∈ rejections ->
  exists q' e',
    promiseAll7 settledAt (q1, r1) (q2, r2) (q3, r3) (q4, r4) (q5, r5) (q6, r6) (q7, r7)
    = Err e'
    ∧ (q', Some e') ∈ rejections
    ∧ (forall q'' e'', (q'', Some e'') ∈ rejections ->
                       (settledAt q' <= settledAt q'')%nat).
Proof.
  intros Hin. unfold promiseAll7. cbn [fst snd].
  destruct (firstRejection settledAt rejections) as [[t e']|] eqn:Hf.
  - destruct (firstRejection_Some _ _ _ _ Hf) as [(q' & Hq' & ->) Hmin].
    exists q', e'. eauto.
  - apply firstRejection_None in Hf. rewrite Forall_forall in Hf.
    by specialize (Hf _ Hin).
Qed.
End PromiseAll.


(** ** Store queries *)

Lemma sortByStartTime_Permutation o l : sortByStartTime o l ≡ₚ l.
Proof. apply merge_sort_Permutation. Qed.

Lemma elem_of_page n k l b : b ∈ page n k l -> b ∈ l.
Proof.
  unfold page. case_match.
  - intros Hb. eapply elem_of_sublist in Hb; [|apply sublist_take].
    eapply elem_of_sublist; [done|apply sublist_drop].
  - rewrite elem_of_reverse. intros Hb.
    eapply elem_of_sublist in Hb; [|apply sublist_take].
    eapply elem_of_sublist in Hb; [|apply sublist_drop].
    by apply elem_of_reverse.
Qed.

Lemma findMany_Ok prisma q w o take skip found :
  findMany prisma q w o take skip = Ok found ->
  PrismaClient.fault prisma q = None
  ∧ (forall b, b ∈ found -> b ∈ PrismaClient.rows prisma ∧ w b = true).
Proof.
  unfold findMany. destruct (PrismaClient.fault prisma q); [done|].
  case_match; [done|]. intros [= <-]. split; [done|].
  intros b Hb.
  assert (b ∈ sortByStartTime o (filter (fun b => w b) (PrismaClient.rows prisma))) as Hs.
  { destruct take; [by eapply elem_of_page|].
    eapply elem_of_sublist; [done|apply sublist_drop]. }
  rewrite sortByStartTime_Permutation, list_elem_of_filter in Hs.
  destruct Hs as [Hw ?]. split; [done|]. by apply Is_true_true.
Qed.

Lemma findMany_all prisma q w o found :
  findMany prisma q w o None None = Ok found ->
  found ≡ₚ filter (fun b => w b) (PrismaClient.rows prisma).
Proof.
  unfold findMany. destruct (PrismaClient.fault prisma q); [done|].
  cbn. intros [= <-]. apply sortByStartTime_Permutation.
Qed.

Lemma findMany_no_fault prisma q w o take skip :
  PrismaClient.fault prisma q = None -> 0 <= default 0 skip ->
  exists found, findMany prisma q w o take skip = Ok found.
Proof.
  intros Hf Hs. unfold findMany. rewrite Hf.
  destruct (Z.ltb_spec (default 0 skip) 0); [lia|]. by eexists.
Qed.

Lemma findMany_fault prisma q w o take skip msg :
  PrismaClient.fault prisma q = Some msg ->
  findMany prisma q w o take skip = Err (StoreQueryError msg).
Proof. intros Hf. unfold findMany. by rewrite Hf. Qed.

(** ** Inversion of [getBookings] and [getHandler] *)

Section HandlerFacts.
Context {RecurringEvent EventTypeMetaData : Type}.
Variable parseRecurringEvent : option Json -> option RecurringEvent.
Variable EventTypeMetaDataSchema_parse : Json -> Result EventTypeMetaData.
Variable toISOString : Z -> string.

Local Abbreviation getBookings' :=
  (getBookings parseRecurringEvent EventTypeMetaDataSchema_parse toISOString).
Local Abbreviation getHandler' :=
  (getHandler parseRecurringEvent EventTypeMetaDataSchema_parse toISOString).
Local Abbreviation enrich' :=
  (enrich parseRecurringEvent EventTypeMetaDataSchema_parse toISOString).
Local Abbreviation normalize' :=
  (normalize parseRecurringEvent EventTypeMetaDataSchema_parse toISOString).

Lemma getBookings_Ok prisma user passed filters orderBy take skip set r set' :
  getBookings' prisma user passed filters orderBy take skip set = (Ok r, set') ->
  exists q1 q2 q3 q4 q5 basic ext,
    bookingsQueryUserId prisma user passed filters orderBy take skip = Ok q1
    ∧ bookingsQueryAttendees prisma user passed filters orderBy take skip = Ok q2
    ∧ bookingsQueryTeamEvents prisma user passed filters orderBy take skip = Ok q3
    ∧ bookingsQueryTeamUsersPersonalEvents prisma user passed filters orderBy take skip
      = Ok q4
    ∧ bookingsQuerySeatReference prisma user passed filters orderBy take skip = Ok q5
    ∧ recurringInfoBasic prisma user = Ok basic
    ∧ recurringInfoExtended prisma user = Ok ext
    ∧ recurringInfo basic ext = Ok (Bookings.recurringInfo r)
    ∧ enrich' prisma user orderBy
        (getUniqueBookings (q1 ++ q2 ++ q3 ++ q4 ++ q5) set).1
      = Ok (Bookings.bookings r)
    ∧ set' = ∅.
Proof.
  unfold getBookings.
  destruct (fanOut prisma user passed filters orderBy take skip)
    as [[[[[[[q1 q2] q3] q4] q5] basic] ext]|e] eqn:Hfan; [|done].
  apply promiseAll7_Ok in Hfan. cbn [fst snd] in Hfan.
  destruct Hfan as (H1 & H2 & H3 & H4 & H5 & H6 & H7).
  destruct (recurringInfo basic ext) as [infos|e] eqn:Hinfo; [|done].
  pose proof (getUniqueBookings_snd (q1 ++ q2 ++ q3 ++ q4 ++ q5) set) as Hset.
  destruct (getUniqueBookings (q1 ++ q2 ++ q3 ++ q4 ++ q5) set) as [plain set1] eqn:Hu.
  cbn [fst snd] in *.
  destruct (enrich' prisma user orderBy plain) as [bookings|e] eqn:He; cbn; [|done].
  intros [= <- <-]. exists q1, q2, q3, q4, q5, basic, ext. split_and!; try done.
  by rewrite Hu.
Qed.

Lemma getBookings_after_fanOut prisma user passed filters orderBy take skip set
    q1 q2 q3 q4 q5 basic ext infos :
  bookingsQueryUserId prisma user passed filters orderBy take skip = Ok q1 ->
  bookingsQueryAttendees prisma user passed filters orderBy take skip = Ok q2 ->
  bookingsQueryTeamEvents prisma user passed filters orderBy take skip = Ok q3 ->
  bookingsQueryTeamUsersPersonalEvents prisma user passed filters orderBy take skip
  = Ok q4 ->
  bookingsQuerySeatReference prisma user passed filters orderBy take skip = Ok q5 ->
  recurringInfoBasic prisma user = Ok basic ->
  recurringInfoExtended prisma user = Ok ext ->
  recurringInfo basic ext = Ok infos ->
  getBookings' prisma user passed filters orderBy take skip set
  = (bookings ← enrich' prisma user orderBy
                  (getUniqueBookings (q1 ++ q2 ++ q3 ++ q4 ++ q5) set).1;
     Ok {| Bookings.bookings := bookings; Bookings.recurringInfo := infos |}, ∅).
Proof.
  intros H1 H2 H3 H4 H5 H6 H7 Hinfo. unfold getBookings, fanOut.
  rewrite (promiseAll7_all_Ok _ _ _ _ _ _ _ _ _ _ _ _ _ _ _ _ _ _ _ _ _ _
             H1 H2 H3 H4 H5 H6 H7).
  rewrite Hinfo.
  pose proof (getUniqueBookings_snd (q1 ++ q2 ++ q3 ++ q4 ++ q5) set) as Hset.
  destruct (getUniqueBookings (q1 ++ q2 ++ q3 ++ q4 ++ q5) set) as [plain set1].
  cbn [fst snd] in *. by rewrite Hset.
Qed.

Lemma getHandler_Ok prisma user now input set resp set' :
  getHandler' prisma user now input set = (Ok resp, set') ->
  let take := default 10 (Input.limit input) in
  let skip := default 0 (Input.cursor input) in
  let tag := Filters.status (Input.filters input) in
  exists r,
    getBookings' prisma user (bookingListingFilters now tag) (Input.filters input)
      (bookingListingOrderby tag) take skip set = (Ok r, set')
    ∧ Response.bookings resp = Bookings.bookings r
    ∧ Response.recurringInfo resp = Bookings.recurringInfo r
    ∧ Response.nextCursor resp
      = if take <? Z.of_nat (length (Bookings.bookings r))
        then Some (skip + Z.of_nat (length (Bookings.bookings r))) else None.
Proof.
  unfold getHandler. cbn zeta.
  destruct (getBookings _ _ _ _ _ _ _ _ _ _ _) as [[r|e] set1]; cbn; [|done].
  intros [= <- <-]. by exists r.
Qed.
End HandlerFacts.


(** ** Enrichment, redaction and normalisation *)

Lemma inZ_true (l : list Z) (x : Z) : inZ l x = true <-> x ∈ l.
Proof.
  unfold inZ. rewrite existsb_exists. setoid_rewrite Z.eqb_eq.
  setoid_rewrite <- list_elem_of_In. split; [by intros (y & ? & ->)|eauto].
Qed.

Lemma filter_email_eq (email : string) (l : list Attendee.t) :
  Forall (fun a => Attendee.email a = email)
         (filter (fun a => String.eqb (Attendee.email a) email = true) l).
Proof.
  apply Forall_forall. intros a [Ha _]%list_elem_of_filter. by apply String.eqb_eq.
Qed.

(** Among rows of pairwise distinct emails at most one carries a given one. *)
Lemma filter_email_length (email : string) (l : list Attendee.t) :
  NoDup (Attendee.email <$> l) ->
  (length (filter (fun a => String.eqb (Attendee.email a) email = true) l) <= 1)%nat.
Proof.
  induction l as [|a l IH]; intros Hnd; [cbn; lia|].
  rewrite fmap_cons in Hnd. apply NoDup_cons in Hnd as [Ha Hnd].
  rewrite filter_cons. case_decide as Heq; [|auto].
  apply String.eqb_eq in Heq. cbn.
  destruct (filter _ l) as [|a' l'] eqn:Hf; [cbn; lia|].
  exfalso. apply Ha.
  assert (a' ∈ filter (fun a => String.eqb (Attendee.email a) email = true) l) as Hin
    by (rewrite Hf; by left).
  apply list_elem_of_filter in Hin as [He Hin]. apply String.eqb_eq in He.
  rewrite Heq, <- He. by apply list_elem_of_fmap_2.
Qed.

Lemma redact_fields user s :
  Selected.id (redact user s) = Selected.id s
  ∧ Selected.uid (redact user s) = Selected.uid s
  ∧ Selected.seatsReferences (redact user s) = Selected.seatsReferences s
  ∧ Selected.eventType (redact user s) = Selected.eventType s
  ∧ Selected.attendees (redact user s)
    = if redactionApplies s
      then filter (fun a => String.eqb (Attendee.email a) (Viewer.email user) = true)
                  (Selected.attendees s)
      else Selected.attendees s.
Proof. unfold redact. by destruct (redactionApplies s). Qed.

Section EnrichFacts.
Context {RecurringEvent EventTypeMetaData : Type}.
Variable parseRecurringEvent : option Json -> option RecurringEvent.
Variable EventTypeMetaDataSchema_parse : Json -> Result EventTypeMetaData.
Variable toISOString : Z -> string.

Local Abbreviation getBookings' :=
  (getBookings parseRecurringEvent EventTypeMetaDataSchema_parse toISOString).
Local Abbreviation getHandler' :=
  (getHandler parseRecurringEvent EventTypeMetaDataSchema_parse toISOString).
Local Abbreviation enrich' :=
  (enrich parseRecurringEvent EventTypeMetaDataSchema_parse toISOString).
Local Abbreviation normalize' :=
  (normalize parseRecurringEvent EventTypeMetaDataSchema_parse toISOString).

Lemma normalize_Ok s out :
  normalize' s = Ok out ->
  BookingOut.id out = Selected.id s
  ∧ BookingOut.uid out = Selected.uid s
  ∧ BookingOut.attendees out = Selected.attendees s
  ∧ BookingOut.seatsReferences out = Selected.seatsReferences s
  ∧ EventTypeOut.spread (BookingOut.eventType out) = Selected.eventType s.
Proof.
  unfold normalize. destruct (EventTypeMetaDataSchema_parse _); cbn; [|done].
  by intros [= <-].
Qed.

Lemma enrich_Ok prisma user orderBy plain bookings :
  enrich' prisma user orderBy plain = Ok bookings ->
  exists found,
    found ≡ₚ filter (fun b => inZ (Booking.id <$> plain) (Booking.id b))
                    (PrismaClient.rows prisma)
    ∧ Forall2 (fun b out => normalize' (redact user (bookingSelect user b)) = Ok out)
              found bookings.
Proof.
  unfold enrich, enrichQuery.
  destruct (findMany _ _ _ _ _ _) as [found|e] eqn:Hf; cbn; [|done].
  intros Hm%mapM_Ok. exists found. split; [by eapply findMany_all|].
  by apply Forall2_fmap_l in Hm.
Qed.

(** What a booking of the enriched list holds, in terms of the row of the
    store it was read from. *)
Lemma enrich_row prisma user orderBy plain bookings out :
  enrich' prisma user orderBy plain = Ok bookings ->
  out ∈ bookings ->
  exists b,
    b ∈ PrismaClient.rows prisma
    ∧ Booking.id b ∈ Booking.id <$> plain
    ∧ BookingOut.id out = Booking.id b
    ∧ BookingOut.uid out = Booking.uid b
    ∧ BookingOut.seatsReferences out
      = selectSeat <$>
          filter (fun s => String.eqb (Attendee.email (BookingSeat.attendee s))
                                      (Viewer.email user) = true)
                 (Booking.seatsReferences b)
    ∧ EventTypeOut.spread (BookingOut.eventType out)
      = selectEventType <$> Booking.eventType b
    ∧ BookingOut.attendees out
      = if redactionApplies (bookingSelect user b)
        then filter (fun a => String.eqb (Attendee.email a) (Viewer.email user) = true)
                    (Booking.attendees b)
        else Booking.attendees b.
Proof.
  intros (found & Hperm & Hall)%enrich_Ok Hout.
  apply list_elem_of_lookup in Hout as [i Hi].
  destruct (Forall2_lookup_r _ _ _ _ _ Hall Hi) as (b & Hb & Hn).
  apply list_elem_of_lookup_2 in Hb. rewrite Hperm in Hb.
  apply list_elem_of_filter in Hb as [Hid Hb].
  apply Is_true_true, inZ_true in Hid.
  apply normalize_Ok in Hn as (-> & -> & -> & -> & ->).
  destruct (redact_fields user (bookingSelect user b)) as (-> & -> & -> & -> & ->).
  exists b. by split_and!.
Qed.

Lemma getHandler_row prisma user now input set resp set' out :
  getHandler' prisma user now input set = (Ok resp, set') ->
  out ∈ Response.bookings resp ->
  exists b,
    b ∈ PrismaClient.rows prisma
    ∧ BookingOut.id out = Booking.id b
    ∧ BookingOut.uid out = Booking.uid b
    ∧ BookingOut.seatsReferences out
      = selectSeat <$>
          filter (fun s => String.eqb (Attendee.email (BookingSeat.attendee s))
                                      (Viewer.email user) = true)
                 (Booking.seatsReferences b)
    ∧ EventTypeOut.spread (BookingOut.eventType out)
      = selectEventType <$> Booking.eventType b
    ∧ BookingOut.attendees out
      = if redactionApplies (bookingSelect user b)
        then filter (fun a => String.eqb (Attendee.email a) (Viewer.email user) = true)
                    (Booking.attendees b)
        else Booking.attendees b.
Proof.
  intros (r & Hr & Hb & _)%getHandler_Ok Hout. rewrite Hb in Hout.
  apply getBookings_Ok in Hr
    as (q1 & q2 & q3 & q4 & q5 & basic & ext & _ & _ & _ & _ & _ & _ & _ & _ & He & _).
  destruct (enrich_row _ _ _ _ _ _ He Hout) as (b & ? & ? & ?).
  by exists b.
Qed.

(** C9. Every seat reference of every booking of the response belongs to an
    attendee with the viewer's email: the list is the selection of the
    stored seat references of that booking under that condition.  The
    redaction test therefore sees the viewer's own seat references only: a
    booking whose stored seat references all belong to others comes back
    with no seat reference and with its attendee list as stored. *)
Theorem seatsReferences_only_viewer prisma user now input set resp set' out :
  getHandler' prisma user now input set = (Ok resp, set') ->
  out ∈ Response.bookings resp ->
  Forall (fun s => SeatSelect.attendee_email s = Viewer.email user)
         (BookingOut.seatsReferences out)
  ∧ exists b,
      b ∈ PrismaClient.rows prisma
      ∧ BookingOut.id out = Booking.id b
      ∧ BookingOut.seatsReferences out
        = selectSeat <$>
            filter (fun s => String.eqb (Attendee.email (BookingSeat.attendee s))
                                        (Viewer.email user) = true)
                   (Booking.seatsReferences b)
      ∧ (Forall (fun s => Attendee.email (BookingSeat.attendee s) ≠ Viewer.email user)
                (Booking.seatsReferences b) ->
         BookingOut.seatsReferences out = []
         ∧ BookingOut.attendees out = Booking.attendees b).
Proof.
  intros Hh Hout.
  destruct (getHandler_row _ _ _ _ _ _ _ _ Hh Hout)
    as (b & Hb & Hid & _ & Hseats & _ & Hatt).
  split.
  - rewrite Hseats. apply Forall_fmap, Forall_forall.
    intros s [Hs _]%list_elem_of_filter. by apply String.eqb_eq.
  - exists b. split_and!; try done.
    intros Hothers.
    assert (filter (fun s => String.eqb (Attendee.email (BookingSeat.attendee s))
                                        (Viewer.email user) = true)
                   (Booking.seatsReferences b) = []) as Hnil.
    { destruct (filter _ (Booking.seatsReferences b)) as [|s l] eqn:Hf; [done|].
      assert (s ∈ filter (fun s => String.eqb (Attendee.email (BookingSeat.attendee s))
                                              (Viewer.email user) = true)
                         (Booking.seatsReferences b)) as Hs by (rewrite Hf; by left).
      apply list_elem_of_filter in Hs as [Heq Hs]. apply String.eqb_eq in Heq.
      rewrite Forall_forall in Hothers. by destruct (Hothers _ Hs). }
    rewrite Hseats, Hatt. unfold redactionApplies. cbn. by rewrite Hnil.
Qed.
End EnrichFacts.

Lemma seatsReferences_only_viewer_witness :
  exists resp out,
    Sample.handle (Sample.store Sample.seatedTwice) 500 (Sample.input upcoming None None)
    = (Ok resp, ∅)
    ∧ out ∈ Response.bookings resp
    ∧ Forall (fun s => SeatSelect.attendee_email s = Viewer.email Sample.viewer)
             (BookingOut.seatsReferences out).
Proof.
  eexists. eexists.
  assert (forall A (x : A) (l : list A), x ∈ x :: l) as Hhere by (intros; by left).
  split; [vm_compute; reflexivity|]. split; [apply Hhere|].
  refine (proj1 (seatsReferences_only_viewer Sample.parseRecurringEvent
                   Sample.parseMetadata Sample.toISOString
                   (Sample.store Sample.seatedTwice) Sample.viewer 500
                   (Sample.input upcoming None None) set_init _ ∅ _ _ _)).
  - vm_compute; reflexivity.
  - apply Hhere.
Defined.

(** ** Attendee redaction *)

Section Redaction.
Context {RecurringEvent EventTypeMetaData : Type}.
Variable parseRecurringEvent : option Json -> option RecurringEvent.
Variable EventTypeMetaDataSchema_parse : Json -> Result EventTypeMetaData.
Variable toISOString : Z -> string.

Local Abbreviation getHandler' :=
  (getHandler parseRecurringEvent EventTypeMetaDataSchema_parse toISOString).

(** C3, amended. For every booking of the response that has at least one
    seat reference and whose event type's seatsShowAttendees flag is false,
    the returned attendee list is the list of the stored attendees of that
    booking whose email equals the viewer's email: every entry carries the
    viewer's email (so a single entry is the viewer's), and the list has at
    most one entry whenever the stored attendees of the booking have
    pairwise distinct emails. *)
Theorem attendees_redacted_to_viewer prisma user now input set resp set' out :
  getHandler' prisma user now input set = (Ok resp, set') ->
  out ∈ Response.bookings resp ->
  (1 <= length (BookingOut.seatsReferences out))%nat ->
  EventTypeOut.spread (BookingOut.eventType out) ≫= EventTypeSelect.seatsShowAttendees
  = Some false ->
  Forall (fun a => Attendee.email a = Viewer.email user) (BookingOut.attendees out)
  ∧ (forall a, BookingOut.attendees out = [a] -> Attendee.email a = Viewer.email user)
  ∧ exists b,
      b ∈ PrismaClient.rows prisma
      ∧ BookingOut.id out = Booking.id b
      ∧ BookingOut.attendees out
        = filter (fun a => String.eqb (Attendee.email a) (Viewer.email user) = true)
                 (Booking.attendees b)
      ∧ (NoDup (Attendee.email <$> Booking.attendees b) ->
         (length (BookingOut.attendees out) <= 1)%nat).
Proof.
  intros Hh Hout Hseats Hflag.
  destruct (getHandler_row _ _ _ _ _ _ _ _ _ _ _ Hh Hout)
    as (b & Hb & Hid & _ & Hs & He & Hatt).
  assert (redactionApplies (bookingSelect user b) = true) as Happ.
  { unfold redactionApplies. cbn [bookingSelect Selected.seatsReferences Selected.eventType].
    rewrite <- Hs, <- He, Hflag. cbn.
    destruct (length (BookingOut.seatsReferences out)); [lia|done]. }
  rewrite Happ in Hatt.
  assert (Forall (fun a => Attendee.email a = Viewer.email user)
                 (BookingOut.attendees out)) as Hall.
  { rewrite Hatt. apply filter_email_eq. }
  split_and!.
  - done.
  - intros a Ha. rewrite Ha in Hall. by apply Forall_inv in Hall.
  - exists b. split_and!; try done.
    intros Hnd. rewrite Hatt. by apply filter_email_length.
Qed.
End Redaction.

Lemma attendees_redacted_to_viewer_witness :
  exists resp out,
    Sample.handle (Sample.store Sample.seatedTwice) 500 (Sample.input upcoming None None)
    = (Ok resp, ∅)
    ∧ out ∈ Response.bookings resp
    ∧ (1 <= length (BookingOut.seatsReferences out))%nat
    ∧ EventTypeOut.spread (BookingOut.eventType out) ≫= EventTypeSelect.seatsShowAttendees
      = Some false
    ∧ Forall (fun a => Attendee.email a = Viewer.email Sample.viewer)
             (BookingOut.attendees out).
Proof.
  eexists. eexists.
  assert (forall A (x : A) (l : list A), x ∈ x :: l) as Hhere by (intros; by left).
  split; [vm_compute; reflexivity|]. split; [apply Hhere|].
  split; [vm_compute; lia|]. split; [vm_compute; reflexivity|].
  refine (proj1 (attendees_redacted_to_viewer Sample.parseRecurringEvent
                   Sample.parseMetadata Sample.toISOString
                   (Sample.store Sample.seatedTwice) Sample.viewer 500
                   (Sample.input upcoming None None) set_init _ ∅ _ _ _ _ _)).
  - vm_compute; reflexivity.
  - apply Hhere.
  - vm_compute; lia.
  - vm_compute; reflexivity.
Defined.

(** The property as first stated fails: the seated booking of the sample
    store comes back with two attendee entries, both with the viewer's
    email. *)
Lemma attendeeRedactionAsStated_fails :
  exists resp,
    Sample.handle (Sample.store Sample.seatedTwice) 500 (Sample.input upcoming None None)
    = (Ok resp, ∅)
    ∧ ¬ attendeeRedactionAsStated Sample.viewer resp.
Proof.
  eexists. split; [vm_compute; reflexivity|].
  intros Hstated.
  destruct (Hstated _ (list_elem_of_here _ _)) as [Hlen _].
  - vm_compute. lia.
  - vm_compute. reflexivity.
  - vm_compute in Hlen. lia.
Qed.


(** ** One entry per visible booking *)

Section ListFacts.
Context {A B : Type}.

Lemma filter_ext_elem (P Q : A -> Prop) `{!forall x, Decision (P x)}
    `{!forall x, Decision (Q x)} (l : list A) :
  (forall x, x ∈ l -> P x <-> Q x) -> filter P l = filter Q l.
Proof.
  induction l as [|x l IH]; intros Hext; [done|].
  rewrite !filter_cons.
  rewrite IH by (intros y Hy; apply Hext; by right).
  apply decide_ext, Hext. by left.
Qed.

Lemma NoDup_fmap_inj (f : A -> B) (l : list A) (x y : A) :
  NoDup (f <$> l) -> x ∈ l -> y ∈ l -> f x = f y -> x = y.
Proof.
  induction l as [|z l IH]; intros Hnd Hx Hy Hf; [by apply elem_of_nil in Hx|].
  rewrite fmap_cons in Hnd. apply NoDup_cons in Hnd as [Hz Hnd].
  apply elem_of_cons in Hx as [->|Hx], Hy as [->|Hy]; auto.
  - destruct Hz. rewrite Hf. by apply list_elem_of_fmap_2.
  - destruct Hz. rewrite <- Hf. by apply list_elem_of_fmap_2.
Qed.

Lemma filter_key_singleton `{EqDecision B} (f : A -> B) (l : list A) (x : A) :
  NoDup (f <$> l) -> x ∈ l -> filter (fun y => f y = f x) l = [x].
Proof.
  induction l as [|z l IH]; intros Hnd Hx; [by apply elem_of_nil in Hx|].
  rewrite fmap_cons in Hnd. apply NoDup_cons in Hnd as [Hz Hnd].
  rewrite filter_cons. apply elem_of_cons in Hx as [->|Hx].
  - rewrite decide_True by done. f_equal.
    destruct (filter _ l) as [|y l'] eqn:Hf; [done|]. exfalso. apply Hz.
    assert (y ∈ filter (fun y => f y = f z) l) as Hy by (rewrite Hf; by left).
    apply list_elem_of_filter in Hy as [<- Hy]. by apply list_elem_of_fmap_2.
  - rewrite decide_False; [by apply IH|].
    intros Heq. apply Hz. rewrite Heq. by apply list_elem_of_fmap_2.
Qed.

Lemma Forall2_filter_related (R : A -> B -> Prop) (P : A -> Prop) (Q : B -> Prop)
    `{!forall x, Decision (P x)} `{!forall y, Decision (Q y)} (l : list A) (k : list B) :
  Forall2 R l k -> (forall x y, R x y -> P x <-> Q y) ->
  Forall2 R (filter P l) (filter Q k).
Proof.
  intros HR Hiff. induction HR as [|x y l k Hxy _ IH]; [constructor|].
  rewrite !filter_cons. specialize (Hiff _ _ Hxy).
  destruct (decide (P x)), (decide (Q y)); try tauto. by constructor.
Qed.
End ListFacts.

Section Visibility.
Context {RecurringEvent EventTypeMetaData : Type}.
Variable parseRecurringEvent : option Json -> option RecurringEvent.
Variable EventTypeMetaDataSchema_parse : Json -> Result EventTypeMetaData.
Variable toISOString : Z -> string.

Local Abbreviation getHandler' :=
  (getHandler parseRecurringEvent EventTypeMetaDataSchema_parse toISOString).
Local Abbreviation enrich' :=
  (enrich parseRecurringEvent EventTypeMetaDataSchema_parse toISOString).
Local Abbreviation normalize' :=
  (normalize parseRecurringEvent EventTypeMetaDataSchema_parse toISOString).

Lemma normalize_redact_select user b out :
  normalize' (redact user (bookingSelect user b)) = Ok out ->
  BookingOut.uid out = Booking.uid b ∧ BookingOut.id out = Booking.id b.
Proof.
  intros (Hid & Huid & _)%normalize_Ok.
  destruct (redact_fields user (bookingSelect user b)) as (Hid' & Huid' & _).
  rewrite Hid, Huid, Hid', Huid'. done.
Qed.

(** A booking found by one of the concatenated queries is listed exactly
    once by the enrichment of the deduplicated list. *)
Lemma enrich_listed_once prisma user orderBy (found : list Booking.t) bookings b :
  NoDup (Booking.id <$> PrismaClient.rows prisma) ->
  (forall x, x ∈ found -> x ∈ PrismaClient.rows prisma) ->
  enrich' prisma user orderBy (getUniqueBookings found set_init).1 = Ok bookings ->
  b ∈ found ->
  exists out,
    filter (fun out => BookingOut.uid out = Booking.uid b) bookings = [out]
    ∧ BookingOut.uid out = Booking.uid b.
Proof.
  intros Hnd Hrows He Hb. unfold set_init in He.
  rewrite getUniqueBookings_empty in He. cbn [fst] in He.
  set (plain := keepUnseen [] found) in *.
  assert (forall x, x ∈ plain -> x ∈ PrismaClient.rows prisma) as Hplain.
  { intros x Hx. apply Hrows. eapply elem_of_sublist; [done|apply keepUnseen_sublist]. }
  (* the entry kept for the uid of [b] *)
  destruct (keepUnseen_covers found [] (Booking.uid b)) as [Hp|Hk].
  { by apply (list_elem_of_fmap_2 (uidOf (T:=Booking.t))). }
  { by apply elem_of_nil in Hp. }
  apply list_elem_of_fmap in Hk as (k & Huid & Hk). fold plain in Hk.
  change (uidOf k) with (Booking.uid k) in Huid.
  apply enrich_Ok in He as (rows' & Hperm & Hall).
  (* the rows selected for the uid of [b] are the row of [k] alone *)
  assert (filter (fun r => Booking.uid r = Booking.uid b) rows' ≡ₚ [k]) as Hone.
  { rewrite Hperm, list_filter_filter.
    rewrite (filter_ext_elem _ (fun r => Booking.id r = Booking.id k)).
    - by rewrite (filter_key_singleton Booking.id) by auto.
    - intros r Hr. split.
      + intros [Hu Hid]. apply Is_true_true, inZ_true in Hid.
        apply list_elem_of_fmap in Hid as (p & Hid & Hp).
        assert (r = p) as -> by (eapply (NoDup_fmap_inj Booking.id); eauto).
        f_equal. eapply (NoDup_fmap_inj (uidOf (T:=Booking.t))); eauto.
        * apply keepUnseen_NoDup.
        * change (Booking.uid p = Booking.uid k). congruence.
      + intros Hid.
        assert (r = k) as -> by (eapply (NoDup_fmap_inj Booking.id); eauto).
        split; [done|]. apply Is_true_true, inZ_true. by apply list_elem_of_fmap_2. }
  assert (Forall2 (fun r out => normalize' (redact user (bookingSelect user r)) = Ok out)
                  (filter (fun r => Booking.uid r = Booking.uid b) rows')
                  (filter (fun out => BookingOut.uid out = Booking.uid b) bookings))
    as Hrel.
  { apply Forall2_filter_related; [done|].
    intros r out [Hu _]%normalize_redact_select. by rewrite Hu. }
  apply Permutation_singleton_r in Hone. rewrite Hone in Hrel.
  apply Forall2_cons_inv_l in Hrel as (out & l' & Hn & Hnil & ->).
  apply Forall2_nil_inv_l in Hnil as ->.
  exists out. split; [done|].
  apply normalize_redact_select in Hn as [-> _]. done.
Qed.

(** C5. With [id] the key of the booking table, every booking that two or
    more of the five visibility queries return has exactly one entry of its
    uid in the bookings of the response. *)
Theorem booking_on_several_paths_listed_once prisma user now input resp set'
    (i j : nat) (qi qj : list Booking.t) (b : Booking.t) :
  NoDup (Booking.id <$> PrismaClient.rows prisma) ->
  getHandler' prisma user now input set_init = (Ok resp, set') ->
  let tag := Filters.status (Input.filters input) in
  let queries :=
    visibilityQueries prisma user (bookingListingFilters now tag) (Input.filters input)
      (bookingListingOrderby tag) (default 10 (Input.limit input))
      (default 0 (Input.cursor input)) in
  i ≠ j ->
  queries !! i = Some (Ok qi) ->
  queries !! j = Some (Ok qj) ->
  b ∈ qi ->
  b ∈ qj ->
  exists out,
    filter (fun out => BookingOut.uid out = Booking.uid b) (Response.bookings resp) = [out]
    ∧ BookingOut.uid out = Booking.uid b.
Proof.
  intros Hnd Hh tag queries _ Hi _ Hbi _.
  apply getHandler_Ok in Hh as (r & Hr & -> & _).
  apply getBookings_Ok in Hr
    as (q1 & q2 & q3 & q4 & q5 & basic & ext
        & H1 & H2 & H3 & H4 & H5 & _ & _ & _ & He & _).
  assert (forall x, x ∈ q1 ++ q2 ++ q3 ++ q4 ++ q5 -> x ∈ PrismaClient.rows prisma)
    as Hrows.
  { intros x. rewrite !elem_of_app.
    intros [Hx|[Hx|[Hx|[Hx|Hx]]]];
      [ destruct (findMany_Ok _ _ _ _ _ _ _ H1) as [_ Hq]
      | destruct (findMany_Ok _ _ _ _ _ _ _ H2) as [_ Hq]
      | destruct (findMany_Ok _ _ _ _ _ _ _ H3) as [_ Hq]
      | destruct (findMany_Ok _ _ _ _ _ _ _ H4) as [_ Hq]
      | destruct (findMany_Ok _ _ _ _ _ _ _ H5) as [_ Hq] ];
      by destruct (Hq _ Hx). }
  eapply enrich_listed_once; try done.
  subst queries. unfold visibilityQueries in Hi. fold tag in H1, H2, H3, H4, H5.
  rewrite H1, H2, H3, H4, H5 in Hi. rewrite !elem_of_app.
  destruct i as [|[|[|[|[|i]]]]]; cbn in Hi; simplify_eq; tauto.
Qed.
End Visibility.

Lemma booking_on_several_paths_listed_once_witness :
  exists resp qi qj,
    NoDup (Booking.id <$> PrismaClient.rows (Sample.store Sample.threeUpcoming))
    ∧ Sample.handle (Sample.store Sample.threeUpcoming) 500
        (Sample.input upcoming None None) = (Ok resp, ∅)
    ∧ 0%nat ≠ 4%nat
    ∧ visibilityQueries (Sample.store Sample.threeUpcoming) Sample.viewer
        (bookingListingFilters 500 upcoming)
        (Input.filters (Sample.input upcoming None None))
        (bookingListingOrderby upcoming) 10 0 !! 0%nat = Some (Ok qi)
    ∧ visibilityQueries (Sample.store Sample.threeUpcoming) Sample.viewer
        (bookingListingFilters 500 upcoming)
        (Input.filters (Sample.input upcoming None None))
        (bookingListingOrderby upcoming) 10 0 !! 4%nat = Some (Ok qj)
    ∧ Sample.shared ∈ qi
    ∧ Sample.shared ∈ qj
    ∧ exists out,
        filter (fun out => BookingOut.uid out = Booking.uid Sample.shared)
               (Response.bookings resp) = [out]
        ∧ BookingOut.uid out = Booking.uid Sample.shared.
Proof.
  assert (NoDup (Booking.id <$> PrismaClient.rows (Sample.store Sample.threeUpcoming)))
    as Hnd by (refine (bool_decide_unpack _ _); vm_compute; exact I).
  eexists. eexists. eexists.
  split; [exact Hnd|].
  split; [vm_compute; reflexivity|].
  split; [lia|].
  split; [vm_compute; reflexivity|].
  split; [vm_compute; reflexivity|].
  assert (forall A (x y : A) (l : list A), x ∈ y :: x :: l) as Hsnd
    by (intros; right; by left).
  assert (forall A (x : A) (l : list A), x ∈ x :: l) as Hfst by (intros; by left).
  split; [apply Hsnd|]. split; [apply Hfst|].
  refine (booking_on_several_paths_listed_once Sample.parseRecurringEvent
            Sample.parseMetadata Sample.toISOString
            (Sample.store Sample.threeUpcoming) Sample.viewer 500
            (Sample.input upcoming None None) _ ∅ 0%nat 4%nat _ _ Sample.shared
            Hnd _ _ _ _ _ _).
  - vm_compute; reflexivity.
  - lia.
  - vm_compute; reflexivity.
  - vm_compute; reflexivity.
  - apply Hsnd.
  - apply Hfst.
Defined.


(** ** Recurring aggregator *)

Lemma emptyBuckets_lookup (s : BookingStatus) : emptyBuckets !! s = Some [].
Proof. by destruct s. Qed.

Lemma bucketOf_cons curr ext series s :
  bucketOf (curr :: ext) series s
  = (if bool_decide (RecurringInfoExtended.recurringEventId curr = series
                     ∧ RecurringInfoExtended.status curr = s)
     then [RecurringInfoExtended.startTime curr] else [])
    ++ bucketOf ext series s.
Proof.
  unfold bucketOf. rewrite filter_cons. by case_bool_decide; case_decide.
Qed.

(** The reduction never meets a missing key, and appends to each bucket the
    start times of the rows of the series in that status. *)
Lemma reduce_buckets (info : RecurringInfoBasic.t) (ext : list RecurringInfoExtended.t) :
  forall prev : gmap BookingStatus (list Z),
    (forall s, is_Some (prev !! s)) ->
    exists bookings,
      reduceM
        (fun prev curr =>
           if bool_decide (RecurringInfoExtended.recurringEventId curr
                           = RecurringInfoBasic.recurringEventId info)
           then pushBucket prev (RecurringInfoExtended.status curr)
                           (RecurringInfoExtended.startTime curr)
           else Ok prev)
        ext prev = Ok bookings
      ∧ forall s,
          bookings !! s
          = (fun dates =>
               dates ++ bucketOf ext (RecurringInfoBasic.recurringEventId info) s)
              <$> prev !! s.
Proof.
  induction ext as [|curr ext IH]; intros prev Hall; cbn [reduceM].
  - exists prev. split; [done|]. intros s. destruct (Hall s) as [dates ->].
    cbn. by rewrite app_nil_r.
  - case_bool_decide as Hid.
    + unfold pushBucket.
      destruct (Hall (RecurringInfoExtended.status curr)) as [dates Hd]. rewrite Hd.
      rewrite bind_Ok. edestruct IH as (bookings & -> & Hb).
      { intros s. rewrite lookup_insert. case_decide; [by eexists|done]. }
      exists bookings. split; [done|]. intros s. rewrite Hb, lookup_insert, bucketOf_cons.
      case_decide as Hs.
      * subst s. rewrite Hd, bool_decide_eq_true_2 by done. cbn.
        by rewrite <- app_assoc.
      * rewrite bool_decide_eq_false_2 by (intros [_ ?]; done). done.
    + rewrite bind_Ok. destruct (IH prev Hall) as (bookings & -> & Hb).
      exists bookings. split; [done|]. intros s. rewrite Hb, bucketOf_cons.
      rewrite bool_decide_eq_false_2 by (intros [? _]; done). done.
Qed.

Lemma recurringInfoOf_Ok ext info :
  exists summary,
    recurringInfoOf ext info = Ok summary
    ∧ RecurringSeriesSummary.recurringEventId summary
      = RecurringInfoBasic.recurringEventId info
    ∧ RecurringSeriesSummary.count summary = RecurringInfoBasic.count_recurringEventId info
    ∧ RecurringSeriesSummary.firstDate summary = RecurringInfoBasic.min_startTime info
    ∧ dom (RecurringSeriesSummary.bookings summary) = list_to_set allStatuses
    ∧ forall s, RecurringSeriesSummary.bookings summary !! s
                = Some (bucketOf ext (RecurringInfoBasic.recurringEventId info) s).
Proof.
  unfold recurringInfoOf.
  destruct (reduce_buckets info ext emptyBuckets) as (bookings & -> & Hb).
  { intros s. rewrite emptyBuckets_lookup. by eexists. }
  cbn. eexists. split; [done|]. cbn. split_and!; try done.
  - apply set_eq. intros s. rewrite elem_of_dom, Hb, emptyBuckets_lookup. cbn.
    split; [|by eexists]. intros _. destruct s; set_solver.
  - intros s. by rewrite Hb, emptyBuckets_lookup.
Qed.

(** The aggregator on one group of three rows ACCEPTED, ACCEPTED,
    CANCELLED at t1, t2, t3. *)
Lemma recurringInfo_three (series : string) (t1 t2 t3 : Z) :
  recurringInfo
    [ {| RecurringInfoBasic.recurringEventId := Some series;
         RecurringInfoBasic.count_recurringEventId := 3;
         RecurringInfoBasic.min_startTime := Some t1 |} ]
    [ {| RecurringInfoExtended.recurringEventId := Some series;
         RecurringInfoExtended.status := ACCEPTED;
         RecurringInfoExtended.startTime := t1;
         RecurringInfoExtended.min_startTime := Some t1 |};
      {| RecurringInfoExtended.recurringEventId := Some series;
         RecurringInfoExtended.status := ACCEPTED;
         RecurringInfoExtended.startTime := t2;
         RecurringInfoExtended.min_startTime := Some t2 |};
      {| RecurringInfoExtended.recurringEventId := Some series;
         RecurringInfoExtended.status := CANCELLED;
         RecurringInfoExtended.startTime := t3;
         RecurringInfoExtended.min_startTime := Some t3 |} ]
  = Ok [ {| RecurringSeriesSummary.recurringEventId := Some series;
            RecurringSeriesSummary.count := 3;
            RecurringSeriesSummary.firstDate := Some t1;
            RecurringSeriesSummary.bookings :=
              <[ACCEPTED := [t1; t2]]> (<[CANCELLED := [t3]]> (<[REJECTED := []]>
                (<[PENDING := []]> (<[AWAITING_HOST := []]> ∅)))) |} ].
Proof.
  unfold recurringInfo, recurringInfoOf. cbn [mapM reduceM].
  cbn [RecurringInfoExtended.recurringEventId RecurringInfoBasic.recurringEventId].
  rewrite !bool_decide_eq_true_2 by done.
  vm_compute. reflexivity.
Qed.



(** ** Scope of the recurring aggregates *)

Lemma elem_of_distinctKeys {K} `{EqDecision K} (ks : list K) (k : K) :
  k ∈ distinctKeys ks <-> k ∈ ks.
Proof.
  induction ks as [|k' ks IH]; cbn [distinctKeys]; [done|].
  rewrite !elem_of_cons, list_elem_of_filter, IH.
  destruct (decide (k = k')); tauto.
Qed.

Lemma groupKeys_Permutation {K} `{EqDecision K} (R : relation K) `{!RelDecision R}
    (ks : list K) :
  groupKeys R ks ≡ₚ distinctKeys ks.
Proof. apply merge_sort_Permutation. Qed.

Lemma elem_of_groupKeys {K} `{EqDecision K} (R : relation K) `{!RelDecision R}
    (ks : list K) (k : K) :
  k ∈ groupKeys R ks <-> k ∈ ks.
Proof. by rewrite groupKeys_Permutation, elem_of_distinctKeys. Qed.

Lemma whereRecurringInfo_scope user b :
  whereRecurringInfo user b = true <-> ownedInSeries user b.
Proof.
  unfold whereRecurringInfo, ownedInSeries.
  rewrite andb_true_iff, notNull_true. unfold equalsZ.
  destruct (Booking.userId b) as [x|].
  - rewrite Z.eqb_eq. split; intros [? ?]; split; congruence.
  - split; intros [? ?]; done.
Qed.

Lemma filter_whereRecurringInfo user (rows : list Booking.t) :
  filter (fun b => whereRecurringInfo user b) rows = filter (ownedInSeries user) rows.
Proof.
  apply list_filter_iff. intros b.
  by rewrite Is_true_true, whereRecurringInfo_scope.
Qed.

Lemma filter_idem {A} (P : A -> Prop) `{!forall x, Decision (P x)} (l : list A) :
  filter P (filter P l) = filter P l.
Proof. rewrite list_filter_filter. apply list_filter_iff. tauto. Qed.

Lemma filter_drop_outside {A} (P : A -> Prop) `{!forall x, Decision (P x)}
    (l1 l2 : list A) (x : A) :
  ¬ P x -> filter P (l1 ++ x :: l2) = filter P (l1 ++ l2).
Proof. intros Hx. by rewrite !filter_app, filter_cons_False. Qed.

(** Both aggregate queries are functions of the rows in scope alone. *)
Lemma recurring_queries_of_scope prisma prisma' user :
  PrismaClient.fault prisma = PrismaClient.fault prisma' ->
  filter (ownedInSeries user) (PrismaClient.rows prisma)
  = filter (ownedInSeries user) (PrismaClient.rows prisma') ->
  recurringInfoBasic prisma user = recurringInfoBasic prisma' user
  ∧ recurringInfoExtended prisma user = recurringInfoExtended prisma' user.
Proof.
  intros Hf Hrows.
  unfold recurringInfoBasic, recurringInfoExtended, groupByBasic, groupByExtended.
  by rewrite !filter_whereRecurringInfo, Hf, Hrows.
Qed.

Section RecurringScope.
Context {RecurringEvent EventTypeMetaData : Type}.
Variable parseRecurringEvent : option Json -> option RecurringEvent.
Variable EventTypeMetaDataSchema_parse : Json -> Result EventTypeMetaData.
Variable toISOString : Z -> string.

Local Abbreviation getHandler' :=
  (getHandler parseRecurringEvent EventTypeMetaDataSchema_parse toISOString).

Lemma getHandler_recurringInfo prisma user now input set resp set' :
  getHandler' prisma user now input set = (Ok resp, set') ->
  exists basic ext,
    recurringInfoBasic prisma user = Ok basic
    ∧ recurringInfoExtended prisma user = Ok ext
    ∧ recurringInfo basic ext = Ok (Response.recurringInfo resp).
Proof.
  intros (r & Hr & _ & -> & _)%getHandler_Ok.
  apply getBookings_Ok in Hr
    as (q1 & q2 & q3 & q4 & q5 & basic & ext & _ & _ & _ & _ & _ & Hb & He & Hi & _).
  by exists basic, ext.
Qed.

(** C7. The condition of both aggregate queries holds of a booking exactly
    when its owner is the viewer and it belongs to a series; both queries
    return what they return on the store reduced to those bookings; every
    group and every row they return stems from such a booking; and a booking
    outside that scope, whatever makes it visible to the viewer, can be
    taken out of the store without changing either query or the
    recurringInfo of the response. *)
Theorem recurring_aggregates_owner_scope prisma user :
  (forall b, whereRecurringInfo user b = true <-> ownedInSeries user b)
  ∧ recurringInfoBasic prisma user
    = recurringInfoBasic
        (withRows (filter (ownedInSeries user) (PrismaClient.rows prisma)) prisma) user
  ∧ recurringInfoExtended prisma user
    = recurringInfoExtended
        (withRows (filter (ownedInSeries user) (PrismaClient.rows prisma)) prisma) user
  ∧ (forall basic group,
        recurringInfoBasic prisma user = Ok basic -> group ∈ basic ->
        exists b, b ∈ PrismaClient.rows prisma ∧ ownedInSeries user b
                  ∧ Booking.recurringEventId b = RecurringInfoBasic.recurringEventId group)
  ∧ (forall ext row,
        recurringInfoExtended prisma user = Ok ext -> row ∈ ext ->
        exists b, b ∈ PrismaClient.rows prisma ∧ ownedInSeries user b
                  ∧ Booking.recurringEventId b = RecurringInfoExtended.recurringEventId row
                  ∧ Booking.status b = RecurringInfoExtended.status row
                  ∧ Booking.startTime b = RecurringInfoExtended.startTime row)
  ∧ (forall b before after,
        PrismaClient.rows prisma = before ++ b :: after ->
        ¬ ownedInSeries user b ->
        recurringInfoBasic prisma user
        = recurringInfoBasic (withRows (before ++ after) prisma) user
        ∧ recurringInfoExtended prisma user
          = recurringInfoExtended (withRows (before ++ after) prisma) user
        ∧ forall now input set set1 set2 resp1 resp2,
            getHandler' prisma user now input set = (Ok resp1, set1) ->
            getHandler' (withRows (before ++ after) prisma) user now input set
            = (Ok resp2, set2) ->
            Response.recurringInfo resp1 = Response.recurringInfo resp2).
Proof.
  split_and!.
  - apply whereRecurringInfo_scope.
  - apply recurring_queries_of_scope; [done|]. cbn. by rewrite filter_idem.
  - apply recurring_queries_of_scope; [done|]. cbn. by rewrite filter_idem.
  - intros basic group Hq Hg. unfold recurringInfoBasic, groupByBasic in Hq.
    destruct (PrismaClient.fault prisma QRecurringInfoBasic); [done|].
    injection Hq as <-. apply list_elem_of_fmap in Hg as (k & -> & Hk).
    apply elem_of_groupKeys, list_elem_of_fmap in Hk as (b & -> & Hb).
    rewrite filter_whereRecurringInfo in Hb. apply list_elem_of_filter in Hb as [? ?].
    by exists b.
  - intros ext row Hq Hr. unfold recurringInfoExtended, groupByExtended in Hq.
    destruct (PrismaClient.fault prisma QRecurringInfoExtended); [done|].
    injection Hq as <-. apply list_elem_of_fmap in Hr as (k & -> & Hk).
    apply elem_of_groupKeys, list_elem_of_fmap in Hk as (b & -> & Hb).
    rewrite filter_whereRecurringInfo in Hb. apply list_elem_of_filter in Hb as [? ?].
    by exists b.
  - intros b before after Hrows Hout.
    destruct (recurring_queries_of_scope prisma (withRows (before ++ after) prisma) user)
      as [Hb He]; [done| |].
    { cbn. rewrite Hrows. by apply filter_drop_outside. }
    split_and!; [done..|].
    intros now input set set1 set2 resp1 resp2
      (basic1 & ext1 & Hb1 & He1 & Hi1)%getHandler_recurringInfo
      (basic2 & ext2 & Hb2 & He2 & Hi2)%getHandler_recurringInfo.
    rewrite Hb in Hb1. rewrite He in He1. simplify_eq. congruence.
Qed.
End RecurringScope.


(** ** The fan-out contract *)

Section FanOut.
Context {RecurringEvent EventTypeMetaData : Type}.
Variable parseRecurringEvent : option Json -> option RecurringEvent.
Variable EventTypeMetaDataSchema_parse : Json -> Result EventTypeMetaData.
Variable toISOString : Z -> string.

Local Abbreviation getBookings' :=
  (getBookings parseRecurringEvent EventTypeMetaDataSchema_parse toISOString).
Local Abbreviation getHandler' :=
  (getHandler parseRecurringEvent EventTypeMetaDataSchema_parse toISOString).
Local Abbreviation enrich' :=
  (enrich parseRecurringEvent EventTypeMetaDataSchema_parse toISOString).
Local Abbreviation normalize' :=
  (normalize parseRecurringEvent EventTypeMetaDataSchema_parse toISOString).

Lemma getBookings_rejected prisma user passed filters orderBy take skip set e :
  fanOut prisma user passed filters orderBy take skip = Err e ->
  getBookings' prisma user passed filters orderBy take skip set = (Err e, set).
Proof. intros Hf. unfold getBookings. by rewrite Hf. Qed.

Lemma getHandler_of_getBookings prisma user now input set :
  let tag := Filters.status (Input.filters input) in
  (getHandler' prisma user now input set).1
  = (r ← (getBookings' prisma user (bookingListingFilters now tag) (Input.filters input)
            (bookingListingOrderby tag) (default 10 (Input.limit input))
            (default 0 (Input.cursor input)) set).1;
     Ok {| Response.bookings := Bookings.bookings r;
           Response.recurringInfo := Bookings.recurringInfo r;
           Response.nextCursor :=
             if default 10 (Input.limit input) <? Z.of_nat (length (Bookings.bookings r))
             then Some (default 0 (Input.cursor input)
                        + Z.of_nat (length (Bookings.bookings r)))
             else None |}).
Proof.
  unfold getHandler. cbn zeta.
  by destruct (getBookings _ _ _ _ _ _ _ _ _ _ _) as [[r|e] set1].
Qed.

Lemma recurringInfo_total basic ext : exists infos, recurringInfo basic ext = Ok infos.
Proof.
  unfold recurringInfo. induction basic as [|group basic [infos IH]]; cbn [mapM].
  - by eexists.
  - destruct (recurringInfoOf_Ok ext group) as (summary & -> & _).
    rewrite IH. by eexists.
Qed.

Lemma enrich_total prisma user orderBy plain :
  PrismaClient.fault prisma QEnrich = None ->
  (forall b, b ∈ PrismaClient.rows prisma ->
             isOk (normalize' (redact user (bookingSelect user b))) = true) ->
  exists bookings, enrich' prisma user orderBy plain = Ok bookings.
Proof.
  intros Hf Hvalid. unfold enrich, enrichQuery.
  destruct (findMany_no_fault prisma QEnrich
              (fun b => inZ (Booking.id <$> plain) (Booking.id b)) orderBy None None Hf)
    as [found Hfound]; [done|].
  rewrite Hfound, !bind_Ok. apply mapM_total, Forall_fmap, Forall_forall.
  intros b Hb. apply Hvalid. by eapply findMany_Ok.
Qed.

Lemma enrich_total_on prisma user orderBy plain :
  PrismaClient.fault prisma QEnrich = None ->
  Forall (fun b => isOk (normalize' (redact user (bookingSelect user b))) = true)
         (filter (fun b => inZ (Booking.id <$> plain) (Booking.id b))
                 (PrismaClient.rows prisma)) ->
  exists bookings, enrich' prisma user orderBy plain = Ok bookings.
Proof.
  intros Hf Hvalid. unfold enrich, enrichQuery.
  destruct (findMany_no_fault prisma QEnrich
              (fun b => inZ (Booking.id <$> plain) (Booking.id b)) orderBy None None Hf)
    as [found Hfound]; [done|].
  rewrite Hfound, !bind_Ok. apply mapM_total, Forall_fmap, Forall_forall.
  intros b Hb. rewrite Forall_forall in Hvalid. apply Hvalid.
  destruct (findMany_Ok _ _ _ _ _ _ _ Hfound) as [_ Hrows].
  destruct (Hrows b Hb) as [Hrow Hw].
  apply list_elem_of_filter. split; [by apply Is_true_true|done].
Qed.

Lemma enrich_fault prisma user orderBy plain msg :
  PrismaClient.fault prisma QEnrich = Some msg ->
  enrich' prisma user orderBy plain = Err (StoreQueryError msg).
Proof.
  intros Hf. unfold enrich, enrichQuery. by rewrite (findMany_fault _ _ _ _ _ _ _ Hf).
Qed.

(** C8, amended. With the rejections of the seven queries of the fan-out:
    if any of them rejects, the operation fails with the error of one that
    rejected, none of the rejected ones settling before it, hence with that
    very error when it is the only one; a response is returned only if all
    seven succeeded, so nothing partial is ever returned; and if all seven
    succeed the response is produced provided the enrichment query and the
    normalisation of the rows it reads succeed too, the operation failing
    with the store's error when the enrichment query fails. *)
Theorem fan_out_all_or_nothing prisma user now input set :
  let tag := Filters.status (Input.filters input) in
  let rejections :=
    queryRejections prisma user (bookingListingFilters now tag) (Input.filters input)
      (bookingListingOrderby tag) (default 10 (Input.limit input))
      (default 0 (Input.cursor input)) in
  let result := (getHandler' prisma user now input set).1 in
  (forall q e, (q, Some e) ∈ rejections ->
     exists q' e',
       result = Err e'
       ∧ (q', Some e') ∈ rejections
       ∧ forall q'' e'', (q'', Some e'') ∈ rejections ->
           (PrismaClient.settledAt prisma q' <= PrismaClient.settledAt prisma q'')%nat)
  ∧ (forall q e, (q, Some e) ∈ rejections ->
       (forall q' e', (q', Some e') ∈ rejections -> e' = e) ->
       result = Err e)
  ∧ (forall resp, result = Ok resp -> Forall (fun p => p.2 = None) rejections)
  ∧ (Forall (fun p => p.2 = None) rejections ->
     (forall msg, PrismaClient.fault prisma QEnrich = Some msg ->
                  result = Err (StoreQueryError msg))
     ∧ (PrismaClient.fault prisma QEnrich = None ->
        (forall results,
            Forall2 (fun q queried => q = Ok queried)
              (visibilityQueries prisma user (bookingListingFilters now tag)
                 (Input.filters input) (bookingListingOrderby tag)
                 (default 10 (Input.limit input)) (default 0 (Input.cursor input)))
              results ->
            Forall (fun b => isOk (normalize' (redact user (bookingSelect user b))) = true)
                   (enrichedRows prisma (mjoin results) set)) ->
        exists resp, result = Ok resp)).
Proof.
  intros tag rejections result.
  assert (forall q e, (q, Some e) ∈ rejections ->
     exists q' e',
       result = Err e'
       ∧ (q', Some e') ∈ rejections
       ∧ forall q'' e'', (q'', Some e'') ∈ rejections ->
           (PrismaClient.settledAt prisma q' <= PrismaClient.settledAt prisma q'')%nat)
    as Hfirst.
  { intros q e Hin.
    destruct (promiseAll7_rejected (PrismaClient.settledAt prisma)
                _ _ _ _ _ _ _ _ _ _ _ _ _ _ q e Hin) as (q' & e' & Hfan & Hin' & Hmin).
    exists q', e'. split; [|by split].
    subst result. rewrite getHandler_of_getBookings.
    by erewrite getBookings_rejected by exact Hfan. }
  split_and!.
  - exact Hfirst.
  - intros q e Hin Honly. destruct (Hfirst q e Hin) as (q' & e' & -> & Hin' & _).
    f_equal. by eapply Honly.
  - intros resp Hres. subst result.
    destruct (getHandler' prisma user now input set) as [res set'] eqn:Hh.
    cbn in Hres. subst res.
    apply getHandler_Ok in Hh as (r & Hr & _).
    apply getBookings_Ok in Hr
      as (q1 & q2 & q3 & q4 & q5 & basic & ext
          & H1 & H2 & H3 & H4 & H5 & H6 & H7 & _).
    subst rejections tag. unfold queryRejections.
    rewrite H1, H2, H3, H4, H5, H6, H7. by repeat constructor.
  - intros Hall. subst rejections. unfold queryRejections in Hall.
    apply Forall_cons in Hall as [[q1 H1]%rejection_None Hall].
    apply Forall_cons in Hall as [[q2 H2]%rejection_None Hall].
    apply Forall_cons in Hall as [[q3 H3]%rejection_None Hall].
    apply Forall_cons in Hall as [[q4 H4]%rejection_None Hall].
    apply Forall_cons in Hall as [[q5 H5]%rejection_None Hall].
    apply Forall_cons in Hall as [[basic H6]%rejection_None Hall].
    apply Forall_cons in Hall as [[ext H7]%rejection_None _].
    cbn [snd] in *.
    destruct (recurringInfo_total basic ext) as [infos Hinfos].
    subst result. rewrite getHandler_of_getBookings.
    erewrite getBookings_after_fanOut by eassumption. cbn [fst].
    split.
    + intros msg Hmsg. by erewrite enrich_fault by exact Hmsg.
    + intros Hf Hvalid.
      specialize (Hvalid [q1; q2; q3; q4; q5]).
      cbn [mjoin list_join] in Hvalid. rewrite app_nil_r in Hvalid.
      edestruct (enrich_total_on prisma user) as [bookings ->];
        [done|apply Hvalid; unfold visibilityQueries; by repeat constructor|].
      rewrite !bind_Ok. by eexists.
Qed.
End FanOut.

(** The contract as first stated fails in both halves: when the enrichment
    query fails after the seven have succeeded no response is produced, and
    when two of the seven fail the operation fails with the error of the one
    that rejects first, not with that of the other. *)
Lemma allOrNothingAsStated_fails :
  ¬ allOrNothingAsStated
      (queryRejections
         (Sample.faulty Sample.threeUpcoming [(QEnrich, "connection lost"%string, 1%nat)])
         Sample.viewer (bookingListingFilters 500 upcoming)
         (Input.filters (Sample.input upcoming None None))
         (bookingListingOrderby upcoming) 10 0)
      (Sample.handle
         (Sample.faulty Sample.threeUpcoming [(QEnrich, "connection lost"%string, 1%nat)])
         500 (Sample.input upcoming None None)).1
  ∧ ¬ allOrNothingAsStated
        (queryRejections
           (Sample.faulty Sample.threeUpcoming
              [(QUserId, "timeout"%string, 5%nat);
               (QAttendees, "connection reset"%string, 2%nat)])
           Sample.viewer (bookingListingFilters 500 upcoming)
           (Input.filters (Sample.input upcoming None None))
           (bookingListingOrderby upcoming) 10 0)
        (Sample.handle
           (Sample.faulty Sample.threeUpcoming
              [(QUserId, "timeout"%string, 5%nat);
               (QAttendees, "connection reset"%string, 2%nat)])
           500 (Sample.input upcoming None None)).1.
Proof.
  split; intros [Hfail Hall].
  - destruct Hall as [resp Hresp].
    + vm_compute. repeat constructor.
    + vm_compute in Hresp. discriminate.
  - assert ((Sample.handle
               (Sample.faulty Sample.threeUpcoming
                  [(QUserId, "timeout"%string, 5%nat);
                   (QAttendees, "connection reset"%string, 2%nat)])
               500 (Sample.input upcoming None None)).1
            = Err (StoreQueryError "timeout")) as Hres.
    { apply (Hfail QUserId). vm_compute. by left. }
    vm_compute in Hres. discriminate.
Qed.


(** ** Pagination *)

Lemma page_whole (take : Z) (l : list Booking.t) :
  (length l <= Z.to_nat take)%nat -> 0 <= take -> page take 0 l = l.
Proof.
  intros Hlen Htake. unfold page.
  destruct (Z.leb_spec 0 take); [|lia].
  rewrite skipn_O. by apply firstn_all2.
Qed.

Lemma page_beyond (take : Z) (skip : nat) (l : list Booking.t) :
  (length l <= skip)%nat -> 0 <= take -> page take skip l = [].
Proof.
  intros Hlen Htake. unfold page.
  destruct (Z.leb_spec 0 take); [|lia].
  rewrite skipn_all2 by done. apply firstn_nil.
Qed.

Lemma findMany_page prisma q w o (take skip : Z) :
  PrismaClient.fault prisma q = None -> 0 <= skip ->
  findMany prisma q w o (Some take) (Some skip)
  = Ok (page take (Z.to_nat skip)
          (sortByStartTime o (filter (fun b => w b) (PrismaClient.rows prisma)))).
Proof.
  intros Hf Hs. unfold findMany. rewrite Hf. cbn.
  by destruct (Z.ltb_spec skip 0); [lia|].
Qed.

Lemma length_filter_weaken {A} (P Q : A -> Prop) `{!forall x, Decision (P x)}
    `{!forall x, Decision (Q x)} (l : list A) :
  (forall x, P x -> Q x) -> (length (filter P l) <= length (filter Q l))%nat.
Proof.
  intros Himp. induction l as [|x l IH]; [done|].
  rewrite !filter_cons.
  destruct (decide (P x)), (decide (Q x)); cbn; try lia. by destruct n; auto.
Qed.

Lemma matches_true user passed filters b :
  matches user passed filters b = true <->
  whereQueryUserId user passed (filtersCombined filters) b = true
  ∨ whereQueryAttendees user passed (filtersCombined filters) b = true
  ∨ whereQueryTeamEvents user passed (filtersCombined filters) b = true
  ∨ whereQueryTeamUsersPersonalEvents user passed (filtersCombined filters) b = true
  ∨ whereQuerySeatReference user passed (filtersCombined filters) b = true.
Proof.
  unfold matches, OR. cbn [existsb]. rewrite !orb_true_iff. intuition discriminate.
Qed.

Section Pagination.
Context {RecurringEvent EventTypeMetaData : Type}.
Variable parseRecurringEvent : option Json -> option RecurringEvent.
Variable EventTypeMetaDataSchema_parse : Json -> Result EventTypeMetaData.
Variable toISOString : Z -> string.

Local Abbreviation getBookings' :=
  (getBookings parseRecurringEvent EventTypeMetaDataSchema_parse toISOString).
Local Abbreviation getHandler' :=
  (getHandler parseRecurringEvent EventTypeMetaDataSchema_parse toISOString).
Local Abbreviation enrich' :=
  (enrich parseRecurringEvent EventTypeMetaDataSchema_parse toISOString).
Local Abbreviation normalize' :=
  (normalize parseRecurringEvent EventTypeMetaDataSchema_parse toISOString).

(** With [id] and [uid] keys of the table, the enrichment of the
    deduplicated list reads exactly the rows that occur in the list. *)
Lemma enrich_rows prisma user orderBy (found : list Booking.t) bookings :
  NoDup (Booking.id <$> PrismaClient.rows prisma) ->
  NoDup (Booking.uid <$> PrismaClient.rows prisma) ->
  (forall x, x ∈ found -> x ∈ PrismaClient.rows prisma) ->
  enrich' prisma user orderBy (getUniqueBookings found set_init).1 = Ok bookings ->
  forall P : Booking.t -> Prop, forall `{!forall x, Decision (P x)},
    (forall r, r ∈ PrismaClient.rows prisma -> r ∈ found <-> P r) ->
    length bookings = length (filter P (PrismaClient.rows prisma)).
Proof.
  intros Hid Huid Hrows He P HP Hfound. unfold set_init in He.
  rewrite getUniqueBookings_empty in He. cbn [fst] in He.
  apply enrich_Ok in He as (rows' & Hperm & Hall).
  rewrite <- (Forall2_length _ _ _ Hall), Hperm. f_equal.
  apply filter_ext_elem. intros r Hr. rewrite <- Hfound by done.
  rewrite Is_true_true, inZ_true. split.
  - intros (p & Hp & Hin)%list_elem_of_fmap.
    assert (p ∈ found) as Hpf
      by (eapply elem_of_sublist; [done|apply keepUnseen_sublist]).
    assert (r = p) as -> by (eapply (NoDup_fmap_inj Booking.id); eauto).
    done.
  - intros Hin.
    destruct (keepUnseen_covers found [] (Booking.uid r)) as [Hp|Hk].
    { by apply (list_elem_of_fmap_2 (uidOf (T:=Booking.t))). }
    { by apply elem_of_nil in Hp. }
    apply list_elem_of_fmap in Hk as (k & Hu & Hk).
    assert (k ∈ found) as Hkf
      by (eapply elem_of_sublist; [done|apply keepUnseen_sublist]).
    assert (r = k) as -> by (eapply (NoDup_fmap_inj Booking.uid); eauto).
    by apply list_elem_of_fmap_2.
Qed.

(** The page at offset [skip] of a request of limit [take], on a store none
    of whose queries fails and whose rows all pass normalisation: the
    bookings returned are as many as the rows that some visibility query
    returned, [P] describing those rows. *)
Lemma getHandler_page prisma user now filters (take skip : Z)
    (P : Booking.t -> Prop) `{!forall x, Decision (P x)} :
  (forall q, PrismaClient.fault prisma q = None) ->
  NoDup (Booking.id <$> PrismaClient.rows prisma) ->
  NoDup (Booking.uid <$> PrismaClient.rows prisma) ->
  (forall b, b ∈ PrismaClient.rows prisma ->
             isOk (normalize' (redact user (bookingSelect user b))) = true) ->
  0 <= skip ->
  let tag := Filters.status filters in
  let passed := bookingListingFilters now tag in
  let sorted (w : WhereInput) :=
    page (take + 1) (Z.to_nat skip)
      (sortByStartTime (bookingListingOrderby tag)
         (filter (fun b => w b) (PrismaClient.rows prisma))) in
  (forall r, r ∈ PrismaClient.rows prisma ->
     r ∈ sorted (whereQueryUserId user passed (filtersCombined filters))
         ++ sorted (whereQueryAttendees user passed (filtersCombined filters))
         ++ sorted (whereQueryTeamEvents user passed (filtersCombined filters))
         ++ sorted (whereQueryTeamUsersPersonalEvents user passed
                      (filtersCombined filters))
         ++ sorted (whereQuerySeatReference user passed (filtersCombined filters))
     <-> P r) ->
  exists resp,
    (getHandler' prisma user now (pageRequest filters take skip) set_init).1 = Ok resp
    ∧ length (Response.bookings resp) = length (filter P (PrismaClient.rows prisma))
    ∧ Response.nextCursor resp
      = if take <? Z.of_nat (length (Response.bookings resp))
        then Some (skip + Z.of_nat (length (Response.bookings resp))) else None.
Proof.
  intros Hfault Hid Huid Hvalid Hskip tag passed sorted HP.
  rewrite getHandler_of_getBookings. cbn [pageRequest Input.filters Input.limit
    Input.cursor default from_option]. fold tag. fold passed.
  assert (exists basic, recurringInfoBasic prisma user = Ok basic) as [basic Hb].
  { unfold recurringInfoBasic, groupByBasic. rewrite Hfault. by eexists. }
  assert (exists ext, recurringInfoExtended prisma user = Ok ext) as [ext Hx].
  { unfold recurringInfoExtended, groupByExtended. rewrite Hfault. by eexists. }
  destruct (recurringInfo_total basic ext) as [infos Hinfos].
  erewrite getBookings_after_fanOut;
    [ | unfold bookingsQueryUserId; by apply findMany_page
      | unfold bookingsQueryAttendees; by apply findMany_page
      | unfold bookingsQueryTeamEvents; by apply findMany_page
      | unfold bookingsQueryTeamUsersPersonalEvents; by apply findMany_page
      | unfold bookingsQuerySeatReference; by apply findMany_page
      | exact Hb | exact Hx | exact Hinfos ].
  cbn [fst]. fold (sorted (whereQueryUserId user passed (filtersCombined filters))).
  fold (sorted (whereQueryAttendees user passed (filtersCombined filters))).
  fold (sorted (whereQueryTeamEvents user passed (filtersCombined filters))).
  fold (sorted (whereQueryTeamUsersPersonalEvents user passed (filtersCombined filters))).
  fold (sorted (whereQuerySeatReference user passed (filtersCombined filters))).
  match goal with
  | |- context [enrich' prisma user ?o (getUniqueBookings ?l set_init).1] =>
      destruct (enrich_total parseRecurringEvent EventTypeMetaDataSchema_parse
                  toISOString prisma user o (getUniqueBookings l set_init).1
                  (Hfault QEnrich) Hvalid) as [bookings He];
      pose proof (enrich_rows prisma user o l bookings Hid Huid) as Hlen
  end.
  rewrite He, !bind_Ok. eexists. split; [done|]. cbn. split; [|done].
  apply Hlen; [|done|done].
  intros x. rewrite !elem_of_app. unfold sorted.
  intros [Hx'|[Hx'|[Hx'|[Hx'|Hx']]]]; apply elem_of_page in Hx';
    rewrite sortByStartTime_Permutation in Hx';
    by apply list_elem_of_filter in Hx' as [_ ?].
Qed.

(** C2. In every response the next cursor is the offset plus the number of
    bookings returned when that number exceeds the page size, and null
    otherwise, the page size defaulting to 10 and the offset to 0; it is
    null exactly when the number is at most the page size.  The list is not
    cut to the page size: on a store (none of whose queries fails, with [id]
    and [uid] keys and rows that pass normalisation) where exactly three
    bookings match, the request with limit 2 at cursor 0 returns three
    bookings and next cursor 3, and the request at cursor 3 returns no
    booking and a null next cursor. *)
Theorem nextCursor_offset_unclamped :
  (forall prisma user now input set resp set',
      getHandler' prisma user now input set = (Ok resp, set') ->
      let take := default 10 (Input.limit input) in
      let skip := default 0 (Input.cursor input) in
      let count := Z.of_nat (length (Response.bookings resp)) in
      (take < count -> Response.nextCursor resp = Some (skip + count))
      ∧ (count <= take -> Response.nextCursor resp = None)
      ∧ (Response.nextCursor resp = None <-> count <= take))
  ∧ (forall prisma user now filters,
        (forall q, PrismaClient.fault prisma q = None) ->
        NoDup (Booking.id <$> PrismaClient.rows prisma) ->
        NoDup (Booking.uid <$> PrismaClient.rows prisma) ->
        (forall b, b ∈ PrismaClient.rows prisma ->
                   isOk (normalize' (redact user (bookingSelect user b))) = true) ->
        length (filter (fun b => matches user
                                   (bookingListingFilters now (Filters.status filters))
                                   filters b = true)
                       (PrismaClient.rows prisma)) = 3%nat ->
        exists first second,
          (getHandler' prisma user now (pageRequest filters 2 0) set_init).1 = Ok first
          ∧ length (Response.bookings first) = 3%nat
          ∧ Response.nextCursor first = Some 3
          ∧ (getHandler' prisma user now (pageRequest filters 2 3) set_init).1 = Ok second
          ∧ Response.bookings second = []
          ∧ Response.nextCursor second = None).
Proof.
  split.
  - intros prisma user now input set resp set' (r & _ & Hb & _ & Hc)%getHandler_Ok.
    cbn zeta. rewrite Hb, Hc.
    destruct (Z.ltb_spec (default 10 (Input.limit input))
                (Z.of_nat (length (Bookings.bookings r)))).
    + split_and!; [done|lia|]. split; [done|lia].
    + split_and!; [lia|done|done].
  - intros prisma user now filters Hfault Hid Huid Hvalid Hthree.
    set (passed := bookingListingFilters now (Filters.status filters)) in *.
    assert (forall w : WhereInput,
               (forall b, w b = true -> matches user passed filters b = true) ->
               (length (sortByStartTime (bookingListingOrderby (Filters.status filters))
                          (filter (fun b => w b) (PrismaClient.rows prisma))) <= 3)%nat)
      as Hshort.
    { intros w Hw. rewrite sortByStartTime_Permutation, <- Hthree.
      apply length_filter_weaken. intros b Hb. by apply Hw, Is_true_true. }
    assert (forall w : WhereInput,
               In w [ whereQueryUserId user passed (filtersCombined filters);
                      whereQueryAttendees user passed (filtersCombined filters);
                      whereQueryTeamEvents user passed (filtersCombined filters);
                      whereQueryTeamUsersPersonalEvents user passed
                        (filtersCombined filters);
                      whereQuerySeatReference user passed (filtersCombined filters) ] ->
               forall b, w b = true -> matches user passed filters b = true) as Hpath.
    { intros w Hw b Hb. apply matches_true. cbn [In] in Hw.
      destruct Hw as [<-|[<-|[<-|[<-|[<-|[]]]]]]; tauto. }
    assert (forall w : WhereInput,
               In w [ whereQueryUserId user passed (filtersCombined filters);
                      whereQueryAttendees user passed (filtersCombined filters);
                      whereQueryTeamEvents user passed (filtersCombined filters);
                      whereQueryTeamUsersPersonalEvents user passed
                        (filtersCombined filters);
                      whereQuerySeatReference user passed (filtersCombined filters) ] ->
               page (2 + 1) (Z.to_nat 0)
                 (sortByStartTime (bookingListingOrderby (Filters.status filters))
                    (filter (fun b => w b) (PrismaClient.rows prisma)))
               = sortByStartTime (bookingListingOrderby (Filters.status filters))
                   (filter (fun b => w b) (PrismaClient.rows prisma))
               ∧ page (2 + 1) (Z.to_nat 3)
                   (sortByStartTime (bookingListingOrderby (Filters.status filters))
                      (filter (fun b => w b) (PrismaClient.rows prisma)))
                 = []) as Hpages.
    { intros w Hw. pose proof (Hshort w (Hpath w Hw)) as Hle. split.
      - apply page_whole; [|lia]. change (Z.to_nat (2 + 1)) with 3%nat. exact Hle.
      - apply page_beyond; [|lia]. change (Z.to_nat 3) with 3%nat. exact Hle. }
    destruct (getHandler_page prisma user now filters 2 0
                (fun b => matches user passed filters b = true))
      as (first & Hfirst & Hlen1 & Hcur1); [done..|lia| |].
    { intros r Hr. fold passed.
      rewrite !(fun w Hw => proj1 (Hpages w Hw)) by (cbn; tauto).
      rewrite !elem_of_app, !sortByStartTime_Permutation, !list_elem_of_filter.
      rewrite matches_true, !Is_true_true. tauto. }
    destruct (getHandler_page prisma user now filters 2 3 (fun _ => False))
      as (second & Hsecond & Hlen2 & Hcur2); [done..|lia| |].
    { intros r Hr. fold passed.
      rewrite !(fun w Hw => proj2 (Hpages w Hw)) by (cbn; tauto).
      cbn. by rewrite elem_of_nil. }
    exists first, second. rewrite Hthree in Hlen1.
    rewrite Hlen1 in Hcur1.
    assert (filter (fun _ : Booking.t => False) (PrismaClient.rows prisma) = []) as Hnone.
    { generalize (PrismaClient.rows prisma). intros l.
      induction l as [|x l IH]; [done|]. by rewrite filter_cons_False by tauto. }
    rewrite Hnone in Hlen2. rewrite Hlen2 in Hcur2.
    split_and!; try done. by apply nil_length_inv.
Qed.
End Pagination.

Lemma nextCursor_offset_unclamped_witness :
  (forall q, PrismaClient.fault (Sample.store Sample.threeUpcoming) q = None)
  ∧ NoDup (Booking.id <$> PrismaClient.rows (Sample.store Sample.threeUpcoming))
  ∧ NoDup (Booking.uid <$> PrismaClient.rows (Sample.store Sample.threeUpcoming))
  ∧ length (filter (fun b => matches Sample.viewer (bookingListingFilters 500 upcoming)
                                (Input.filters (Sample.input upcoming None None)) b = true)
                   (PrismaClient.rows (Sample.store Sample.threeUpcoming))) = 3%nat
  ∧ exists first second,
      (Sample.handle (Sample.store Sample.threeUpcoming) 500
         (pageRequest (Input.filters (Sample.input upcoming None None)) 2 0)).1 = Ok first
      ∧ length (Response.bookings first) = 3%nat
      ∧ Response.nextCursor first = Some 3
      ∧ (Sample.handle (Sample.store Sample.threeUpcoming) 500
           (pageRequest (Input.filters (Sample.input upcoming None None)) 2 3)).1
        = Ok second
      ∧ Response.bookings second = []
      ∧ Response.nextCursor second = None.
Proof.
  assert (NoDup (Booking.id <$> PrismaClient.rows (Sample.store Sample.threeUpcoming)))
    as Hid by (refine (bool_decide_unpack _ _); vm_compute; exact I).
  assert (NoDup (Booking.uid <$> PrismaClient.rows (Sample.store Sample.threeUpcoming)))
    as Huid by (refine (bool_decide_unpack _ _); vm_compute; exact I).
  split; [by intros q|]. split; [exact Hid|]. split; [exact Huid|].
  split; [vm_compute; reflexivity|].
  refine (proj2 (nextCursor_offset_unclamped Sample.parseRecurringEvent
                   Sample.parseMetadata Sample.toISOString)
            (Sample.store Sample.threeUpcoming) Sample.viewer 500
            (Input.filters (Sample.input upcoming None None)) _ Hid Huid _ _).
  - by intros q.
  - by intros b _.
  - vm_compute; reflexivity.
Defined.

Lemma recurring_aggregates_owner_scope_witness :
  PrismaClient.rows (Sample.store Sample.threeUpcoming)
  = [Sample.shared] ++ Sample.attended :: [Sample.owned]
  ∧ ¬ ownedInSeries Sample.viewer Sample.attended
  ∧ recurringInfoBasic (Sample.store Sample.threeUpcoming) Sample.viewer
    = recurringInfoBasic
        (withRows ([Sample.shared] ++ [Sample.owned]) (Sample.store Sample.threeUpcoming))
        Sample.viewer.
Proof.
  assert (¬ ownedInSeries Sample.viewer Sample.attended) as Hout
    by (intros [Howner _]; vm_compute in Howner; discriminate).
  split; [reflexivity|]. split; [exact Hout|].
  exact (proj1 (proj2 (proj2 (proj2 (proj2 (proj2
           (recurring_aggregates_owner_scope Sample.parseRecurringEvent
              Sample.parseMetadata Sample.toISOString
              (Sample.store Sample.threeUpcoming) Sample.viewer)))))
           Sample.attended [Sample.shared] [Sample.owned] eq_refl Hout)).
Defined.

Lemma fan_out_all_or_nothing_witness :
  ((QAttendees, Some (StoreQueryError "connection reset"))
     ∈ queryRejections
         (Sample.faulty Sample.threeUpcoming [(QAttendees, "connection reset"%string, 2%nat)])
         Sample.viewer (bookingListingFilters 500 upcoming)
         (Input.filters (Sample.input upcoming None None))
         (bookingListingOrderby upcoming) 10 0
   ∧ (Sample.handle
        (Sample.faulty Sample.threeUpcoming [(QAttendees, "connection reset"%string, 2%nat)])
        500 (Sample.input upcoming None None)).1
     = Err (StoreQueryError "connection reset"))
  ∧ (isOk (normalize Sample.parseRecurringEvent SampleTeams.objectsOnly Sample.toISOString
             (redact Sample.viewer (bookingSelect Sample.viewer SampleTeams.hiddenMalformed)))
     = false
     ∧ Forall (fun p => p.2 = None)
         (queryRejections (Sample.store SampleTeams.withHidden) Sample.viewer
            (bookingListingFilters 500 upcoming)
            (Input.filters (Sample.input upcoming None None))
            (bookingListingOrderby upcoming) 10 0)
     ∧ exists resp,
         (getHandler Sample.parseRecurringEvent SampleTeams.objectsOnly Sample.toISOString
            (Sample.store SampleTeams.withHidden) Sample.viewer 500
            (Sample.input upcoming None None) set_init).1 = Ok resp).
Proof.
  split.
  - assert ((QAttendees, Some (StoreQueryError "connection reset"))
              ∈ queryRejections
                  (Sample.faulty Sample.threeUpcoming
                     [(QAttendees, "connection reset"%string, 2%nat)])
                  Sample.viewer (bookingListingFilters 500 upcoming)
                  (Input.filters (Sample.input upcoming None None))
                  (bookingListingOrderby upcoming) 10 0) as Hin
      by (vm_compute; right; left).
    split; [exact Hin|].
    refine (proj1 (proj2 (fan_out_all_or_nothing Sample.parseRecurringEvent
                            Sample.parseMetadata Sample.toISOString
                            (Sample.faulty Sample.threeUpcoming
                               [(QAttendees, "connection reset"%string, 2%nat)])
                            Sample.viewer 500 (Sample.input upcoming None None) set_init))
              QAttendees (StoreQueryError "connection reset") Hin _).
    intros q' e' Hin'. vm_compute in Hin'.
    repeat (apply elem_of_cons in Hin' as [Hin'|Hin']; [by simplify_eq|]).
    by apply elem_of_nil in Hin'.
  - assert (Forall (fun p => p.2 = None)
              (queryRejections (Sample.store SampleTeams.withHidden) Sample.viewer
                 (bookingListingFilters 500 upcoming)
                 (Input.filters (Sample.input upcoming None None))
                 (bookingListingOrderby upcoming) 10 0)) as Hall
      by (vm_compute; repeat constructor).
    split; [reflexivity|]. split; [exact Hall|].
    refine (proj2 (proj2 (proj2 (proj2 (fan_out_all_or_nothing Sample.parseRecurringEvent
                            SampleTeams.objectsOnly Sample.toISOString
                            (Sample.store SampleTeams.withHidden)
                            Sample.viewer 500 (Sample.input upcoming None None) set_init)))
                     Hall) eq_refl _).
    intros results Hres. unfold visibilityQueries in Hres.
    repeat match goal with
           | H : Forall2 _ (_ :: _) _ |- _ =>
               apply Forall2_cons_inv_l in H as (? & ? & ? & H & ->)
           | H : Forall2 _ [] _ |- _ => apply Forall2_nil_inv_l in H as ->
           end.
    repeat match goal with
           | H : _ = Ok _ |- _ => vm_compute in H; injection H as <-
           end.
    vm_compute. repeat constructor.
Defined.

(** ** Recurring series summaries *)

(** C6. The aggregator always yields one summary per group of the basic
    query, in order; each summary carries the group's series id, its count
    and its minimum start time, its bucket map has exactly the five status
    keys, and the bucket of each status is the list of the start times of
    the rows of the extended query with that series id and that status, in
    the order of those rows.  For a series of three occurrences ACCEPTED,
    ACCEPTED, CANCELLED at t1 < t2 < t3, on the group and the rows that the
    two queries return for it, this gives count 3, first date t1,
    ACCEPTED = [t1; t2], CANCELLED = [t3] and the other buckets empty. *)
Theorem recurringInfo_summaries :
  (forall basic ext,
      exists infos,
        recurringInfo basic ext = Ok infos
        ∧ Forall2
            (fun group summary =>
               RecurringSeriesSummary.recurringEventId summary
               = RecurringInfoBasic.recurringEventId group
               ∧ RecurringSeriesSummary.count summary
                 = RecurringInfoBasic.count_recurringEventId group
               ∧ RecurringSeriesSummary.firstDate summary
                 = RecurringInfoBasic.min_startTime group
               ∧ dom (RecurringSeriesSummary.bookings summary) = list_to_set allStatuses
               ∧ forall s,
                   RecurringSeriesSummary.bookings summary !! s
                   = Some (bucketOf ext (RecurringInfoBasic.recurringEventId group) s))
            basic infos)
  ∧ (forall (series : string) (t1 t2 t3 : Z),
        recurringInfo
          [ {| RecurringInfoBasic.recurringEventId := Some series;
               RecurringInfoBasic.count_recurringEventId := 3;
               RecurringInfoBasic.min_startTime := Some t1 |} ]
          [ {| RecurringInfoExtended.recurringEventId := Some series;
               RecurringInfoExtended.status := ACCEPTED;
               RecurringInfoExtended.startTime := t1;
               RecurringInfoExtended.min_startTime := Some t1 |};
            {| RecurringInfoExtended.recurringEventId := Some series;
               RecurringInfoExtended.status := ACCEPTED;
               RecurringInfoExtended.startTime := t2;
               RecurringInfoExtended.min_startTime := Some t2 |};
            {| RecurringInfoExtended.recurringEventId := Some series;
               RecurringInfoExtended.status := CANCELLED;
               RecurringInfoExtended.startTime := t3;
               RecurringInfoExtended.min_startTime := Some t3 |} ]
        = Ok [ {| RecurringSeriesSummary.recurringEventId := Some series;
                  RecurringSeriesSummary.count := 3;
                  RecurringSeriesSummary.firstDate := Some t1;
                  RecurringSeriesSummary.bookings :=
                    <[ACCEPTED := [t1; t2]]> (<[CANCELLED := [t3]]> (<[REJECTED := []]>
                      (<[PENDING := []]> (<[AWAITING_HOST := []]> ∅)))) |} ]).
Proof.
  split_and!.
  - intros basic ext. unfold recurringInfo.
    induction basic as [|group basic (infos & IH & Hall)]; cbn [mapM].
    + exists []. split; [done|constructor].
    + destruct (recurringInfoOf_Ok ext group) as (summary & -> & Hs).
      rewrite IH. cbn. exists (summary :: infos). split; [done|]. by constructor.
  - apply recurringInfo_three.
Qed.

(** ** The scenarios on the sample stores *)

(** The viewer's series of three occurrences, ACCEPTED at 1000 and 2000 and
    CANCELLED at 3000, is summarised with count 3, first date 1000 and its
    start times bucketed by status; the series the viewer only attends is
    not summarised. *)
Lemma recurring_series_sample :
  exists resp,
    (Sample.handle (Sample.store Sample.seriesRows) 500 (Sample.input upcoming None None)).1
    = Ok resp
    ∧ Response.recurringInfo resp
      = [ {| RecurringSeriesSummary.recurringEventId := Some "series-a"%string;
             RecurringSeriesSummary.count := 3;
             RecurringSeriesSummary.firstDate := Some 1000;
             RecurringSeriesSummary.bookings :=
               <[ACCEPTED := [1000; 2000]]> (<[CANCELLED := [3000]]> (<[REJECTED := []]>
                 (<[PENDING := []]> (<[AWAITING_HOST := []]> ∅)))) |} ].
Proof. eexists. split; vm_compute; reflexivity. Qed.

(** A booking the viewer owns, accepted, outside any series and ending
    after now, is listed under [upcoming] and there is no next page; a past
    booking the viewer only attends is listed under [past]. *)
Lemma upcoming_and_past_sample :
  (exists resp,
      (Sample.handle
         (Sample.store [Sample.booking 1 "uid-1" 1000 2000
                          (Some (Sample.owner 1 "viewer@example.com")) [] None ACCEPTED
                          None []])
         500 (Sample.input upcoming (Some 10) None)).1 = Ok resp
      ∧ BookingOut.uid <$> Response.bookings resp = ["uid-1"%string]
      ∧ Response.nextCursor resp = None)
  ∧ (exists resp,
        (Sample.handle
           (Sample.store [Sample.booking 2 "uid-2" 100 200
                            (Some (Sample.owner 2 "host@example.com"))
                            [Sample.attendee "viewer@example.com" "Viewer"] None ACCEPTED
                            None []])
           500 (Sample.input past None None)).1 = Ok resp
        ∧ BookingOut.uid <$> Response.bookings resp = ["uid-2"%string]).
Proof. split; eexists; split_and!; vm_compute; reflexivity. Qed.

(** * Further properties of the listing *)

(** ** The status tags against each other *)

(** Whatever its status, series and end time, a booking passes the filter
    of at least one of the tags [upcoming], [recurring], [past] and
    [cancelled]: no booking is out of reach of the four listings. *)
Theorem status_tags_cover (now : Z) (b : Booking.t) :
  bookingListingFilters now upcoming b = true
  ∨ bookingListingFilters now recurring b = true
  ∨ bookingListingFilters now past b = true
  ∨ bookingListingFilters now cancelled b = true.
Proof.
  cbv [bookingListingFilters AND OR NOT forallb existsb statusNotIn statusEquals
       statusEqb gte lte].
  destruct (Z.leb_spec now (Booking.endTime b)), (Z.leb_spec (Booking.endTime b) now),
    (Booking.recurringEventId b), (Booking.status b); cbn; try tauto; lia.
Qed.

(** A booking listed under [cancelled] is listed under no other tag, at
    whatever time the other listing is taken; a booking listed under
    [unconfirmed] is also listed under [upcoming] when it is outside any
    series and under [recurring] when it is in one; and an accepted booking
    listed under [recurring] is listed under [upcoming] too. *)
Theorem status_tags_overlap (now : Z) (b : Booking.t) :
  (bookingListingFilters now cancelled b = true ->
   forall now' tag, tag ≠ cancelled -> bookingListingFilters now' tag b = false)
  ∧ (bookingListingFilters now unconfirmed b = true ->
     bookingListingFilters now
       (match Booking.recurringEventId b with
        | Some _ => recurring
        | None => upcoming
        end) b = true)
  ∧ (bookingListingFilters now recurring b = true ->
     Booking.status b = ACCEPTED ->
     bookingListingFilters now upcoming b = true).
Proof.
  split_and!.
  - intros Hc now' tag Htag. revert Hc.
    destruct tag; try done;
      cbv [bookingListingFilters AND OR NOT forallb existsb statusNotIn statusEquals
           statusEqb];
      destruct (Booking.recurringEventId b), (Booking.status b); cbn;
      rewrite ?andb_false_r; done.
  - destruct (Booking.recurringEventId b) as [series|] eqn:Hseries;
      cbv [bookingListingFilters AND OR NOT forallb existsb statusNotIn statusEquals
           statusEqb];
      rewrite Hseries;
      destruct (gte now (Booking.endTime b)), (Booking.status b); cbn; done.
  - intros Hr Hs. revert Hr.
    cbv [bookingListingFilters AND OR NOT forallb existsb statusNotIn statusEquals
         statusEqb].
    rewrite Hs.
    destruct (gte now (Booking.endTime b)), (Booking.recurringEventId b); cbn; done.
Qed.

Lemma status_tags_overlap_witness :
  bookingListingFilters 500 cancelled
    (Sample.booking 1 "uid-1" 1000 2000 None [] None CANCELLED None []) = true
  ∧ upcoming ≠ cancelled
  ∧ bookingListingFilters 100 upcoming
      (Sample.booking 1 "uid-1" 1000 2000 None [] None CANCELLED None []) = false.
Proof.
  split; [reflexivity|]. split; [done|].
  exact (proj1 (status_tags_overlap 500
                  (Sample.booking 1 "uid-1" 1000 2000 None [] None CANCELLED None []))
           eq_refl 100 upcoming ltac:(done)).
Defined.

(** ** Scoping filters *)

Lemma AND_app (l1 l2 : list WhereInput) (b : Booking.t) :
  AND (l1 ++ l2) b = AND l1 b && AND l2 b.
Proof. unfold AND. apply forallb_app. Qed.

Lemma AND_cons (w : WhereInput) (l : list WhereInput) (b : Booking.t) :
  AND (w :: l) b = w b && AND l b.
Proof. done. Qed.

(** Each visibility condition is the condition without scoping filters
    together with the scoping conditions. *)
Lemma visibilityWheres_factor user passed filters b :
  Forall2 (fun w w0 => w b = w0 b && AND (filtersCombined filters) b)
          (visibilityWheres user passed filters)
          (visibilityWheres user passed (withoutScoping filters)).
Proof.
  unfold visibilityWheres. change (filtersCombined (withoutScoping filters)) with
    (@nil WhereInput).
  repeat constructor;
    cbv [whereQueryUserId whereQueryAttendees whereQueryTeamEvents
         whereQuerySeatReference whereQueryTeamUsersPersonalEvents];
    rewrite ?AND_app, ?AND_cons; cbn [AND forallb app];
    rewrite ?andb_true_r, ?andb_assoc; reflexivity.
Qed.

Lemma matches_factor user passed filters b :
  matches user passed filters b
  = matches user passed (withoutScoping filters) b && AND (filtersCombined filters) b.
Proof.
  pose proof (visibilityWheres_factor user passed filters b) as Hf.
  unfold visibilityWheres in Hf.
  repeat match goal with
         | H : Forall2 _ (_ :: _) (_ :: _) |- _ =>
             apply Forall2_cons_1 in H as [? H]
         end.
  unfold matches, OR. cbn [existsb].
  repeat match goal with H : _ = _ && _ |- _ => rewrite H; clear H end.
  destruct (AND (filtersCombined filters) b);
    rewrite ?andb_true_r, ?andb_false_r, ?orb_false_r; reflexivity.
Qed.

Lemma some_in_nil (l : list Z) : some (inZ []) l = false.
Proof. induction l; cbn; [done|]. exact IHl. Qed.

Lemma scoping_empty_list b :
  whereTeamIds [] b = false ∧ whereUserIds [] b = false ∧ whereEventTypeIds [] b = false.
Proof.
  cbv [whereTeamIds whereUserIds whereEventTypeIds AND OR forallb existsb rel inZOpt].
  destruct (Booking.eventType b) as [et|]; [destruct (EventType.team et)|];
    destruct (Booking.userId b), (Booking.eventTypeId b);
    rewrite ?some_in_nil; done.
Qed.

Lemma AND_false (l : list WhereInput) (w : WhereInput) (b : Booking.t) :
  w ∈ l -> w b = false -> AND l b = false.
Proof.
  intros Hw Hb. unfold AND. apply not_true_is_false. intros Hall.
  rewrite forallb_forall in Hall. rewrite Hall in Hb; [done|].
  by apply list_elem_of_In.
Qed.

Lemma matches_scoped user passed filters b :
  matches user passed filters b = true ->
  matches user passed (withoutScoping filters) b = true
  ∧ Forall (fun w : WhereInput => w b = true) (filtersCombined filters).
Proof.
  rewrite matches_factor. intros [Hm Hc]%andb_true_iff. split; [done|].
  unfold AND in Hc. rewrite forallb_forall in Hc.
  apply Forall_forall. intros w Hw. by apply Hc, list_elem_of_In.
Qed.

Lemma matches_empty_scoping user passed filters b :
  Filters.teamIds filters = Some [] ∨ Filters.userIds filters = Some []
  ∨ Filters.eventTypeIds filters = Some [] ->
  matches user passed filters b = false.
Proof.
  rewrite matches_factor. intros Hempty. apply andb_false_iff. right.
  destruct (scoping_empty_list b) as (Ht & Hu & He).
  unfold filtersCombined.
  destruct Hempty as [Hnil|[Hnil|Hnil]]; rewrite Hnil.
  - eapply AND_false; [|exact Ht]. cbn. by left.
  - eapply AND_false; [|exact Hu].
    destruct (Filters.teamIds filters); cbn; [right|]; by left.
  - eapply AND_false; [|exact He].
    destruct (Filters.teamIds filters), (Filters.userIds filters); cbn;
      repeat first [by left|right].
Qed.

(** A scoping filter can only narrow a listing: a booking that matches a
    request also matches the request without its scoping keys, and it meets
    every scoping condition of the request; a scoping key given with an
    empty list of ids is matched by no booking. *)
Theorem scoping_filters_only_narrow user passed filters b :
  (matches user passed filters b = true ->
   matches user passed (withoutScoping filters) b = true
   ∧ Forall (fun w : WhereInput => w b = true) (filtersCombined filters))
  ∧ (Filters.teamIds filters = Some [] ∨ Filters.userIds filters = Some []
     ∨ Filters.eventTypeIds filters = Some [] ->
     matches user passed filters b = false).
Proof.
  split.
  - apply matches_scoped.
  - apply matches_empty_scoping.
Qed.

Lemma scoping_filters_only_narrow_witness :
  Filters.teamIds {| Filters.status := upcoming; Filters.teamIds := Some [];
                     Filters.userIds := None; Filters.eventTypeIds := None |}
  = Some []
  ∧ matches Sample.viewer (bookingListingFilters 500 upcoming)
      {| Filters.status := upcoming; Filters.teamIds := Some [];
         Filters.userIds := None; Filters.eventTypeIds := None |}
      Sample.shared = false.
Proof.
  split; [reflexivity|].
  exact (proj2 (scoping_filters_only_narrow Sample.viewer
                  (bookingListingFilters 500 upcoming)
                  {| Filters.status := upcoming; Filters.teamIds := Some [];
                     Filters.userIds := None; Filters.eventTypeIds := None |}
                  Sample.shared) (or_introl eq_refl)).
Defined.

(** ** Ordering *)

#[global] Instance startTimeOrder_total o : Total (startTimeOrder o).
Proof. intros a b. destruct o; cbn; lia. Qed.

#[global] Instance startTimeOrder_trans o : Transitive (startTimeOrder o).
Proof. intros a b c. destruct o; cbn; lia. Qed.

(** ** Pages of a listing *)

Lemma page_submseteq (n : Z) (k : nat) (l : list Booking.t) : page n k l ⊆+ l.
Proof.
  unfold page. case_match.
  - apply sublist_submseteq. etrans; [apply sublist_take|apply sublist_drop].
  - rewrite reverse_Permutation. trans (reverse l).
    + apply sublist_submseteq. etrans; [apply sublist_take|apply sublist_drop].
    + apply Permutation_submseteq, reverse_Permutation.
Qed.

Lemma submseteq_NoDup_l {A} (l k : list A) : l ⊆+ k -> NoDup k -> NoDup l.
Proof.
  intros [k' Hk]%submseteq_Permutation Hnd. rewrite Hk in Hnd.
  by apply NoDup_app in Hnd as [? _].
Qed.

Lemma findMany_NoDup prisma q w o take skip result :
  NoDup (PrismaClient.rows prisma) ->
  findMany prisma q w o take skip = Ok result -> NoDup result.
Proof.
  intros Hnd. unfold findMany. destruct (PrismaClient.fault prisma q); [done|].
  case_match; [done|]. intros [= <-].
  assert (NoDup (sortByStartTime o (filter (fun b => w b) (PrismaClient.rows prisma))))
    as Hs by (rewrite sortByStartTime_Permutation; by apply NoDup_filter).
  destruct take as [n|].
  - eapply submseteq_NoDup_l; [apply page_submseteq|exact Hs].
  - eapply sublist_NoDup; [exact Hs|apply sublist_drop].
Qed.

Lemma findMany_take_length prisma q w o (n : Z) skip result :
  findMany prisma q w o (Some n) skip = Ok result -> 0 <= n ->
  (length result <= Z.to_nat n)%nat.
Proof.
  unfold findMany. destruct (PrismaClient.fault prisma q); [done|].
  case_match; [done|]. intros [= <-] Hn. unfold page.
  destruct (Z.leb_spec 0 n); [|lia]. rewrite length_take. lia.
Qed.

Lemma filterUnique_NoDup {T} `{HasUid T} (arr : list T) :
  forall set,
    NoDup (uidOf <$> (filterUnique arr set).1)
    ∧ forall b, b ∈ (filterUnique arr set).1 -> uidOf b ∉ set.
Proof.
  induction arr as [|b rest IH]; intros set; cbn [filterUnique].
  - split; [constructor|]. by intros ? ?%elem_of_nil.
  - destruct (IH ({[uidOf b]} ∪ set)) as [Hnd Hfresh].
    destruct (filterUnique rest ({[uidOf b]} ∪ set)) as [unique set'].
    cbn [fst] in *. case_bool_decide as Hin; cbn.
    + split; [done|]. intros x Hx Hs. apply (Hfresh x Hx), elem_of_union. by right.
    + split.
      * constructor; [|done]. intros (x & Hu & Hx)%list_elem_of_fmap.
        apply (Hfresh x Hx), elem_of_union. left. by apply elem_of_singleton.
      * intros x [->|Hx]%elem_of_cons; [done|].
        intros Hs. apply (Hfresh x Hx), elem_of_union. by right.
Qed.

Lemma filter_keys_length (ks : list Z) (rows : list Booking.t) :
  NoDup (Booking.id <$> rows) ->
  (length (filter (fun b => inZ ks (Booking.id b)) rows) <= length ks)%nat.
Proof.
  intros Hnd. rewrite <- (length_fmap Booking.id).
  apply submseteq_length, NoDup_submseteq.
  - eapply sublist_NoDup; [exact Hnd|]. apply fmap_sublist, sublist_filter.
  - intros k (b & -> & [Hb _]%list_elem_of_filter)%list_elem_of_fmap.
    by apply inZ_true, Is_true_true.
Qed.

(** ** What the response lists *)

Lemma filterUnique_sublist {T} `{HasUid T} (arr : list T) :
  forall set, (filterUnique arr set).1 `sublist_of` arr.
Proof.
  induction arr as [|b rest IH]; intros set; cbn [filterUnique]; [constructor|].
  specialize (IH ({[uidOf b]} ∪ set)).
  destruct (filterUnique rest ({[uidOf b]} ∪ set)) as [unique set'].
  cbn [fst] in *. destruct (bool_decide (uidOf b ∈ set)); cbn.
  - by apply sublist_cons.
  - by apply sublist_skip.
Qed.

Lemma passed_tablePredicate (now : Z) (tag : StatusTag) (b : Booking.t) :
  bookingListingFilters now tag b = true -> tablePredicate now tag b.
Proof.
  destruct tag;
    cbv [bookingListingFilters tablePredicate AND OR NOT forallb existsb
         statusNotIn statusEquals statusEqb];
    rewrite ?statusIn_cancelled_rejected;
    destruct (Booking.recurringEventId b) as [series|], (Booking.status b);
    cbn; rewrite ?andb_true_iff, ?orb_true_iff, ?gte_true, ?lte_true, ?is_Some_alt;
    intuition (try discriminate; eauto).
Qed.

Lemma matches_passed user passed filters b :
  matches user passed filters b = true -> passed b = true.
Proof.
  rewrite matches_true.
  cbv [whereQueryUserId whereQueryAttendees whereQueryTeamEvents
       whereQuerySeatReference whereQueryTeamUsersPersonalEvents].
  rewrite AND_app, !AND_cons, !andb_true_iff. tauto.
Qed.

Section Listing.
Context {RecurringEvent EventTypeMetaData : Type}.
Variable parseRecurringEvent : option Json -> option RecurringEvent.
Variable EventTypeMetaDataSchema_parse : Json -> Result EventTypeMetaData.
Variable toISOString : Z -> string.

Local Abbreviation getHandler' :=
  (getHandler parseRecurringEvent EventTypeMetaDataSchema_parse toISOString).
Local Abbreviation enrich' :=
  (enrich parseRecurringEvent EventTypeMetaDataSchema_parse toISOString).
Local Abbreviation normalize' :=
  (normalize parseRecurringEvent EventTypeMetaDataSchema_parse toISOString).

(** The rows behind a successful response: the results of the five
    queries, each made of rows of the store that satisfy its condition, and
    the rows read by the enrichment query, a permutation of the rows of the
    store whose id is that of a deduplicated result. *)
Lemma getHandler_rows prisma user now input set resp set' :
  getHandler' prisma user now input set = (Ok resp, set') ->
  let tag := Filters.status (Input.filters input) in
  let passed := bookingListingFilters now tag in
  exists results found,
    Forall2 (fun q result => q = Ok result)
      (visibilityQueries prisma user passed (Input.filters input)
         (bookingListingOrderby tag) (default 10 (Input.limit input))
         (default 0 (Input.cursor input)))
      results
    ∧ Forall2 (fun (w : WhereInput) result =>
                 forall p, p ∈ result -> p ∈ PrismaClient.rows prisma ∧ w p = true)
        (visibilityWheres user passed (Input.filters input)) results
    ∧ found = sortByStartTime (bookingListingOrderby tag)
                (filter (fun b => inZ (Booking.id <$> (getUniqueBookings (mjoin results)
                                                         set).1) (Booking.id b))
                        (PrismaClient.rows prisma))
    ∧ Forall2 (fun b out => normalize' (redact user (bookingSelect user b)) = Ok out)
        found (Response.bookings resp).
Proof.
  intros (r & Hr & -> & _)%getHandler_Ok tag passed.
  apply getBookings_Ok in Hr
    as (q1 & q2 & q3 & q4 & q5 & basic & ext
        & H1 & H2 & H3 & H4 & H5 & _ & _ & _ & He & _).
  fold tag in H1, H2, H3, H4, H5, He. fold passed in H1, H2, H3, H4, H5.
  unfold enrich, enrichQuery in He.
  destruct (findMany _ _ _ _ _ _) as [found|e] eqn:Hf; cbn in He; [|done].
  apply mapM_Ok, Forall2_fmap_l in He.
  exists [q1; q2; q3; q4; q5], found. split_and!.
  - unfold visibilityQueries. by repeat constructor.
  - unfold visibilityWheres.
    constructor; [intros p Hp; by apply (findMany_Ok _ _ _ _ _ _ _ H1)|].
    constructor; [intros p Hp; by apply (findMany_Ok _ _ _ _ _ _ _ H2)|].
    constructor; [intros p Hp; by apply (findMany_Ok _ _ _ _ _ _ _ H3)|].
    constructor; [intros p Hp; by apply (findMany_Ok _ _ _ _ _ _ _ H4)|].
    constructor; [intros p Hp; by apply (findMany_Ok _ _ _ _ _ _ _ H5)|].
    constructor.
  - cbn [mjoin list_join]. rewrite app_nil_r.
    unfold findMany in Hf. destruct (PrismaClient.fault prisma QEnrich); [done|].
    cbn in Hf. by injection Hf as <-.
  - done.
Qed.

Lemma elem_of_results {A} (Q : A -> Booking.t -> Prop) (ws : list A)
    (results : list (list Booking.t)) (p : Booking.t) :
  Forall2 (fun w result => forall p, p ∈ result -> Q w p) ws results ->
  p ∈ mjoin results -> exists w, w ∈ ws ∧ Q w p.
Proof.
  induction 1 as [|w result ws results Hw _ IH]; cbn [mjoin list_join].
  - by intros ?%elem_of_nil.
  - intros [Hp|Hp]%elem_of_app.
    + exists w. split; [by left|auto].
    + destruct (IH Hp) as (w' & ? & ?). exists w'. split; [by right|done].
Qed.

Lemma matches_of_where user passed filters (w : WhereInput) b :
  w ∈ visibilityWheres user passed filters -> w b = true ->
  matches user passed filters b = true.
Proof.
  intros Hw Hb. unfold matches. change (OR (visibilityWheres user passed filters) b = true).
  unfold OR. apply existsb_exists. exists w. split; [by apply list_elem_of_In|done].
Qed.

(** Every booking of a response is the projection of a row of the store
    whose id is that of a row that one of the five queries returned, a row
    that matches the request. *)
Lemma response_row_source prisma user now input set resp set' out :
  getHandler' prisma user now input set = (Ok resp, set') ->
  out ∈ Response.bookings resp ->
  exists b p,
    b ∈ PrismaClient.rows prisma
    ∧ normalize' (redact user (bookingSelect user b)) = Ok out
    ∧ p ∈ PrismaClient.rows prisma
    ∧ Booking.id p = Booking.id b
    ∧ matches user (bookingListingFilters now (Filters.status (Input.filters input)))
        (Input.filters input) p = true.
Proof.
  intros Hh Hout.
  destruct (getHandler_rows _ _ _ _ _ _ _ Hh)
    as (results & found & _ & Hwheres & -> & Hall).
  apply list_elem_of_lookup in Hout as [i Hi].
  destruct (Forall2_lookup_r _ _ _ _ _ Hall Hi) as (b & Hb & Hn).
  apply list_elem_of_lookup_2 in Hb.
  rewrite sortByStartTime_Permutation in Hb.
  apply list_elem_of_filter in Hb as [Hid Hb].
  apply Is_true_true, inZ_true, list_elem_of_fmap in Hid as (p & Hid & Hp).
  rewrite getUniqueBookings_fst in Hp.
  eapply elem_of_sublist in Hp; [|apply filterUnique_sublist].
  destruct (elem_of_results _ _ _ _ Hwheres Hp) as (w & Hw & Hrow & Hwp).
  exists b, p. split_and!; try done.
  by eapply matches_of_where.
Qed.

(** With [id] the key of the booking table, a response never lists a
    booking that does not match the request: every booking of the response
    is a stored booking that one of the five visibility conditions admits,
    that meets the condition of the status tag as the table gives it, and
    that meets every scoping condition of the request. *)
Theorem response_lists_only_matching prisma user now input set resp set' out :
  NoDup (Booking.id <$> PrismaClient.rows prisma) ->
  getHandler' prisma user now input set = (Ok resp, set') ->
  out ∈ Response.bookings resp ->
  exists b,
    b ∈ PrismaClient.rows prisma
    ∧ BookingOut.id out = Booking.id b
    ∧ BookingOut.uid out = Booking.uid b
    ∧ matches user (bookingListingFilters now (Filters.status (Input.filters input)))
        (Input.filters input) b = true
    ∧ tablePredicate now (Filters.status (Input.filters input)) b
    ∧ Forall (fun w : WhereInput => w b = true) (filtersCombined (Input.filters input)).
Proof.
  intros Hnd Hh Hout.
  destruct (response_row_source _ _ _ _ _ _ _ _ Hh Hout)
    as (b & p & Hb & Hn & Hp & Hid & Hm).
  assert (p = b) as -> by (eapply (NoDup_fmap_inj Booking.id); eauto).
  apply normalize_redact_select in Hn as [Hu Hi].
  exists b. split_and!; try done.
  - apply passed_tablePredicate. by eapply matches_passed.
  - by eapply matches_scoped.
Qed.

(** A request that gives a scoping key with an empty list of ids is
    answered, when it succeeds, with no booking at all. *)
Theorem empty_scoping_list_lists_nothing prisma user now input set resp set' :
  Filters.teamIds (Input.filters input) = Some []
  ∨ Filters.userIds (Input.filters input) = Some []
  ∨ Filters.eventTypeIds (Input.filters input) = Some [] ->
  getHandler' prisma user now input set = (Ok resp, set') ->
  Response.bookings resp = [] ∧ Response.nextCursor resp
                                = if default 10 (Input.limit input) <? 0
                                  then Some (default 0 (Input.cursor input)) else None.
Proof.
  intros Hempty Hh.
  assert (Response.bookings resp = []) as Hnil.
  { destruct (Response.bookings resp) as [|out l] eqn:Hb; [done|].
    destruct (response_row_source _ _ _ _ _ _ _ out Hh)
      as (b & p & _ & _ & _ & _ & Hm); [rewrite Hb; by left|].
    by rewrite (matches_empty_scoping _ _ _ _ Hempty) in Hm. }
  split; [done|].
  apply getHandler_Ok in Hh as (r & _ & Hb & _ & ->). rewrite <- Hb, Hnil. cbn.
  by rewrite Z.add_0_r.
Qed.

Lemma response_keys prisma user now input set resp set' :
  getHandler' prisma user now input set = (Ok resp, set') ->
  exists results found,
    Forall2 (fun q result => q = Ok result)
      (visibilityQueries prisma user
         (bookingListingFilters now (Filters.status (Input.filters input)))
         (Input.filters input)
         (bookingListingOrderby (Filters.status (Input.filters input)))
         (default 10 (Input.limit input)) (default 0 (Input.cursor input)))
      results
    ∧ found = sortByStartTime (bookingListingOrderby (Filters.status (Input.filters input)))
                (filter (fun b => inZ (Booking.id <$> (getUniqueBookings (mjoin results)
                                                         set).1) (Booking.id b))
                        (PrismaClient.rows prisma))
    ∧ BookingOut.id <$> Response.bookings resp = Booking.id <$> found
    ∧ BookingOut.uid <$> Response.bookings resp = Booking.uid <$> found
    ∧ BookingOut.startTime <$> Response.bookings resp
      = (fun b => toISOString (Booking.startTime b)) <$> found.
Proof.
  intros Hh.
  destruct (getHandler_rows _ _ _ _ _ _ _ Hh) as (results & found & Hq & _ & Hf & Hall).
  exists results, found. split_and!; try done.
  - clear Hf. induction Hall as [|b out l k Hn _ IH]; [done|].
    apply normalize_redact_select in Hn as [_ Hi]. cbn. by rewrite Hi, IH.
  - clear Hf. induction Hall as [|b out l k Hn _ IH]; [done|].
    apply normalize_redact_select in Hn as [Hu _]. cbn. by rewrite Hu, IH.
  - clear Hf. induction Hall as [|b out l k Hn _ IH]; [done|].
    cbn. rewrite IH. f_equal. unfold normalize in Hn.
    destruct (EventTypeMetaDataSchema_parse _); cbn in Hn; [|done].
    injection Hn as <-. cbn.
    by destruct (redact_fields user (bookingSelect user b)) as (_ & _ & _ & _ & _);
      unfold redact; destruct (redactionApplies _).
Qed.

(** The response is in the order asked of the store: its bookings are the
    projections, one for one, of rows of the store laid out so that each row
    starts no later (for [upcoming], [recurring], [unconfirmed]) or no earlier
    (for [past], [cancelled]) than every row after it, each with its start
    time printed by [toISOString]. *)
Theorem response_ordered_by_startTime prisma user now input set resp set' :
  getHandler' prisma user now input set = (Ok resp, set') ->
  exists found,
    StronglySorted (startTimeOrder (bookingListingOrderby
                                      (Filters.status (Input.filters input)))) found
    ∧ Forall (fun b => b ∈ PrismaClient.rows prisma) found
    ∧ BookingOut.id <$> Response.bookings resp = Booking.id <$> found
    ∧ BookingOut.startTime <$> Response.bookings resp
      = (fun b => toISOString (Booking.startTime b)) <$> found.
Proof.
  intros (results & found & _ & -> & Hid & _ & Ht)%response_keys.
  eexists. split_and!; [|
    |exact Hid|exact Ht].
  - apply (StronglySorted_merge_sort _).
  - apply Forall_forall. intros b Hb. rewrite sortByStartTime_Permutation in Hb.
    by apply list_elem_of_filter in Hb as [_ ?].
Qed.

(** The rows read by the enrichment query are rows of the deduplicated
    list, once [id] is the key of the table. *)
Lemma enriched_rows_deduplicated prisma user now input set resp set'
    (results : list (list Booking.t)) :
  NoDup (Booking.id <$> PrismaClient.rows prisma) ->
  getHandler' prisma user now input set = (Ok resp, set') ->
  Forall2 (fun q result => q = Ok result)
    (visibilityQueries prisma user
       (bookingListingFilters now (Filters.status (Input.filters input)))
       (Input.filters input)
       (bookingListingOrderby (Filters.status (Input.filters input)))
       (default 10 (Input.limit input)) (default 0 (Input.cursor input)))
    results ->
  forall b,
    b ∈ PrismaClient.rows prisma ->
    inZ (Booking.id <$> (getUniqueBookings (mjoin results) set).1) (Booking.id b) = true ->
    b ∈ (getUniqueBookings (mjoin results) set).1.
Proof.
  intros Hnd Hh Hres b Hb Hid.
  apply inZ_true, list_elem_of_fmap in Hid as (p & Hid & Hp).
  assert (p ∈ PrismaClient.rows prisma) as Hrow.
  { rewrite getUniqueBookings_fst in Hp.
    eapply elem_of_sublist in Hp; [|apply filterUnique_sublist].
    apply list_elem_of_join in Hp as (result & Hp & Hr).
    apply list_elem_of_lookup in Hr as [i Hi].
    destruct (Forall2_lookup_r _ _ _ _ _ Hres Hi) as (q & Hq & ->).
    apply list_elem_of_lookup_2 in Hq. unfold visibilityQueries in Hq.
    repeat (apply elem_of_cons in Hq as [Hq|Hq];
            [symmetry in Hq; by apply (findMany_Ok _ _ _ _ _ _ _ Hq)|]).
    by apply elem_of_nil in Hq. }
  by assert (b = p) as -> by (eapply (NoDup_fmap_inj Booking.id); eauto).
Qed.

(** With [id] the key of the booking table, no response lists a booking
    twice: the ids of its bookings are pairwise distinct, and so are their
    uids. *)
Theorem response_lists_no_booking_twice prisma user now input set resp set' :
  NoDup (Booking.id <$> PrismaClient.rows prisma) ->
  getHandler' prisma user now input set = (Ok resp, set') ->
  NoDup (BookingOut.id <$> Response.bookings resp)
  ∧ NoDup (BookingOut.uid <$> Response.bookings resp).
Proof.
  intros Hnd Hh.
  destruct (response_keys _ _ _ _ _ _ _ Hh) as (results & found & Hres & -> & -> & -> & _).
  assert (NoDup (filter (fun b => inZ (Booking.id <$> (getUniqueBookings (mjoin results)
                                                         set).1) (Booking.id b))
                        (PrismaClient.rows prisma))) as Hrows
    by (apply NoDup_filter; by eapply NoDup_fmap_1).
  split.
  - rewrite sortByStartTime_Permutation.
    eapply sublist_NoDup; [exact Hnd|]. apply fmap_sublist, sublist_filter.
  - rewrite sortByStartTime_Permutation.
    apply NoDup_fmap_2_strong; [|done].
    intros x y [Hx Hxr]%list_elem_of_filter [Hy Hyr]%list_elem_of_filter Hu.
    apply Is_true_true in Hx, Hy.
    pose proof (enriched_rows_deduplicated _ _ _ _ _ _ _ _ Hnd Hh Hres x Hxr Hx) as Hxp.
    pose proof (enriched_rows_deduplicated _ _ _ _ _ _ _ _ Hnd Hh Hres y Hyr Hy) as Hyp.
    rewrite getUniqueBookings_fst in Hxp, Hyp.
    eapply (NoDup_fmap_inj (uidOf (T:=Booking.t))); [|exact Hxp|exact Hyp|exact Hu].
    apply filterUnique_NoDup.
Qed.

(** With [id] the key of the booking table and a page size of at least -1,
    a response holds at most five times the page size plus one bookings:
    each of the five queries brings at most [take + 1] rows. *)
Theorem response_size_bound prisma user now input set resp set' :
  NoDup (Booking.id <$> PrismaClient.rows prisma) ->
  -1 <= default 10 (Input.limit input) ->
  getHandler' prisma user now input set = (Ok resp, set') ->
  Z.of_nat (length (Response.bookings resp)) <= 5 * (default 10 (Input.limit input) + 1).
Proof.
  intros Hnd Htake Hh.
  destruct (response_keys _ _ _ _ _ _ _ Hh) as (results & found & Hres & -> & Hid & _).
  apply (f_equal length) in Hid. rewrite !length_fmap in Hid. rewrite Hid.
  rewrite sortByStartTime_Permutation.
  pose proof (filter_keys_length
                (Booking.id <$> (getUniqueBookings (mjoin results) set).1)
                _ Hnd) as Hle.
  rewrite length_fmap, getUniqueBookings_fst in Hle.
  pose proof (sublist_length _ _ (filterUnique_sublist (mjoin results) set)) as Hsub.
  assert (Z.of_nat (length (mjoin results))
          <= 5 * (default 10 (Input.limit input) + 1)) as Hjoin.
  { unfold visibilityQueries in Hres.
    repeat match goal with
           | H : Forall2 _ (_ :: _) _ |- _ =>
               apply Forall2_cons_inv_l in H as (? & ? & ?%findMany_take_length & H & ->);
               [|lia]
           | H : Forall2 _ [] _ |- _ => apply Forall2_nil_inv_l in H as ->
           end.
    cbn [mjoin list_join]. rewrite !length_app. cbn [length]. lia. }
  rewrite getUniqueBookings_fst. lia.
Qed.

Lemma results_in_rows prisma user passed filters orderBy take skip
    (results : list (list Booking.t)) :
  Forall2 (fun q result => q = Ok result)
    (visibilityQueries prisma user passed filters orderBy take skip) results ->
  forall p, p ∈ mjoin results -> p ∈ PrismaClient.rows prisma.
Proof.
  intros Hres p (result & Hp & Hr)%list_elem_of_join.
  apply list_elem_of_lookup in Hr as [i Hi].
  destruct (Forall2_lookup_r _ _ _ _ _ Hres Hi) as (q & Hq & ->).
  apply list_elem_of_lookup_2 in Hq. unfold visibilityQueries in Hq.
  repeat (apply elem_of_cons in Hq as [Hq|Hq];
          [symmetry in Hq; by apply (findMany_Ok _ _ _ _ _ _ _ Hq)|]).
  by apply elem_of_nil in Hq.
Qed.

Lemma result_of_query prisma user passed filters orderBy take skip
    (results : list (list Booking.t)) (result : list Booking.t) :
  Forall2 (fun q result => q = Ok result)
    (visibilityQueries prisma user passed filters orderBy take skip) results ->
  Ok result ∈ visibilityQueries prisma user passed filters orderBy take skip ->
  result ∈ results
  ∧ (NoDup (PrismaClient.rows prisma) -> NoDup result).
Proof.
  intros Hres Hq. apply list_elem_of_lookup in Hq as [i Hi].
  destruct (Forall2_lookup_l _ _ _ _ _ Hres Hi) as (result' & Hr & [= <-]).
  split; [by eapply list_elem_of_lookup_2|].
  intros Hnd. apply list_elem_of_lookup_2 in Hi. unfold visibilityQueries in Hi.
  repeat (apply elem_of_cons in Hi as [Hi|Hi];
          [symmetry in Hi; by apply (findMany_NoDup _ _ _ _ _ _ _ Hnd Hi)|]).
  by apply elem_of_nil in Hi.
Qed.

(** With [uid] a key of the table, deduplication from the empty set drops
    no row. *)
Lemma kept_when_uid_key (rows arr : list Booking.t) (x : Booking.t) :
  NoDup (Booking.uid <$> rows) ->
  (forall y, y ∈ arr -> y ∈ rows) ->
  x ∈ arr -> x ∈ (getUniqueBookings arr set_init).1.
Proof.
  intros Hnd Hrows Hx. unfold set_init. rewrite getUniqueBookings_empty. cbn [fst].
  destruct (keepUnseen_covers arr [] (Booking.uid x)) as [Hp|Hk].
  { by apply (list_elem_of_fmap_2 (uidOf (T:=Booking.t))). }
  { by apply elem_of_nil in Hp. }
  apply list_elem_of_fmap in Hk as (k & Hu & Hk).
  assert (k ∈ arr) as Hka
    by (eapply elem_of_sublist; [done|apply keepUnseen_sublist]).
  by assert (x = k) as -> by (eapply (NoDup_fmap_inj Booking.uid); eauto).
Qed.

(** With [id] and [uid] keys of the table, every row that one of the five
    queries returned is read by the enrichment query. *)
Lemma results_enriched prisma user now input (results : list (list Booking.t)) :
  NoDup (Booking.uid <$> PrismaClient.rows prisma) ->
  Forall2 (fun q result => q = Ok result)
    (visibilityQueries prisma user
       (bookingListingFilters now (Filters.status (Input.filters input)))
       (Input.filters input)
       (bookingListingOrderby (Filters.status (Input.filters input)))
       (default 10 (Input.limit input)) (default 0 (Input.cursor input)))
    results ->
  forall x, x ∈ mjoin results ->
    x ∈ sortByStartTime (bookingListingOrderby (Filters.status (Input.filters input)))
          (filter (fun b => inZ (Booking.id <$> (getUniqueBookings (mjoin results)
                                                   set_init).1) (Booking.id b))
                  (PrismaClient.rows prisma)).
Proof.
  intros Huid Hres x Hx.
  pose proof (results_in_rows _ _ _ _ _ _ _ _ Hres) as Hrows.
  rewrite sortByStartTime_Permutation. apply list_elem_of_filter. split; [|by apply Hrows].
  apply Is_true_true, inZ_true, list_elem_of_fmap_2.
  by eapply kept_when_uid_key.
Qed.

(** With [id] and [uid] keys of the table: whenever one of the five queries
    returns more rows than the page size (it returns [take + 1] when more
    rows are left on its path), the response holds at least as many bookings
    as that query returned and carries a next cursor. *)
Theorem full_query_page_gives_next_cursor prisma user now input resp set'
    (result : list Booking.t) :
  NoDup (Booking.id <$> PrismaClient.rows prisma) ->
  NoDup (Booking.uid <$> PrismaClient.rows prisma) ->
  getHandler' prisma user now input set_init = (Ok resp, set') ->
  Ok result
    ∈ visibilityQueries prisma user
        (bookingListingFilters now (Filters.status (Input.filters input)))
        (Input.filters input)
        (bookingListingOrderby (Filters.status (Input.filters input)))
        (default 10 (Input.limit input)) (default 0 (Input.cursor input)) ->
  default 10 (Input.limit input) < Z.of_nat (length result) ->
  (length result <= length (Response.bookings resp))%nat
  ∧ Response.nextCursor resp
    = Some (default 0 (Input.cursor input) + Z.of_nat (length (Response.bookings resp))).
Proof.
  intros Hid Huid Hh Hq Hfull.
  destruct (response_keys _ _ _ _ _ _ _ Hh) as (results & found & Hres & -> & Hids & _).
  destruct (result_of_query _ _ _ _ _ _ _ _ _ Hres Hq) as [Hin Hnd].
  assert (length result <= length (Response.bookings resp))%nat as Hlen.
  { apply (f_equal length) in Hids. rewrite !length_fmap in Hids. rewrite Hids.
    apply submseteq_length, NoDup_submseteq.
    - apply Hnd. by eapply NoDup_fmap_1.
    - intros x Hx. eapply results_enriched; [done..|].
      apply list_elem_of_join. by exists result. }
  split; [done|].
  apply getHandler_Ok in Hh as (r & _ & Hb & _ & ->). rewrite <- Hb.
  destruct (Z.ltb_spec (default 10 (Input.limit input))
              (Z.of_nat (length (Response.bookings resp)))); [done|lia].
Qed.

Lemma findMany_Ok_page prisma q w o (n k : Z) result :
  findMany prisma q w o (Some n) (Some k) = Ok result ->
  result = page n (Z.to_nat k) (listing prisma o w) ∧ 0 <= k.
Proof.
  unfold findMany, listing. destruct (PrismaClient.fault prisma q); [done|].
  cbn. destruct (Z.ltb_spec k 0); [done|]. by intros [= <-].
Qed.

(** The results of the five queries of a successful request are the pages
    of the five listings. *)
Lemma results_are_pages prisma user passed filters orderBy take skip
    (results : list (list Booking.t)) :
  Forall2 (fun q result => q = Ok result)
    (visibilityQueries prisma user passed filters orderBy take skip) results ->
  results = (fun w => page (take + 1) (Z.to_nat skip) (listing prisma orderBy w))
              <$> visibilityWheres user passed filters
  ∧ 0 <= skip.
Proof.
  unfold visibilityQueries, visibilityWheres. intros Hres.
  repeat match goal with
         | H : Forall2 _ (_ :: _) _ |- _ =>
             apply Forall2_cons_inv_l in H as (? & ? & [-> ?]%findMany_Ok_page & H & ->)
         | H : Forall2 _ [] _ |- _ => apply Forall2_nil_inv_l in H as ->
         end.
  done.
Qed.

Lemma page_lookup (n : Z) (k : nat) (l : list Booking.t) (b : Booking.t) :
  0 <= n -> b ∈ page n k l ->
  exists j, l !! j = Some b ∧ (k <= j)%nat ∧ (j < k + Z.to_nat n)%nat.
Proof.
  intros Hn. unfold page. destruct (Z.leb_spec 0 n); [|lia].
  intros (j & Hj)%list_elem_of_lookup.
  apply lookup_take_Some in Hj as [Hj Hlt]. rewrite lookup_drop in Hj.
  exists (k + j)%nat. split; [done|lia].
Qed.

(** With [id] the key of the table: a row that is visible on one path only
    and sits at position [j] of the listing of that path is listed by the
    request at cursor [skip] only if [skip <= j < skip + take + 1]. *)
Lemma page_window prisma user now filters (take skip : Z) set resp set'
    (i j : nat) (w : WhereInput) (b : Booking.t) :
  NoDup (Booking.id <$> PrismaClient.rows prisma) ->
  0 <= take + 1 ->
  getHandler' prisma user now (pageRequest filters take skip) set = (Ok resp, set') ->
  visibilityWheres user (bookingListingFilters now (Filters.status filters)) filters !! i
  = Some w ->
  (forall i' w',
      visibilityWheres user (bookingListingFilters now (Filters.status filters)) filters
        !! i' = Some w' -> i' ≠ i -> w' b = false) ->
  listing prisma (bookingListingOrderby (Filters.status filters)) w !! j = Some b ->
  Booking.id b ∈ BookingOut.id <$> Response.bookings resp ->
  skip <= Z.of_nat j < skip + take + 1.
Proof.
  intros Hnd Htake Hh Hw Honly Hj Hin.
  assert (b ∈ PrismaClient.rows prisma) as Hb.
  { apply list_elem_of_lookup_2 in Hj. unfold listing in Hj.
    rewrite sortByStartTime_Permutation in Hj. by apply list_elem_of_filter in Hj as [_ ?]. }
  destruct (response_keys _ _ _ _ _ _ _ Hh) as (results & found & Hres & -> & Hids & _).
  cbn [pageRequest Input.filters Input.limit Input.cursor default from_option] in Hres.
  rewrite Hids in Hin. apply list_elem_of_fmap in Hin as (b' & Hid & Hb').
  rewrite sortByStartTime_Permutation in Hb'.
  apply list_elem_of_filter in Hb' as [Hkeys Hb'r].
  assert (b' = b) as -> by (eapply (NoDup_fmap_inj Booking.id); eauto).
  apply Is_true_true in Hkeys.
  pose proof (enriched_rows_deduplicated _ _ _ _ _ _ _ _ Hnd Hh Hres b Hb Hkeys) as Hplain.
  rewrite getUniqueBookings_fst in Hplain.
  eapply elem_of_sublist in Hplain; [|apply filterUnique_sublist].
  destruct (results_are_pages _ _ _ _ _ _ _ _ Hres) as [-> Hskip].
  apply list_elem_of_join in Hplain as (result & Hbr & Hr).
  apply list_elem_of_lookup in Hr as [i' Hi'].
  rewrite list_lookup_fmap in Hi'.
  destruct (visibilityWheres _ _ _ !! i') as [w'|] eqn:Hw'; [|done].
  injection Hi' as <-.
  assert (w' b = true) as Hwb.
  { eapply elem_of_submseteq in Hbr; [|apply page_submseteq]. unfold listing in Hbr.
    rewrite sortByStartTime_Permutation in Hbr.
    apply list_elem_of_filter in Hbr as [? _]. by apply Is_true_true. }
  destruct (decide (i' = i)) as [->|Hne].
  2:{ rewrite (Honly i' w' Hw' Hne) in Hwb. done. }
  rewrite Hw in Hw'. injection Hw' as <-.
  apply page_lookup in Hbr as (j' & Hj' & Hlo & Hhi); [|done].
  assert (j' = j) as ->.
  { eapply NoDup_lookup; [|exact Hj'|exact Hj]. unfold listing.
    rewrite sortByStartTime_Permutation. apply NoDup_filter. by eapply NoDup_fmap_1. }
  unfold id in *. lia.
Qed.

(** Pages do not tile a listing.  With [id] the key of the table, take the
    first page of a request and the page at the cursor [c] it returns.  A
    booking visible on one path only, at a position of the listing of that
    path that is past the page size but before [c], is on neither page: the
    cursor counts the bookings gathered from all five paths, and every
    path is then skipped by that count. *)
Theorem next_cursor_skips_rows prisma user now filters (take c : Z)
    resp1 set1 resp2 set2 (i j : nat) (w : WhereInput) (b : Booking.t) :
  NoDup (Booking.id <$> PrismaClient.rows prisma) ->
  0 <= take + 1 ->
  getHandler' prisma user now (pageRequest filters take 0) set_init = (Ok resp1, set1) ->
  Response.nextCursor resp1 = Some c ->
  getHandler' prisma user now (pageRequest filters take c) set_init = (Ok resp2, set2) ->
  visibilityWheres user (bookingListingFilters now (Filters.status filters)) filters !! i
  = Some w ->
  (forall i' w',
      visibilityWheres user (bookingListingFilters now (Filters.status filters)) filters
        !! i' = Some w' -> i' ≠ i -> w' b = false) ->
  listing prisma (bookingListingOrderby (Filters.status filters)) w !! j = Some b ->
  take + 1 <= Z.of_nat j < c ->
  (Booking.id b ∉ (BookingOut.id <$> Response.bookings resp1))
  ∧ (Booking.id b ∉ (BookingOut.id <$> Response.bookings resp2)).
Proof.
  intros Hnd Htake H1 Hc H2 Hw Honly Hj Hrange. split; intros Hin.
  - pose proof (page_window _ _ _ _ _ _ _ _ _ _ _ _ _ Hnd Htake H1 Hw Honly Hj Hin). lia.
  - pose proof (page_window _ _ _ _ _ _ _ _ _ _ _ _ _ Hnd Htake H2 Hw Honly Hj Hin). lia.
Qed.

(** When nothing fails and [id] and [uid] are keys of the table: if the
    listing of each of the five paths has at most [take + 1] rows, the
    request at cursor 0 lists exactly the bookings that match it, each
    once. *)
Theorem short_listings_returned_whole prisma user now filters (take : Z) :
  (forall q, PrismaClient.fault prisma q = None) ->
  NoDup (Booking.id <$> PrismaClient.rows prisma) ->
  NoDup (Booking.uid <$> PrismaClient.rows prisma) ->
  (forall b, b ∈ PrismaClient.rows prisma ->
             isOk (normalize' (redact user (bookingSelect user b))) = true) ->
  Forall (fun w => Z.of_nat (length (listing prisma
                                       (bookingListingOrderby (Filters.status filters)) w))
                   <= take + 1)
         (visibilityWheres user (bookingListingFilters now (Filters.status filters))
            filters) ->
  exists resp,
    (getHandler' prisma user now (pageRequest filters take 0) set_init).1 = Ok resp
    ∧ length (Response.bookings resp)
      = length (filter (fun b => matches user
                                   (bookingListingFilters now (Filters.status filters))
                                   filters b = true)
                       (PrismaClient.rows prisma))
    ∧ forall b, b ∈ PrismaClient.rows prisma ->
        (matches user (bookingListingFilters now (Filters.status filters)) filters b = true
         <-> Booking.id b ∈ BookingOut.id <$> Response.bookings resp).
Proof.
  intros Hfault Hid Huid Hvalid Hshort.
  set (passed := bookingListingFilters now (Filters.status filters)) in *.
  set (o := bookingListingOrderby (Filters.status filters)) in *.
  assert (forall w, w ∈ visibilityWheres user passed filters ->
                    page (take + 1) (Z.to_nat 0) (listing prisma o w) = listing prisma o w)
    as Hwhole.
  { intros w Hw. rewrite Forall_forall in Hshort. specialize (Hshort w Hw).
    apply page_whole; lia. }
  assert (forall r, r ∈ PrismaClient.rows prisma ->
            r ∈ mjoin ((fun w => page (take + 1) (Z.to_nat 0) (listing prisma o w))
                         <$> visibilityWheres user passed filters)
            <-> matches user passed filters r = true) as Hjoin.
  { intros r Hr. rewrite list_elem_of_join. split.
    - intros (result & Hin & (w & -> & Hw)%list_elem_of_fmap).
      rewrite Hwhole in Hin by done. unfold listing in Hin.
      rewrite sortByStartTime_Permutation in Hin.
      apply list_elem_of_filter in Hin as [Hwr _].
      eapply matches_of_where; [done|by apply Is_true_true].
    - intros Hm. unfold matches, OR in Hm. apply existsb_exists in Hm as (w & Hw & Hwr).
      apply list_elem_of_In in Hw.
      exists (listing prisma o w). split.
      + unfold listing. rewrite sortByStartTime_Permutation.
        apply list_elem_of_filter. split; [by apply Is_true_true|done].
      + apply list_elem_of_fmap. exists w. by rewrite Hwhole. }
  destruct (getHandler_page parseRecurringEvent EventTypeMetaDataSchema_parse toISOString
              prisma user now filters take 0
              (fun b => matches user passed filters b = true))
    as (resp & Hresp & Hlen & _); [done..|lia| |].
  { intros r Hr. rewrite <- (Hjoin r Hr). unfold visibilityWheres.
    cbn [fmap list_fmap mjoin list_join]. by rewrite app_nil_r. }
  exists resp. split_and!; [done..|].
  destruct (getHandler' prisma user now (pageRequest filters take 0) set_init)
    as [res set'] eqn:Hh. cbn [fst] in Hresp. subst res.
  destruct (response_keys _ _ _ _ _ _ _ Hh) as (results & found & Hres & -> & Hids & _).
  cbn [pageRequest Input.filters Input.limit Input.cursor default from_option] in Hres.
  unfold id in Hres. fold passed in Hres. fold o in Hres.
  intros b Hb. rewrite Hids. split.
  - intros Hm. apply list_elem_of_fmap_2.
    pose proof (results_enriched prisma user now (pageRequest filters take 0) results Huid)
      as Henr.
    cbn [pageRequest Input.filters Input.limit Input.cursor default from_option] in Henr.
    apply Henr; [exact Hres|].
    destruct (results_are_pages _ _ _ _ _ _ _ _ Hres) as [-> _]. by apply Hjoin.
  - intros (b' & Heq & Hb')%list_elem_of_fmap.
    rewrite sortByStartTime_Permutation in Hb'.
    apply list_elem_of_filter in Hb' as [Hkeys Hb'r].
    assert (b' = b) as -> by (eapply (NoDup_fmap_inj Booking.id); eauto).
    apply Is_true_true in Hkeys.
    pose proof (enriched_rows_deduplicated _ _ _ _ _ _ _ _ Hid Hh Hres b Hb Hkeys)
      as Hplain.
    rewrite getUniqueBookings_fst in Hplain.
    eapply elem_of_sublist in Hplain; [|apply filterUnique_sublist].
    destruct (results_are_pages _ _ _ _ _ _ _ _ Hres) as [-> _]. by apply Hjoin.
Qed.
End Listing.

Lemma next_cursor_skips_rows_witness :
  exists resp1 resp2 w,
    NoDup (Booking.id <$> PrismaClient.rows (Sample.store Sample.twoPaths))
    ∧ 0 <= 1 + 1
    ∧ Sample.handle (Sample.store Sample.twoPaths) 50
        (pageRequest (Input.filters (Sample.input upcoming None None)) 1 0)
      = (Ok resp1, ∅)
    ∧ Response.nextCursor resp1 = Some 4
    ∧ Sample.handle (Sample.store Sample.twoPaths) 50
        (pageRequest (Input.filters (Sample.input upcoming None None)) 1 4)
      = (Ok resp2, ∅)
    ∧ visibilityWheres Sample.viewer (bookingListingFilters 50 upcoming)
        (Input.filters (Sample.input upcoming None None)) !! 0%nat = Some w
    ∧ listing (Sample.store Sample.twoPaths) (bookingListingOrderby upcoming) w !! 2%nat
      = Some (Sample.mine 3 "uid-3" 300)
    ∧ 1 + 1 <= Z.of_nat 2 < 4
    ∧ (Booking.id (Sample.mine 3 "uid-3" 300)
         ∉ (BookingOut.id <$> Response.bookings resp1))
    ∧ (Booking.id (Sample.mine 3 "uid-3" 300)
         ∉ (BookingOut.id <$> Response.bookings resp2)).
Proof.
  assert (NoDup (Booking.id <$> PrismaClient.rows (Sample.store Sample.twoPaths)))
    as Hnd by (refine (bool_decide_unpack _ _); vm_compute; exact I).
  eexists. eexists. eexists.
  split; [exact Hnd|]. split; [lia|].
  split; [vm_compute; reflexivity|]. split; [reflexivity|].
  split; [vm_compute; reflexivity|]. split; [reflexivity|].
  split; [vm_compute; reflexivity|]. split; [lia|].
  refine (next_cursor_skips_rows Sample.parseRecurringEvent Sample.parseMetadata
            Sample.toISOString (Sample.store Sample.twoPaths) Sample.viewer 50
            (Input.filters (Sample.input upcoming None None)) 1 4 _ ∅ _ ∅ 0%nat 2%nat _
            (Sample.mine 3 "uid-3" 300) Hnd _ _ _ _ _ _ _ _).
  - lia.
  - vm_compute; reflexivity.
  - reflexivity.
  - vm_compute; reflexivity.
  - reflexivity.
  - intros [|[|[|[|[|i']]]]] w' Hw' Hne; try done; cbn in Hw';
      injection Hw' as <-; vm_compute; reflexivity.
  - vm_compute; reflexivity.
  - lia.
Defined.

(** ** The visibility paths *)

Lemma some_true {A} (c : A -> bool) (l : list A) :
  some c l = true <-> exists x, x ∈ l ∧ c x = true.
Proof.
  unfold some. rewrite existsb_exists. by setoid_rewrite list_elem_of_In.
Qed.

Lemma adminOrOwner_true user m :
  adminOrOwner user m = true <->
  Membership.userId m = Viewer.id user
  ∧ (Membership.role m = ADMIN ∨ Membership.role m = OWNER).
Proof.
  unfold adminOrOwner. rewrite andb_true_iff, Z.eqb_eq.
  destruct (Membership.role m); intuition discriminate.
Qed.

Lemma admin_of_team user (x : Team.t) :
  some (adminOrOwner user) (Team.members x) = true
  ∨ rel (fun p => some (adminOrOwner user) (Organization.members p)) (Team.parent x) = true ->
  exists m, m ∈ teamMembers x ∧ adminOrOwner user m = true.
Proof.
  unfold teamMembers. intros [Hm|Hp].
  - apply some_true in Hm as (m & Hm & Ha). exists m. split; [|done].
    apply elem_of_app. by left.
  - destruct (Team.parent x) as [p|]; [|done]. cbn in Hp.
    apply some_true in Hp as (m & Hm & Ha). exists m. split; [|done].
    apply elem_of_app. by right.
Qed.

(** The team-event condition holds only if an inspected membership of the
    viewer is that of an admin or owner, and only of a booking whose event
    type is a team's or has a parent. *)
Lemma whereQueryTeamEvents_true user passed combined b :
  whereQueryTeamEvents user passed combined b = true ->
  (exists m, m ∈ inspectedMemberships b ∧ adminOrOwner user m = true)
  ∧ exists et, Booking.eventType b = Some et
               ∧ (is_Some (EventType.team et) ∨ is_Some (EventType.parent et)).
Proof.
  unfold whereQueryTeamEvents, inspectedMemberships.
  intros [Hor _]%andb_true_iff. unfold OR in Hor. cbn [existsb] in Hor.
  destruct (Booking.eventType b) as [et|]; [|done]. cbn [rel from_option] in *.
  rewrite !orb_true_iff in Hor.
  destruct Hor as [H|[H|[H|[H|H]]]]; [| | | |done].
  - destruct (EventType.team et) as [x|] eqn:Hteam; [|done]. cbn [rel from_option] in *.
    destruct (admin_of_team user x) as (m & Hm & Ha); [by right|].
    split; [|exists et; split; [done|left; rewrite Hteam; by eexists]].
    exists m. split; [|done]. apply elem_of_app. left. apply elem_of_app. by left.
  - destruct (EventType.team et) as [x|] eqn:Hteam; [|done]. cbn [rel from_option] in *.
    destruct (admin_of_team user x) as (m & Hm & Ha); [by left|].
    split; [|exists et; split; [done|left; rewrite Hteam; by eexists]].
    exists m. split; [|done]. apply elem_of_app. left. apply elem_of_app. by left.
  - destruct (EventType.parent et) as [pe|] eqn:Hparent; [|done].
    cbn [rel from_option] in *.
    destruct (ParentEventType.team pe) as [x|]; [|done]. cbn [rel from_option] in *.
    destruct (admin_of_team user x) as (m & Hm & Ha); [by left|].
    split; [|exists et; split; [done|right; rewrite Hparent; by eexists]].
    exists m. split; [|done]. apply elem_of_app. left. apply elem_of_app. by right.
  - destruct (EventType.parent et) as [pe|] eqn:Hparent; [|done].
    cbn [rel from_option] in *.
    destruct (ParentEventType.team pe) as [x|]; [|done]. cbn [rel from_option] in *.
    destruct (admin_of_team user x) as (m & Hm & Ha); [by right|].
    split; [|exists et; split; [done|right; rewrite Hparent; by eexists]].
    exists m. split; [|done]. apply elem_of_app. left. apply elem_of_app. by right.
Qed.

(** The team-personal condition holds only if an inspected membership of
    the viewer is that of an admin or owner, and only of a booking whose
    event type is no team's and has no parent. *)
Lemma whereQueryTeamUsersPersonalEvents_true user passed combined b :
  whereQueryTeamUsersPersonalEvents user passed combined b = true ->
  (exists m, m ∈ inspectedMemberships b ∧ adminOrOwner user m = true)
  ∧ exists et, Booking.eventType b = Some et
               ∧ EventType.team et = None ∧ EventType.parent et = None.
Proof.
  unfold whereQueryTeamUsersPersonalEvents, inspectedMemberships.
  rewrite AND_app, !AND_cons, !andb_true_iff.
  intros [(_ & Hor & Hteam & Hparent & _) _].
  split.
  - unfold OR in Hor. cbn [existsb] in Hor. rewrite !orb_true_iff in Hor.
    destruct (Booking.user b) as [u|]; [|by destruct Hor as [?|[?|?]]].
    cbn [rel from_option] in *.
    assert (exists x, x ∈ User.teams u
                      ∧ exists m, m ∈ teamMembers x ∧ adminOrOwner user m = true)
      as (x & Hx & m & Hm & Ha).
    { destruct Hor as [H|[H|H]]; [| |done];
        apply some_true in H as (x & Hx & H); exists x; (split; [done|]);
        apply admin_of_team; [by right|by left]. }
    exists m. split; [|done]. apply elem_of_app. right.
    apply list_elem_of_join. exists (teamMembers x). split; [done|].
    by apply list_elem_of_fmap_2.
  - destruct (Booking.eventType b) as [et|]; [|done]. cbn [rel] in *.
    exists et. unfold EventType.teamId, EventType.parentId in *.
    destruct (EventType.team et), (EventType.parent et); done.
Qed.

(** The team-event query and the team-personal query never return the same
    booking: the first needs an event type that is a team's or has a parent,
    the second an event type that is no team's and has no parent.  Both need
    an inspected membership in which the viewer is admin or owner. *)
Theorem team_paths_disjoint_and_admin_only prisma user passed filters orderBy take skip
    (teamEvents personalEvents : list Booking.t) :
  bookingsQueryTeamEvents prisma user passed filters orderBy take skip = Ok teamEvents ->
  bookingsQueryTeamUsersPersonalEvents prisma user passed filters orderBy take skip
  = Ok personalEvents ->
  (forall b, b ∈ teamEvents -> b ∉ personalEvents)
  ∧ (forall b, b ∈ teamEvents ∨ b ∈ personalEvents ->
       exists m, m ∈ inspectedMemberships b
                 ∧ Membership.userId m = Viewer.id user
                 ∧ (Membership.role m = ADMIN ∨ Membership.role m = OWNER)).
Proof.
  intros [_ H3]%findMany_Ok [_ H4]%findMany_Ok. split.
  - intros b [_ (_ & et & Het & Hteam)%whereQueryTeamEvents_true]%H3
      [_ (_ & et' & Het' & Hnone & Hnone')%whereQueryTeamUsersPersonalEvents_true]%H4.
    rewrite Het in Het'. injection Het' as <-. rewrite Hnone, Hnone' in Hteam.
    by destruct Hteam as [[? ?]|[? ?]].
  - intros b [[_ [(m & Hm & Ha) _]%whereQueryTeamEvents_true]%H3
             |[_ [(m & Hm & Ha) _]%whereQueryTeamUsersPersonalEvents_true]%H4];
      apply adminOrOwner_true in Ha; by exists m.
Qed.

Lemma direct_paths_true user passed combined b :
  (whereQueryUserId user passed combined b = true ->
   Booking.userId b = Some (Viewer.id user))
  ∧ (whereQueryAttendees user passed combined b = true ->
     exists a, a ∈ Booking.attendees b ∧ Attendee.email a = Viewer.email user)
  ∧ (whereQuerySeatReference user passed combined b = true ->
     exists s, s ∈ Booking.seatsReferences b
               ∧ Attendee.email (BookingSeat.attendee s) = Viewer.email user).
Proof.
  unfold whereQueryUserId, whereQueryAttendees, whereQuerySeatReference, OR.
  cbn [existsb]. rewrite !orb_false_r. split_and!; intros [H _]%andb_true_iff.
  - unfold equalsZ in H. destruct (Booking.userId b) as [x|]; [|done].
    apply Z.eqb_eq in H. by subst.
  - apply some_true in H as (a & Ha & He). exists a. split; [done|].
    by apply String.eqb_eq.
  - apply some_true in H as (s & Hs & He). exists s. split; [done|].
    by apply String.eqb_eq.
Qed.

Section Access.
Context {RecurringEvent EventTypeMetaData : Type}.
Variable parseRecurringEvent : option Json -> option RecurringEvent.
Variable EventTypeMetaDataSchema_parse : Json -> Result EventTypeMetaData.
Variable toISOString : Z -> string.

Local Abbreviation getHandler' :=
  (getHandler parseRecurringEvent EventTypeMetaDataSchema_parse toISOString).

(** With [id] the key of the table, a booking that the viewer does not own,
    does not attend and holds no seat of, and around which every membership
    of the viewer that the team conditions inspect is that of a plain
    member, is in no response. *)
Theorem plain_member_sees_no_foreign_booking prisma user now input set resp set'
    (b : Booking.t) :
  NoDup (Booking.id <$> PrismaClient.rows prisma) ->
  getHandler' prisma user now input set = (Ok resp, set') ->
  b ∈ PrismaClient.rows prisma ->
  Booking.userId b ≠ Some (Viewer.id user) ->
  Forall (fun a => Attendee.email a ≠ Viewer.email user) (Booking.attendees b) ->
  Forall (fun s => Attendee.email (BookingSeat.attendee s) ≠ Viewer.email user)
         (Booking.seatsReferences b) ->
  Forall (fun m => Membership.userId m = Viewer.id user -> Membership.role m = MEMBER)
         (inspectedMemberships b) ->
  Booking.id b ∉ (BookingOut.id <$> Response.bookings resp).
Proof.
  intros Hnd Hh Hb Howner Hatt Hseat Hrole (out & Hid & Hout)%list_elem_of_fmap.
  destruct (response_row_source _ _ _ _ _ _ _ _ _ _ _ Hh Hout)
    as (b' & p & Hb' & Hn & Hp & Hpid & Hm).
  apply normalize_redact_select in Hn as [_ Hi].
  assert (b' = b) as -> by (eapply (NoDup_fmap_inj Booking.id); eauto; congruence).
  assert (p = b) as -> by (eapply (NoDup_fmap_inj Booking.id); eauto).
  rewrite Forall_forall in Hatt. rewrite Forall_forall in Hseat.
  rewrite Forall_forall in Hrole.
  apply matches_true in Hm.
  destruct (direct_paths_true user
              (bookingListingFilters now (Filters.status (Input.filters input)))
              (filtersCombined (Input.filters input)) b) as (Ho & Ha & Hs).
  destruct Hm as [H|[H|[H|[H|H]]]].
  - by apply Howner, Ho.
  - destruct (Ha H) as (a & Hin & He). by apply (Hatt a Hin).
  - apply whereQueryTeamEvents_true in H as [(m & Hin & Hadm) _].
    apply adminOrOwner_true in Hadm as [Hu Hr].
    rewrite (Hrole m Hin Hu) in Hr. by destruct Hr.
  - apply whereQueryTeamUsersPersonalEvents_true in H as [(m & Hin & Hadm) _].
    apply adminOrOwner_true in Hadm as [Hu Hr].
    rewrite (Hrole m Hin Hu) in Hr. by destruct Hr.
  - destruct (Hs H) as (s & Hin & He). by apply (Hseat s Hin).
Qed.

(** The recurringInfo of the response is the same for every request of a
    viewer on a store: it depends neither on the status tag, nor on the
    scoping filters, nor on the page, nor on the time of the request. *)
Theorem recurringInfo_same_for_every_request prisma user now1 now2 input1 input2
    set1 set2 set1' set2' resp1 resp2 :
  getHandler' prisma user now1 input1 set1 = (Ok resp1, set1') ->
  getHandler' prisma user now2 input2 set2 = (Ok resp2, set2') ->
  Response.recurringInfo resp1 = Response.recurringInfo resp2.
Proof.
  intros (basic1 & ext1 & Hb1 & He1 & Hi1)%getHandler_recurringInfo
    (basic2 & ext2 & Hb2 & He2 & Hi2)%getHandler_recurringInfo.
  congruence.
Qed.
End Access.

(** ** The recurring summaries over the store *)

Lemma NoDup_distinctKeys {K} `{EqDecision K} (ks : list K) : NoDup (distinctKeys ks).
Proof.
  induction ks as [|k ks IH]; cbn [distinctKeys]; constructor.
  - by intros [? _]%list_elem_of_filter.
  - by apply NoDup_filter.
Qed.

Lemma NoDup_groupKeys {K} `{EqDecision K} (R : relation K) `{!RelDecision R}
    (ks : list K) :
  NoDup (groupKeys R ks).
Proof. rewrite groupKeys_Permutation. apply NoDup_distinctKeys. Qed.

Lemma minDate_le (l : list Z) (x : Z) :
  x ∈ l -> exists m, minDate l = Some m ∧ m <= x.
Proof.
  destruct l as [|x0 l]; [by intros ?%elem_of_nil|]. intros Hx. cbn [minDate].
  eexists. split; [done|]. revert Hx. generalize x0. clear x0.
  induction l as [|y l IH]; intros x0 Hx; cbn [foldr].
  - apply list_elem_of_singleton in Hx as ->. lia.
  - apply elem_of_cons in Hx as [->|[->|Hx]%elem_of_cons].
    + specialize (IH x0 ltac:(by left)). lia.
    + lia.
    + specialize (IH x0 ltac:(by right)). lia.
Qed.

Lemma recurringInfo_Ok basic ext infos :
  recurringInfo basic ext = Ok infos ->
  Forall2 (fun group summary => recurringInfoOf ext group = Ok summary) basic infos.
Proof. apply mapM_Ok. Qed.

Lemma recurringInfoOf_fields ext group summary :
  recurringInfoOf ext group = Ok summary ->
  RecurringSeriesSummary.recurringEventId summary = RecurringInfoBasic.recurringEventId group
  ∧ RecurringSeriesSummary.count summary = RecurringInfoBasic.count_recurringEventId group
  ∧ RecurringSeriesSummary.firstDate summary = RecurringInfoBasic.min_startTime group
  ∧ forall s, RecurringSeriesSummary.bookings summary !! s
              = Some (bucketOf ext (RecurringInfoBasic.recurringEventId group) s).
Proof.
  intros Hs. destruct (recurringInfoOf_Ok ext group) as (summary' & Hs' & H1 & H2 & H3 & _ & H4).
  rewrite Hs in Hs'. injection Hs' as <-. done.
Qed.

Section Summaries.
Context {RecurringEvent EventTypeMetaData : Type}.
Variable parseRecurringEvent : option Json -> option RecurringEvent.
Variable EventTypeMetaDataSchema_parse : Json -> Result EventTypeMetaData.
Variable toISOString : Z -> string.

Local Abbreviation getHandler' :=
  (getHandler parseRecurringEvent EventTypeMetaDataSchema_parse toISOString).

(** The summaries of a response have pairwise distinct series ids, and
    every booking of the store that the viewer owns and that belongs to a
    series is accounted for: the summary of its series counts the bookings
    of the viewer in that series, has a first date no later than the start
    of the booking, and lists that start time, once, in the bucket of the
    status of the booking. *)
Theorem owned_series_bookings_summarised prisma user now input set resp set'
    (b : Booking.t) :
  getHandler' prisma user now input set = (Ok resp, set') ->
  b ∈ PrismaClient.rows prisma ->
  ownedInSeries user b ->
  NoDup (RecurringSeriesSummary.recurringEventId <$> Response.recurringInfo resp)
  ∧ exists summary first bucket,
      summary ∈ Response.recurringInfo resp
      ∧ RecurringSeriesSummary.recurringEventId summary = Booking.recurringEventId b
      ∧ RecurringSeriesSummary.count summary
        = Z.of_nat (length (filter (fun r => Booking.recurringEventId r
                                             = Booking.recurringEventId b
                                             ∧ ownedInSeries user r)
                                   (PrismaClient.rows prisma)))
      ∧ RecurringSeriesSummary.firstDate summary = Some first
      ∧ first <= Booking.startTime b
      ∧ RecurringSeriesSummary.bookings summary !! Booking.status b = Some bucket
      ∧ Booking.startTime b ∈ bucket
      ∧ NoDup bucket.
Proof.
  intros (basic & ext & Hb & He & Hi)%getHandler_recurringInfo Hrow Hscope.
  unfold recurringInfoBasic, groupByBasic in Hb.
  unfold recurringInfoExtended, groupByExtended in He.
  destruct (PrismaClient.fault prisma QRecurringInfoBasic); [done|].
  destruct (PrismaClient.fault prisma QRecurringInfoExtended); [done|].
  rewrite filter_whereRecurringInfo in Hb, He.
  set (scope := filter (ownedInSeries user) (PrismaClient.rows prisma)) in *.
  injection Hb as <-. injection He as <-.
  apply recurringInfo_Ok in Hi.
  assert (b ∈ scope) as Hbs by (by apply list_elem_of_filter).
  split.
  - replace (RecurringSeriesSummary.recurringEventId <$> Response.recurringInfo resp)
      with (groupKeys seriesOrder (Booking.recurringEventId <$> scope));
      [apply NoDup_groupKeys|].
    apply Forall2_fmap_l in Hi.
    clear -Hi. induction Hi as [|k summary ks infos Hk _ IH]; [done|].
    apply recurringInfoOf_fields in Hk as [Hk _]. cbn. by rewrite Hk, IH.
  - assert (Booking.recurringEventId b
              ∈ groupKeys seriesOrder (Booking.recurringEventId <$> scope))
      as Hkey by (by apply elem_of_groupKeys, list_elem_of_fmap_2).
    apply list_elem_of_lookup in Hkey as [i Hkey].
    apply Forall2_fmap_l in Hi.
    destruct (Forall2_lookup_l _ _ _ _ _ Hi Hkey) as (summary & Hsum & Hof).
    apply recurringInfoOf_fields in Hof as (Hid & Hcount & Hfirst & Hbuckets).
    cbn in Hid, Hcount, Hfirst, Hbuckets.
    destruct (minDate_le
                (Booking.startTime <$>
                   filter (fun r => Booking.recurringEventId r = Booking.recurringEventId b)
                          scope) (Booking.startTime b)) as (first & Hmin & Hle).
    { apply list_elem_of_fmap_2. by apply list_elem_of_filter. }
    exists summary, first. eexists. split_and!.
    + by eapply list_elem_of_lookup_2.
    + done.
    + rewrite Hcount. do 2 f_equal. unfold scope. rewrite !list_filter_filter.
      apply list_filter_iff. intros r. split; [tauto|].
      intros (Heq & Hr). split_and!; try done. apply Hr.
    + by rewrite Hfirst.
    + done.
    + apply Hbuckets.
    + unfold bucketOf. apply list_elem_of_fmap.
      eexists {| RecurringInfoExtended.recurringEventId := Booking.recurringEventId b;
                 RecurringInfoExtended.status := Booking.status b;
                 RecurringInfoExtended.startTime := Booking.startTime b;
                 RecurringInfoExtended.min_startTime := _ |}.
      split; [done|]. apply list_elem_of_filter. split; [done|].
      apply list_elem_of_fmap.
      exists (Booking.recurringEventId b, Booking.status b, Booking.startTime b).
      split; [done|].
      apply elem_of_groupKeys.
      by apply (list_elem_of_fmap_2
                  (fun b => (Booking.recurringEventId b, Booking.status b,
                             Booking.startTime b))).
    + unfold bucketOf. apply NoDup_fmap_2_strong.
      * intros x y [[Hx1 Hx2] (kx & -> & _)%list_elem_of_fmap]%list_elem_of_filter
          [[Hy1 Hy2] (ky & -> & _)%list_elem_of_fmap]%list_elem_of_filter Ht.
        cbn in *. destruct kx as [[? ?] ?], ky as [[? ?] ?]. cbn in *. subst.
        done.
      * apply NoDup_filter. apply NoDup_fmap_2_strong; [|apply NoDup_groupKeys].
        intros x y _ _ [= H1 H2 H3 _]. destruct x as [[? ?] ?], y as [[? ?] ?].
        cbn in *. by subst.
Qed.
End Summaries.

(** ** Metadata validation *)

Lemma eventType_of_redact user b :
  Selected.eventType (redact user (bookingSelect user b))
  = selectEventType <$> Booking.eventType b.
Proof. unfold redact. by destruct (redactionApplies _). Qed.

Section Validation.
Context {RecurringEvent EventTypeMetaData : Type}.
Variable parseRecurringEvent : option Json -> option RecurringEvent.
Variable EventTypeMetaDataSchema_parse : Json -> Result EventTypeMetaData.
Variable toISOString : Z -> string.

Local Abbreviation getHandler' :=
  (getHandler parseRecurringEvent EventTypeMetaDataSchema_parse toISOString).
Local Abbreviation normalize' :=
  (normalize parseRecurringEvent EventTypeMetaDataSchema_parse toISOString).

Lemma normalize_rejected user b e :
  EventTypeMetaDataSchema_parse
    (match EventType.metadata <$> Booking.eventType b with
     | Some m => if truthy m then m else JObj []
     | None => JObj []
     end) = Err e ->
  normalize' (redact user (bookingSelect user b)) = Err e.
Proof.
  intros He. unfold normalize. rewrite eventType_of_redact.
  destruct (Booking.eventType b) as [et|]; cbn in *; by rewrite He.
Qed.

(** With [uid] a key of the table and the deduplication set empty: when
    one of the five queries returns a booking whose event-type metadata
    (the empty object when the booking has no event type or the metadata is
    falsy) is rejected by the metadata schema, the request fails; no
    partial list is returned. *)
Theorem rejected_metadata_fails_request prisma user now input
    (result : list Booking.t) (b : Booking.t) e :
  NoDup (Booking.uid <$> PrismaClient.rows prisma) ->
  Ok result
    ∈ visibilityQueries prisma user
        (bookingListingFilters now (Filters.status (Input.filters input)))
        (Input.filters input)
        (bookingListingOrderby (Filters.status (Input.filters input)))
        (default 10 (Input.limit input)) (default 0 (Input.cursor input)) ->
  b ∈ result ->
  EventTypeMetaDataSchema_parse
    (match EventType.metadata <$> Booking.eventType b with
     | Some m => if truthy m then m else JObj []
     | None => JObj []
     end) = Err e ->
  exists e', (getHandler' prisma user now input set_init).1 = Err e'.
Proof.
  intros Huid Hq Hb He.
  destruct (getHandler' prisma user now input set_init) as [[resp|e'] set'] eqn:Hh;
    [exfalso|by eexists].
  destruct (getHandler_rows _ _ _ _ _ _ _ _ _ _ Hh)
    as (results & found & Hres & _ & Hfound & Hnorm).
  destruct (result_of_query _ _ _ _ _ _ _ _ _ Hres Hq) as [Hin _].
  assert (b ∈ found) as Hbf.
  { rewrite Hfound. eapply results_enriched; [done..|].
    apply list_elem_of_join. by exists result. }
  apply list_elem_of_lookup in Hbf as [i Hi].
  destruct (Forall2_lookup_l _ _ _ _ _ Hnorm Hi) as (out & _ & Hout).
  by rewrite (normalize_rejected _ _ _ He) in Hout.
Qed.
End Validation.

(** ** The order of the groups *)

Lemma string_leb_trans (a b c : string) :
  String.leb a b = true -> String.leb b c = true -> String.leb a c = true.
Proof.
  unfold String.leb. intros H1 H2.
  destruct (String.compare a b) eqn:E1; [| |done].
  - by apply String.compare_eq_iff in E1 as ->.
  - destruct (String.compare b c) eqn:E2; [| |done].
    + apply String.compare_eq_iff in E2 as <-. by rewrite E1.
    + apply OrderedTypeEx.String_as_OT.cmp_lt in E1, E2.
      pose proof (OrderedTypeEx.String_as_OT.lt_trans _ _ _ E1 E2) as H.
      apply OrderedTypeEx.String_as_OT.cmp_lt in H.
      unfold OrderedTypeEx.String_as_OT.cmp in H. by rewrite H.
Qed.

#[global] Instance seriesOrder_total : Total seriesOrder.
Proof. intros [x|] [y|]; cbn; try tauto. apply String.leb_total. Qed.

#[global] Instance seriesOrder_trans : Transitive seriesOrder.
Proof. intros [x|] [y|] [z|]; cbn; try tauto. apply string_leb_trans. Qed.

#[global] Instance seriesOrder_antisym : AntiSymm eq seriesOrder.
Proof.
  intros [x|] [y|]; cbn; try tauto. intros H1 H2. f_equal. by apply String.leb_antisym.
Qed.

Lemma statusRank_inj (s1 s2 : BookingStatus) : statusRank s1 = statusRank s2 -> s1 = s2.
Proof. by destruct s1, s2. Qed.

#[global] Instance extendedKeyOrder_total : Total extendedKeyOrder.
Proof.
  intros [[a1 a2] a3] [[b1 b2] b3]. unfold extendedKeyOrder. cbn.
  destruct (decide (a1 = b1)) as [Hs|Hs], (decide (b1 = a1)) as [Hs'|Hs'];
    try congruence; [|apply (total seriesOrder)].
  destruct (decide (a2 = b2)) as [Hr|Hr], (decide (b2 = a2)) as [Hr'|Hr'];
    try congruence; [lia|].
  assert (statusRank a2 ≠ statusRank b2) by (by intros ?%statusRank_inj). lia.
Qed.

#[global] Instance extendedKeyOrder_trans : Transitive extendedKeyOrder.
Proof.
  intros [[a1 a2] a3] [[b1 b2] b3] [[c1 c2] c3]. unfold extendedKeyOrder. cbn.
  destruct (decide (a1 = b1)) as [Hab|Hab], (decide (b1 = c1)) as [Hbc|Hbc],
    (decide (a1 = c1)) as [Hac|Hac]; try congruence.
  - destruct (decide (a2 = b2)) as [Hab'|Hab'], (decide (b2 = c2)) as [Hbc'|Hbc'],
      (decide (a2 = c2)) as [Hac'|Hac']; try congruence; subst; lia.
  - subst. intros H1 H2. destruct Hab. by apply (anti_symm seriesOrder).
  - intros H1 H2. by transitivity b1.
Qed.

Lemma StronglySorted_filter {A} (R : relation A) (P : A -> Prop)
    `{!forall x, Decision (P x)} (l : list A) :
  StronglySorted R l -> StronglySorted R (filter P l).
Proof.
  induction 1 as [|x l _ IH Hx]; [constructor|].
  rewrite filter_cons. case_decide; [|done].
  constructor; [done|]. apply Forall_forall. intros y [_ Hy]%list_elem_of_filter.
  rewrite Forall_forall in Hx. by apply Hx.
Qed.











Section GroupOrder.
Context {RecurringEvent EventTypeMetaData : Type}.
Variable parseRecurringEvent : option Json -> option RecurringEvent.
Variable EventTypeMetaDataSchema_parse : Json -> Result EventTypeMetaData.
Variable toISOString : Z -> string.

Local Abbreviation getHandler' :=
  (getHandler parseRecurringEvent EventTypeMetaDataSchema_parse toISOString).


End GroupOrder.

(** ** The further properties on sample stores *)

Lemma response_lists_only_matching_witness :
  exists resp out,
    NoDup (Booking.id <$> PrismaClient.rows (Sample.store Sample.threeUpcoming))
    ∧ Sample.handle (Sample.store Sample.threeUpcoming) 50 (Sample.input upcoming None None)
      = (Ok resp, ∅)
    ∧ out ∈ Response.bookings resp
    ∧ exists b,
        b ∈ PrismaClient.rows (Sample.store Sample.threeUpcoming)
        ∧ BookingOut.id out = Booking.id b
        ∧ BookingOut.uid out = Booking.uid b
        ∧ matches Sample.viewer (bookingListingFilters 50 upcoming)
            (Input.filters (Sample.input upcoming None None)) b = true
        ∧ tablePredicate 50 upcoming b
        ∧ Forall (fun w : WhereInput => w b = true)
            (filtersCombined (Input.filters (Sample.input upcoming None None))).
Proof.
  assert (NoDup (Booking.id <$> PrismaClient.rows (Sample.store Sample.threeUpcoming)))
    as Hnd by (refine (bool_decide_unpack _ _); vm_compute; exact I).
  eexists. eexists. split; [exact Hnd|].
  split; [vm_compute; reflexivity|].
  split; [apply list_elem_of_here|].
  refine (response_lists_only_matching Sample.parseRecurringEvent Sample.parseMetadata
            Sample.toISOString (Sample.store Sample.threeUpcoming) Sample.viewer 50
            (Sample.input upcoming None None) set_init _ ∅ _ Hnd _ _).
  - vm_compute; reflexivity.
  - apply list_elem_of_here.
Defined.

Lemma empty_scoping_list_lists_nothing_witness :
  exists resp,
    (Filters.teamIds (Input.filters (SampleTeams.noTeams upcoming)) = Some []
     ∨ Filters.userIds (Input.filters (SampleTeams.noTeams upcoming)) = Some []
     ∨ Filters.eventTypeIds (Input.filters (SampleTeams.noTeams upcoming)) = Some [])
    ∧ Sample.handle (Sample.store Sample.threeUpcoming) 50 (SampleTeams.noTeams upcoming)
      = (Ok resp, ∅)
    ∧ Response.bookings resp = []
    ∧ Response.nextCursor resp
      = if default 10 (Input.limit (SampleTeams.noTeams upcoming)) <? 0
        then Some (default 0 (Input.cursor (SampleTeams.noTeams upcoming))) else None.
Proof.
  eexists. split; [by left|]. split; [vm_compute; reflexivity|].
  refine (empty_scoping_list_lists_nothing Sample.parseRecurringEvent Sample.parseMetadata
            Sample.toISOString (Sample.store Sample.threeUpcoming) Sample.viewer 50
            (SampleTeams.noTeams upcoming) set_init _ ∅ _ _).
  - by left.
  - vm_compute; reflexivity.
Defined.

Lemma response_ordered_by_startTime_witness :
  exists resp,
    Sample.handle (Sample.store Sample.twoPaths) 50 (Sample.input upcoming None None)
    = (Ok resp, ∅)
    ∧ exists found,
        StronglySorted (startTimeOrder (bookingListingOrderby upcoming)) found
        ∧ Forall (fun b => b ∈ PrismaClient.rows (Sample.store Sample.twoPaths)) found
        ∧ BookingOut.id <$> Response.bookings resp = Booking.id <$> found
        ∧ BookingOut.startTime <$> Response.bookings resp
          = (fun b => Sample.toISOString (Booking.startTime b)) <$> found.
Proof.
  eexists. split; [vm_compute; reflexivity|].
  refine (response_ordered_by_startTime Sample.parseRecurringEvent Sample.parseMetadata
            Sample.toISOString (Sample.store Sample.twoPaths) Sample.viewer 50
            (Sample.input upcoming None None) set_init _ ∅ _).
  vm_compute; reflexivity.
Defined.

Lemma response_lists_no_booking_twice_witness :
  exists resp,
    NoDup (Booking.id <$> PrismaClient.rows (Sample.store Sample.threeUpcoming))
    ∧ Sample.handle (Sample.store Sample.threeUpcoming) 50 (Sample.input upcoming None None)
      = (Ok resp, ∅)
    ∧ NoDup (BookingOut.id <$> Response.bookings resp)
    ∧ NoDup (BookingOut.uid <$> Response.bookings resp).
Proof.
  assert (NoDup (Booking.id <$> PrismaClient.rows (Sample.store Sample.threeUpcoming)))
    as Hnd by (refine (bool_decide_unpack _ _); vm_compute; exact I).
  eexists. split; [exact Hnd|]. split; [vm_compute; reflexivity|].
  refine (response_lists_no_booking_twice Sample.parseRecurringEvent Sample.parseMetadata
            Sample.toISOString (Sample.store Sample.threeUpcoming) Sample.viewer 50
            (Sample.input upcoming None None) set_init _ ∅ Hnd _).
  vm_compute; reflexivity.
Defined.

Lemma response_size_bound_witness :
  exists resp,
    NoDup (Booking.id <$> PrismaClient.rows (Sample.store Sample.twoPaths))
    ∧ -1 <= default 10 (Input.limit (Sample.input upcoming (Some 0) None))
    ∧ Sample.handle (Sample.store Sample.twoPaths) 50 (Sample.input upcoming (Some 0) None)
      = (Ok resp, ∅)
    ∧ Z.of_nat (length (Response.bookings resp))
      <= 5 * (default 10 (Input.limit (Sample.input upcoming (Some 0) None)) + 1).
Proof.
  assert (NoDup (Booking.id <$> PrismaClient.rows (Sample.store Sample.twoPaths)))
    as Hnd by (refine (bool_decide_unpack _ _); vm_compute; exact I).
  eexists. split; [exact Hnd|]. split; [cbn; lia|]. split; [vm_compute; reflexivity|].
  refine (response_size_bound Sample.parseRecurringEvent Sample.parseMetadata
            Sample.toISOString (Sample.store Sample.twoPaths) Sample.viewer 50
            (Sample.input upcoming (Some 0) None) set_init _ ∅ Hnd _ _).
  - cbn; lia.
  - vm_compute; reflexivity.
Defined.

Lemma full_query_page_gives_next_cursor_witness :
  exists resp result,
    NoDup (Booking.id <$> PrismaClient.rows (Sample.store Sample.twoPaths))
    ∧ NoDup (Booking.uid <$> PrismaClient.rows (Sample.store Sample.twoPaths))
    ∧ Sample.handle (Sample.store Sample.twoPaths) 50 (Sample.input upcoming (Some 1) None)
      = (Ok resp, ∅)
    ∧ Ok result
        ∈ visibilityQueries (Sample.store Sample.twoPaths) Sample.viewer
            (bookingListingFilters 50 upcoming)
            (Input.filters (Sample.input upcoming (Some 1) None))
            (bookingListingOrderby upcoming) 1 0
    ∧ 1 < Z.of_nat (length result)
    ∧ (length result <= length (Response.bookings resp))%nat
    ∧ Response.nextCursor resp = Some (0 + Z.of_nat (length (Response.bookings resp))).
Proof.
  assert (NoDup (Booking.id <$> PrismaClient.rows (Sample.store Sample.twoPaths)))
    as Hid by (refine (bool_decide_unpack _ _); vm_compute; exact I).
  assert (NoDup (Booking.uid <$> PrismaClient.rows (Sample.store Sample.twoPaths)))
    as Huid by (refine (bool_decide_unpack _ _); vm_compute; exact I).
  eexists. eexists. split; [exact Hid|]. split; [exact Huid|].
  split; [vm_compute; reflexivity|].
  split; [apply list_elem_of_here|]. split; [vm_compute; reflexivity|].
  refine (full_query_page_gives_next_cursor Sample.parseRecurringEvent Sample.parseMetadata
            Sample.toISOString (Sample.store Sample.twoPaths) Sample.viewer 50
            (Sample.input upcoming (Some 1) None) _ ∅ _ Hid Huid _ _ _).
  - vm_compute; reflexivity.
  - apply list_elem_of_here.
  - vm_compute; reflexivity.
Defined.

Lemma short_listings_returned_whole_witness :
  exists resp,
    (Sample.handle (Sample.store Sample.threeUpcoming) 50
       (pageRequest (Input.filters (Sample.input upcoming None None)) 10 0)).1 = Ok resp
    ∧ length (Response.bookings resp)
      = length (filter (fun b => matches Sample.viewer (bookingListingFilters 50 upcoming)
                                   (Input.filters (Sample.input upcoming None None)) b = true)
                       (PrismaClient.rows (Sample.store Sample.threeUpcoming)))
    ∧ forall b, b ∈ PrismaClient.rows (Sample.store Sample.threeUpcoming) ->
        (matches Sample.viewer (bookingListingFilters 50 upcoming)
           (Input.filters (Sample.input upcoming None None)) b = true
         <-> Booking.id b ∈ BookingOut.id <$> Response.bookings resp).
Proof.
  refine (short_listings_returned_whole Sample.parseRecurringEvent Sample.parseMetadata
            Sample.toISOString (Sample.store Sample.threeUpcoming) Sample.viewer 50
            (Input.filters (Sample.input upcoming None None)) 10 _ _ _ _ _).
  - reflexivity.
  - refine (bool_decide_unpack _ _); vm_compute; exact I.
  - refine (bool_decide_unpack _ _); vm_compute; exact I.
  - reflexivity.
  - unfold visibilityWheres.
    repeat (constructor; [vm_compute; discriminate|]). constructor.
Defined.

Lemma team_paths_disjoint_and_admin_only_witness :
  exists teamEvents personalEvents,
    bookingsQueryTeamEvents (Sample.store SampleTeams.rows) Sample.viewer
      (bookingListingFilters 50 upcoming) (Input.filters (Sample.input upcoming None None))
      asc 10 0 = Ok teamEvents
    ∧ bookingsQueryTeamUsersPersonalEvents (Sample.store SampleTeams.rows) Sample.viewer
        (bookingListingFilters 50 upcoming) (Input.filters (Sample.input upcoming None None))
        asc 10 0 = Ok personalEvents
    ∧ teamEvents = [SampleTeams.teamBooking]
    ∧ personalEvents = [SampleTeams.colleagueBooking]
    ∧ (forall b, b ∈ teamEvents -> b ∉ personalEvents)
    ∧ (forall b, b ∈ teamEvents ∨ b ∈ personalEvents ->
         exists m, m ∈ inspectedMemberships b
                   ∧ Membership.userId m = Viewer.id Sample.viewer
                   ∧ (Membership.role m = ADMIN ∨ Membership.role m = OWNER)).
Proof.
  eexists. eexists. split; [vm_compute; reflexivity|]. split; [vm_compute; reflexivity|].
  split; [reflexivity|]. split; [reflexivity|].
  refine (team_paths_disjoint_and_admin_only (Sample.store SampleTeams.rows) Sample.viewer
            (bookingListingFilters 50 upcoming)
            (Input.filters (Sample.input upcoming None None)) asc 10 0 _ _ _ _).
  - vm_compute; reflexivity.
  - vm_compute; reflexivity.
Defined.

Lemma plain_member_sees_no_foreign_booking_witness :
  exists resp,
    NoDup (Booking.id <$> PrismaClient.rows (Sample.store SampleTeams.rows))
    ∧ Sample.handle (Sample.store SampleTeams.rows) 50 (Sample.input upcoming None None)
      = (Ok resp, ∅)
    ∧ SampleTeams.memberBooking ∈ PrismaClient.rows (Sample.store SampleTeams.rows)
    ∧ Booking.userId SampleTeams.memberBooking ≠ Some (Viewer.id Sample.viewer)
    ∧ Booking.id SampleTeams.memberBooking ∉ (BookingOut.id <$> Response.bookings resp).
Proof.
  assert (NoDup (Booking.id <$> PrismaClient.rows (Sample.store SampleTeams.rows)))
    as Hnd by (refine (bool_decide_unpack _ _); vm_compute; exact I).
  assert (SampleTeams.memberBooking ∈ PrismaClient.rows (Sample.store SampleTeams.rows))
    as Hrow by (do 2 apply list_elem_of_further; apply list_elem_of_here).
  eexists. split; [exact Hnd|]. split; [vm_compute; reflexivity|].
  split; [exact Hrow|]. split; [discriminate|].
  refine (plain_member_sees_no_foreign_booking Sample.parseRecurringEvent
            Sample.parseMetadata Sample.toISOString (Sample.store SampleTeams.rows)
            Sample.viewer 50 (Sample.input upcoming None None) set_init _ ∅
            SampleTeams.memberBooking Hnd _ Hrow _ _ _ _).
  - vm_compute; reflexivity.
  - discriminate.
  - constructor.
  - constructor.
  - vm_compute. repeat constructor; intros Hm; try reflexivity; discriminate Hm.
Defined.

Lemma recurringInfo_same_for_every_request_witness :
  exists resp1 resp2,
    Sample.handle (Sample.store Sample.seriesRows) 50 (Sample.input upcoming None None)
    = (Ok resp1, ∅)
    ∧ Sample.handle (Sample.store Sample.seriesRows) 5000 (Sample.input past (Some 1) None)
      = (Ok resp2, ∅)
    ∧ Response.recurringInfo resp1 = Response.recurringInfo resp2.
Proof.
  eexists. eexists. split; [vm_compute; reflexivity|]. split; [vm_compute; reflexivity|].
  refine (recurringInfo_same_for_every_request Sample.parseRecurringEvent
            Sample.parseMetadata Sample.toISOString (Sample.store Sample.seriesRows)
            Sample.viewer 50 5000 (Sample.input upcoming None None)
            (Sample.input past (Some 1) None) set_init set_init ∅ ∅ _ _ _ _).
  - vm_compute; reflexivity.
  - vm_compute; reflexivity.
Defined.

Lemma owned_series_bookings_summarised_witness :
  exists resp,
    Sample.handle (Sample.store Sample.seriesRows) 50 (Sample.input upcoming None None)
    = (Ok resp, ∅)
    ∧ Sample.occurrence1 ∈ PrismaClient.rows (Sample.store Sample.seriesRows)
    ∧ ownedInSeries Sample.viewer Sample.occurrence1
    ∧ NoDup (RecurringSeriesSummary.recurringEventId <$> Response.recurringInfo resp)
    ∧ exists summary first bucket,
        summary ∈ Response.recurringInfo resp
        ∧ RecurringSeriesSummary.recurringEventId summary
          = Booking.recurringEventId Sample.occurrence1
        ∧ RecurringSeriesSummary.count summary
          = Z.of_nat (length (filter (fun r => Booking.recurringEventId r
                                               = Booking.recurringEventId Sample.occurrence1
                                               ∧ ownedInSeries Sample.viewer r)
                                     (PrismaClient.rows (Sample.store Sample.seriesRows))))
        ∧ RecurringSeriesSummary.firstDate summary = Some first
        ∧ first <= Booking.startTime Sample.occurrence1
        ∧ RecurringSeriesSummary.bookings summary !! Booking.status Sample.occurrence1
          = Some bucket
        ∧ Booking.startTime Sample.occurrence1 ∈ bucket
        ∧ NoDup bucket.
Proof.
  assert (Sample.occurrence1 ∈ PrismaClient.rows (Sample.store Sample.seriesRows))
    as Hrow by apply list_elem_of_here.
  assert (ownedInSeries Sample.viewer Sample.occurrence1)
    as Hown by (split; [reflexivity|by eexists]).
  eexists. split; [vm_compute; reflexivity|]. split; [exact Hrow|]. split; [exact Hown|].
  refine (owned_series_bookings_summarised Sample.parseRecurringEvent Sample.parseMetadata
            Sample.toISOString (Sample.store Sample.seriesRows) Sample.viewer 50
            (Sample.input upcoming None None) set_init _ ∅ Sample.occurrence1 _ Hrow Hown).
  vm_compute; reflexivity.
Defined.

Lemma rejected_metadata_fails_request_witness :
  exists result e,
    NoDup (Booking.uid <$> PrismaClient.rows (Sample.store [SampleTeams.malformed]))
    ∧ Ok result
        ∈ visibilityQueries (Sample.store [SampleTeams.malformed]) Sample.viewer
            (bookingListingFilters 50 upcoming)
            (Input.filters (Sample.input upcoming None None))
            (bookingListingOrderby upcoming) 10 0
    ∧ SampleTeams.malformed ∈ result
    ∧ SampleTeams.objectsOnly (JStr "oops") = Err e
    ∧ exists e',
        (getHandler Sample.parseRecurringEvent SampleTeams.objectsOnly Sample.toISOString
           (Sample.store [SampleTeams.malformed]) Sample.viewer 50
           (Sample.input upcoming None None) set_init).1 = Err e'.
Proof.
  assert (NoDup (Booking.uid <$> PrismaClient.rows (Sample.store [SampleTeams.malformed])))
    as Hnd by (refine (bool_decide_unpack _ _); vm_compute; exact I).
  eexists. eexists. split; [exact Hnd|]. split; [apply list_elem_of_here|].
  split; [apply list_elem_of_here|]. split; [reflexivity|].
  refine (rejected_metadata_fails_request Sample.parseRecurringEvent SampleTeams.objectsOnly
            Sample.toISOString (Sample.store [SampleTeams.malformed]) Sample.viewer 50
            (Sample.input upcoming None None) _ SampleTeams.malformed _ Hnd _ _ _).
  - apply list_elem_of_here.
  - apply list_elem_of_here.
  - reflexivity.
Defined.


